(** * damo: configuration values, record codec and snapshot aggregation

    A shallow embedding of the parts of [_damon.py] and [_damon_result.py]
    that the specification talks about, with the properties proved on it.

    Conventions of the embedding.
    - Python [int] is [Z]; a Python [float] is modelled by an exact rational
      ([Q]), so [int(x)] is truncation towards zero of the exact value.
    - A Python exception is an explicit error value; a function that can raise
      returns a [res].
    - Objects used as dictionary keys by identity (the regions of the
      aggregator) are identified by their position in the list that owns them.
    - An insertion-ordered [dict] whose iteration order matters is an
      association list. *)

From Stdlib Require Import ZArith QArith Qround Lia Bool List.
From Stdlib Require Import Strings.String Strings.Ascii Strings.Byte.
From Stdlib Require Import Numbers.DecimalString Numbers.DecimalZ.
From stdpp Require Import base option list gmap.

Import ListNotations.
Local Open Scope Z_scope.

(** ** Python-side plumbing *)

Module Py.

(** The exceptions the modelled code can raise. *)
Inductive exn : Type :=
| IndexError
| KeyError
| TypeError
| ValueError
| ZeroDivisionError
| StructError
| AttributeError
| Raised (msg : string).

(** Result of a call that may raise. *)
Inductive res (A : Type) : Type :=
| Ok (a : A)
| Err (e : exn).
Arguments Ok {A} a.
Arguments Err {A} e.

Definition bind {A B : Type} (m : res A) (k : A -> res B) : res B :=
  match m with
  | Ok a => k a
  | Err e => Err e
  end.

Definition is_ok {A : Type} (m : res A) : bool :=
  match m with Ok _ => true | Err _ => false end.

(** A Python number: an [int], or a [float] modelled by its exact value. *)
Inductive num : Type :=
| Int (z : Z)
| Float (q : Q).

Definition to_Q (x : num) : Q :=
  match x with
  | Int z => inject_Z z
  | Float q => q
  end.

Definition add (x y : num) : num :=
  match x, y with
  | Int a, Int b => Int (a + b)
  | _, _ => Float (to_Q x + to_Q y)
  end.

Definition sub (x y : num) : num :=
  match x, y with
  | Int a, Int b => Int (a - b)
  | _, _ => Float (to_Q x - to_Q y)
  end.

(** [x == y] on numbers compares values, whatever the types. *)
Definition num_eqb (x y : num) : bool := Qeq_bool (to_Q x) (to_Q y).

(** Truth value of an optional number: [None], [0] and [0.0] are false. *)
Definition truthy (x : option num) : bool :=
  match x with
  | None => false
  | Some n => negb (Qeq_bool (to_Q n) 0)
  end.

(** [int(x)]: truncation towards zero. *)
Definition int_of_Q (q : Q) : Z :=
  if Qle_bool 0 q then Qfloor q else Qceiling q.

(** The values that travel through key-value pairs: [None], booleans,
    integers, text, lists and (ordered) dictionaries. *)
#[warnings="-register-all"] Inductive value : Type :=
| VNone
| VBool (b : bool)
| VInt (z : Z)
| VStr (s : string)
| VList (l : list value)
| VDict (d : list (string * value)).

Fixpoint assoc (k : string) (d : list (string * value)) : option value :=
  match d with
  | [] => None
  | (k', v) :: rest => if String.eqb k' k then Some v else assoc k rest
  end.

(** [kv[k]] *)
Definition getitem (kv : value) (k : string) : res value :=
  match kv with
  | VDict d =>
      match assoc k d with
      | Some v => Ok v
      | None => Err KeyError
      end
  | _ => Err TypeError
  end.

(** [k in kv] *)
Definition contains (kv : value) (k : string) : res bool :=
  match kv with
  | VDict d => Ok (match assoc k d with Some _ => true | None => false end)
  | _ => Err TypeError
  end.

(** Fields of the data model have a type; a value of another type is
    reported as a [TypeError]. *)
Definition as_str (v : value) : res string :=
  match v with VStr s => Ok s | _ => Err TypeError end.

Definition as_opt_int (v : value) : res (option Z) :=
  match v with
  | VNone => Ok None
  | VInt z => Ok (Some z)
  | _ => Err TypeError
  end.

Definition as_opt_str (v : value) : res (option string) :=
  match v with
  | VNone => Ok None
  | VStr s => Ok (Some s)
  | _ => Err TypeError
  end.

Definition as_list (v : value) : res (list value) :=
  match v with VList l => Ok l | _ => Err TypeError end.

Definition of_opt_int (o : option Z) : value :=
  match o with Some z => VInt z | None => VNone end.

Definition of_opt_str (o : option string) : value :=
  match o with Some s => VStr s | None => VNone end.

(** ['%d' % z] and ['%s' % z] for an integer: its decimal text. *)
Definition str_of_int (z : Z) : string :=
  NilZero.string_of_int (Z.to_int z).

(** ['%s' % x] for an optional integer. *)
Definition str_of_opt_int (o : option Z) : string :=
  match o with
  | Some z => str_of_int z
  | None => "None"
  end.

(** ['\n'.join(lines)] *)
Fixpoint join_lines (lines : list string) : string :=
  match lines with
  | [] => EmptyString
  | [l] => l
  | l :: rest => (l ++ String "010"%char (join_lines rest))%string
  end.

(** [[f(x) for x in xs]] where [f] may raise. *)
Fixpoint map_res {A B : Type} (f : A -> res B) (xs : list A) : res (list B) :=
  match xs with
  | [] => Ok []
  | x :: xs' =>
      match f x with
      | Ok y =>
          match map_res f xs' with
          | Ok ys => Ok (y :: ys)
          | Err e => Err e
          end
      | Err e => Err e
      end
  end.

(** [try: a except: b] *)
Definition try_except {A : Type} (a b : res A) : res A :=
  match a with
  | Ok x => Ok x
  | Err _ => b
  end.

End Py.

(** ** The [struct] module, native mode on a little-endian LP64 machine *)

Module Struct.

Inductive format : Type :=
| fmt_i   (* int, 4 bytes, signed *)
| fmt_I   (* unsigned int, 4 bytes *)
| fmt_l   (* long, 8 bytes, signed *)
| fmt_L.  (* unsigned long, 8 bytes *)

Definition size (f : format) : nat :=
  match f with
  | fmt_i | fmt_I => 4
  | fmt_l | fmt_L => 8
  end.

Definition signed (f : format) : bool :=
  match f with
  | fmt_i | fmt_l => true
  | fmt_I | fmt_L => false
  end.

Definition bits (f : format) : Z := 8 * Z.of_nat (size f).

Definition min_value (f : format) : Z :=
  if signed f then - 2 ^ (bits f - 1) else 0.

Definition max_value (f : format) : Z :=
  if signed f then 2 ^ (bits f - 1) - 1 else 2 ^ bits f - 1.

Definition byte_of_Z (z : Z) : byte :=
  default Byte.x00 (Byte.of_N (Z.to_N (z mod 256))).

Definition Z_of_byte (b : byte) : Z := Z.of_N (Byte.to_N b).

(** The [n] low bytes of [v], least significant first (two's complement for
    a negative [v]). *)
Fixpoint le_bytes (n : nat) (v : Z) : list byte :=
  match n with
  | O => []
  | S n' => byte_of_Z v :: le_bytes n' (v / 256)
  end.

Fixpoint le_value (bs : list byte) : Z :=
  match bs with
  | [] => 0
  | b :: bs' => Z_of_byte b + 256 * le_value bs'
  end.

(** [struct.pack(f, v)] for an [int] argument: [struct.error] when [v] does
    not fit the format. *)
Definition pack (f : format) (v : Z) : Py.res (list byte) :=
  if (min_value f <=? v) && (v <=? max_value f)
  then Py.Ok (le_bytes (size f) v)
  else Py.Err Py.StructError.

(** [struct.pack] applied to a number: a [float] is refused. *)
Definition pack_num (f : format) (v : Py.num) : Py.res (list byte) :=
  match v with
  | Py.Int z => pack f z
  | Py.Float _ => Py.Err Py.StructError
  end.

(** [struct.unpack(f, bs)[0]]: [struct.error] unless [bs] has exactly the
    size of the format. *)
Definition unpack (f : format) (bs : list byte) : Py.res Z :=
  if Nat.eqb (length bs) (size f)
  then
    let u := le_value bs in
    Py.Ok (if signed f && (2 ^ (bits f - 1) <=? u) then u - 2 ^ bits f else u)
  else Py.Err Py.StructError.

End Struct.

(** ** Binary files opened for reading *)

Module File.

Record t : Type := mk {
  data : list byte;
  pos : nat;
  closed : bool
}.

Definition open (contents : list byte) : t := mk contents 0 false.

(** [f.read(n)]: at most [n] bytes, fewer at the end of the file. *)
Definition read (n : nat) (f : t) : list byte * t :=
  let bs := take n (drop (pos f) (data f)) in
  (bs, mk (data f) (pos f + length bs) (closed f)).

(** [f.seek(0)] *)
Definition rewind (f : t) : t := mk (data f) 0 (closed f).

(** [f.seek(-n, 1)] *)
Definition seek_back (n : nat) (f : t) : t :=
  mk (data f) (pos f - n) (closed f).

Definition close (f : t) : t := mk (data f) (pos f) true.

Definition remaining (f : t) : nat := length (data f) - pos f.

End File.

#[global] Instance res_ret : MRet Py.res := fun _ a => Py.Ok a.

Declare Scope res_scope.
Delimit Scope res_scope with res.
Notation "x ← y ; z" := (Py.bind y (fun x => z))
  (at level 20, y at level 100, z at level 200, only parsing) : res_scope.
Notation "' x ← y ; z" := (Py.bind y (fun x => z))
  (at level 20, x pattern, y at level 100, z at level 200, only parsing)
  : res_scope.
Open Scope res_scope.

(** ** Monitoring results ([_damon_result.py]) *)

Module Result.

Record DAMONRegion : Type := mkRegion {
  start : Z;
  end_ : Z;
  nr_accesses : Z;
  age : option Z
}.

(** [start_time] is [None] until it is inferred; the inferred start of the
    first snapshot is a float. *)
Record DAMONSnapshot : Type := mkSnapshot {
  start_time : option Py.num;
  end_time : Py.num;
  target_id : Z;
  regions : list DAMONRegion
}.

(** [target_snapshots] is a [dict] from target id to snapshot list; it is
    iterated in insertion order, so it is kept as an association list. *)
Abbreviation targets := (list (Z * list DAMONSnapshot)).

Record DAMONResult : Type := mkResult {
  result_start_time : option Py.num;
  result_end_time : option Py.num;
  nr_snapshots : option Z;
  target_snapshots : targets
}.

(** [DAMONResult()] *)
Definition new_result : DAMONResult := mkResult None None None [].

Fixpoint lookup_target (tid : Z) (ts : targets) : option (list DAMONSnapshot) :=
  match ts with
  | [] => None
  | (k, v) :: rest => if k =? tid then Some v else lookup_target tid rest
  end.

(** [if not tid in d: d[tid] = []] followed by [d[tid].append(snapshot)]. *)
Fixpoint append_snapshot (tid : Z) (snapshot : DAMONSnapshot) (ts : targets)
  : targets :=
  match ts with
  | [] => [(tid, [snapshot])]
  | (k, v) :: rest =>
      if k =? tid then (k, v ++ [snapshot]) :: rest
      else (k, v) :: append_snapshot tid snapshot rest
  end.

(** *** Snapshot aggregation *)

(** The regions of the snapshots given to the aggregator are taken to be
    distinct objects, as they are when the snapshots come from a decoder:
    the aggregator puts some of them in its accumulator and changes their
    access counts there. *)

Definition regions_intersect (r1 r2 : DAMONRegion) : bool :=
  negb ((end_ r1 <=? start r2) || (end_ r2 <=? start r1)).

(** [for r in regions: if regions_intersect(r, region): ...]: position and
    value of the first accumulator region that intersects [region]. *)
Fixpoint first_intersecting (regions : list DAMONRegion) (region : DAMONRegion)
  (i : nat) : option (nat * DAMONRegion) :=
  match regions with
  | [] => None
  | r :: rest =>
      if regions_intersect r region then Some (i, r)
      else first_intersecting rest region (S i)
  end.

(** The remainders of [region] on both sides of the intersecting [r]. *)
Definition remainders (region r : DAMONRegion) : list DAMONRegion :=
  (if start region <? start r
   then [mkRegion (start region) (start r) (nr_accesses region) (age region)]
   else [])
  ++
  (if end_ r <? end_ region
   then [mkRegion (end_ r) (end_ region) (nr_accesses region) (age region)]
   else []).

(** [nr_acc_to_add[r] = max(nr_acc_to_add.get(r, 0), region.nr_accesses)];
    the key is the accumulator position of [r]. *)
Definition note_increment (nr_acc_to_add : gmap nat Z) (i : nat) (n : Z)
  : gmap nat Z :=
  <[i := Z.max (default 0 (nr_acc_to_add !! i)) n]> nr_acc_to_add.

(** The state [add_region] works on: the accumulator and the deferred
    increments. *)
Definition agg_state : Type := list DAMONRegion * gmap nat Z.

Fixpoint add_region_fuel (fuel : nat) (st : agg_state) (region : DAMONRegion)
  : agg_state :=
  match fuel with
  | O => st
  | S fuel' =>
      match first_intersecting (fst st) region 0 with
      | Some (i, r) =>
          fold_left (add_region_fuel fuel')
            (remainders region r)
            (fst st, note_increment (snd st) i (nr_accesses region))
      | None => (fst st ++ [region], snd st)
      end
  end.

(** Every remainder is strictly shorter than the region it is cut from, so
    the length of the region bounds the depth of the recursion. *)
Definition span (region : DAMONRegion) : nat :=
  Z.to_nat (end_ region - start region).

Definition add_region (st : agg_state) (region : DAMONRegion) : agg_state :=
  add_region_fuel (S (span region)) st region.

(** [for region in nr_acc_to_add: region.nr_accesses += nr_acc_to_add[region]] *)
Definition apply_increments (st : agg_state) : list DAMONRegion :=
  imap (fun i r =>
          match snd st !! i with
          | Some n => mkRegion (start r) (end_ r) (nr_accesses r + n) (age r)
          | None => r
          end) (fst st).

(** One pass of the outer loop: a fresh [nr_acc_to_add], all regions of the
    snapshot inserted, then the increments applied. *)
Definition aggregate_pass (new_regions : list DAMONRegion)
  (snapshot : DAMONSnapshot) : list DAMONRegion :=
  apply_increments (fold_left add_region (regions snapshot) (new_regions, ∅)).

Definition aggregate_regions (snapshots : list DAMONSnapshot)
  : list DAMONRegion :=
  fold_left aggregate_pass snapshots [].

(** [snapshots[0]] and [snapshots[-1]] raise [IndexError] on an empty list. *)
Definition aggregate_snapshots (snapshots : list DAMONSnapshot)
  : Py.res DAMONSnapshot :=
  let new_regions := aggregate_regions snapshots in
  match head snapshots, last snapshots with
  | Some first, Some final =>
      Py.Ok (mkSnapshot (start_time first) (end_time final) (target_id first)
               new_regions)
  | _, _ => Py.Err Py.IndexError
  end.

(** Two regions overlap iff [a.start < b.end] and [b.start < a.end]. *)
Definition overlap (a b : DAMONRegion) : Prop :=
  start a < end_ b /\ start b < end_ a.

Definition pairwise_disjoint (rs : list DAMONRegion) : Prop :=
  forall i j a b, i <> j -> rs !! i = Some a -> rs !! j = Some b -> ~ overlap a b.

(** *** Binary record format: decoding *)

Definition magic : list byte :=
  list_byte_of_string "damon_recfmt_ver".

Fixpoint bytes_eqb (a b : list byte) : bool :=
  match a, b with
  | [], [] => true
  | x :: a', y :: b' => Byte.eqb x y && bytes_eqb a' b'
  | _, _ => false
  end.

(** [struct.unpack(fmt, f.read(size))[0]] *)
Definition read_unpack (fmt : Struct.format) (f : File.t)
  : Py.res (Z * File.t) :=
  let '(bs, f') := File.read (Struct.size fmt) f in
  v ← Struct.unpack fmt bs;
  mret (v, f').

(** [for r in range(nr_regions)] *)
Fixpoint read_regions (n : nat) (f : File.t) (acc : list DAMONRegion)
  : Py.res (list DAMONRegion * File.t) :=
  match n with
  | O => mret (acc, f)
  | S n' =>
      '(start_addr, f1) ← read_unpack Struct.fmt_L f;
      '(end_addr, f2) ← read_unpack Struct.fmt_L f1;
      '(nr, f3) ← read_unpack Struct.fmt_I f2;
      read_regions n' f3 (acc ++ [mkRegion start_addr end_addr nr None])
  end.

(** Start time given to a snapshot that is about to be appended. *)
Definition next_start_time (target_snapshots : list DAMONSnapshot)
  : option Py.num :=
  match last target_snapshots with
  | None => None
  | Some s => Some (end_time s)
  end.

(** [for t in range(nr_tasks)] *)
Fixpoint read_tasks (n : nat) (fmt_version end_time : Z) (f : File.t)
  (ts : targets) : Py.res (targets * File.t) :=
  match n with
  | O => mret (ts, f)
  | S n' =>
      '(target_id, f1) ←
        (if fmt_version =? 1 then read_unpack Struct.fmt_i f
         else read_unpack Struct.fmt_L f);
      let start_time := next_start_time (default [] (lookup_target target_id ts)) in
      '(nr_regions, f2) ← read_unpack Struct.fmt_I f1;
      '(regions, f3) ← read_regions (Z.to_nat nr_regions) f2 [];
      let snapshot := mkSnapshot start_time (Py.Int end_time) target_id regions in
      read_tasks n' fmt_version end_time f3 (append_snapshot target_id snapshot ts)
  end.

(** [not parse_start_time]: unset, or zero. *)
Definition unset (parse_start_time : option Z) : bool :=
  match parse_start_time with
  | None => true
  | Some t => t =? 0
  end.

(** [max_secs != None and end_time - parse_start_time > max_secs * 1000000000] *)
Definition over_budget (max_secs : option Z) (parse_start_time : option Z)
  (end_time : Z) : bool :=
  match max_secs, parse_start_time with
  | Some m, Some t => m * 1000000000 <? end_time - t
  | _, _ => false
  end.

(** The [while True] loop over the records.  Every round that goes on has
    consumed at least the 16 bytes of its time stamp, so the bytes left in
    the file bound the number of rounds. *)
Fixpoint record_loop (fuel : nat) (fmt_version : Z) (max_secs : option Z)
  (f : File.t) (parse_start_time : option Z) (ts : targets)
  : Py.res (targets * File.t) :=
  match fuel with
  | O => mret (ts, f)
  | S fuel' =>
      let '(timebin, f1) := File.read 16 f in
      if negb (Nat.eqb (length timebin) 16) then
        mret (ts, if max_secs is None then File.close f1 else f1)
      else
        sec ← Struct.unpack Struct.fmt_l (take 8 timebin);
        nsec ← Struct.unpack Struct.fmt_l (take 8 (drop 8 timebin));
        let end_time := sec * 1000000000 + nsec in
        if unset parse_start_time then
          '(nr_tasks, f2) ← read_unpack Struct.fmt_I f1;
          '(ts', f3) ← read_tasks (Z.to_nat nr_tasks) fmt_version end_time f2 ts;
          record_loop fuel' fmt_version max_secs f3 (Some end_time) ts'
        else if over_budget max_secs parse_start_time end_time then
          mret (ts, File.seek_back 16 f1)
        else
          '(nr_tasks, f2) ← read_unpack Struct.fmt_I f1;
          '(ts', f3) ← read_tasks (Z.to_nat nr_tasks) fmt_version end_time f2 ts;
          record_loop fuel' fmt_version max_secs f3 parse_start_time ts'
  end.

(** What [record_to_damon_result] returns: [(result, f, fmt_version, err)]. *)
Record decoded : Type := mkDecoded {
  d_result : option DAMONResult;
  d_file : option File.t;
  d_fmt_version : option Z;
  d_err : option string
}.

(** The records of [f], from its current position. *)
Definition decode_records (f : File.t) (fmt_version : Z) (max_secs : option Z)
  : Py.res decoded :=
  '(ts, f') ← record_loop (S (File.remaining f)) fmt_version max_secs f None [];
  mret (mkDecoded (Some (mkResult None None None ts)) (Some f')
          (Some fmt_version) None).

(** [not fmt_version]: [None], or the version [0]. *)
Definition no_version (fmt_version : option Z) : bool :=
  match fmt_version with
  | None => true
  | Some v => v =? 0
  end.

(** [contents] is what the file at [file_path] holds; [f] is the stream the
    caller already has, if any. *)
Definition record_to_damon_result (contents : list byte) (f : option File.t)
  (fmt_version : option Z) (max_secs : option Z) : Py.res decoded :=
  match f with
  | None =>
      let '(mark, f1) := File.read 16 (File.open contents) in
      if bytes_eqb mark magic then
        '(v, f2) ← read_unpack Struct.fmt_i f1;
        decode_records f2 v max_secs
      else
        decode_records (File.rewind f1) 0 max_secs
  | Some f =>
      if no_version fmt_version then
        mret (mkDecoded None None None (Some "fmt_version is not given"%string))
      else
        decode_records f (default 0 fmt_version) max_secs
  end.

(** *** Inference of the start times after decoding *)

(** [result.start_time], [result.end_time], [result.nr_snapshots] and the
    local variable [snapshot_time], which is unbound until first assigned. *)
Record timing : Type := mkTiming {
  t_start : option Py.num;
  t_end : option Py.num;
  t_nr : option Z;
  snapshot_time : option Q
}.

(** [float(end_time - start_time) / nr_snapshots], where [end_time] is the
    end of the last snapshot, [start_time] the end of the first one and
    [nr_snapshots] one less than the number of snapshots: the mean spacing
    of the sequence. *)
Definition mean_spacing (snapshots : list DAMONSnapshot)
  (first final : DAMONSnapshot) : Q :=
  (Py.to_Q (Py.sub (end_time final) (end_time first))
   / inject_Z (Z.of_nat (length snapshots) - 1))%Q.

(** Body of [if not result.start_time:] *)
Definition measure (snapshots : list DAMONSnapshot) (first final : DAMONSnapshot)
  : timing :=
  let nr := Z.of_nat (length snapshots) - 1 in
  let spacing := mean_spacing snapshots first final in
  mkTiming (Some (Py.Float (Py.to_Q (end_time first) - spacing)))
           (Some (end_time final)) (Some (nr + 1)) (Some spacing).

(** [region.start == 0 and region.end == 0 and region.nr_accesses == -1 and
    region.age == -1] *)
Definition is_fake_region (region : DAMONRegion) : bool :=
  (start region =? 0) && (end_ region =? 0) && (nr_accesses region =? -1)
  && match age region with Some a => a =? -1 | None => false end.

(** [if len(snapshots) == 2 and len(snapshots[1].regions) == 1: ...
    del snapshots[1]] *)
Definition cut_fake (snapshots : list DAMONSnapshot) : list DAMONSnapshot :=
  match snapshots with
  | [s0; s1] =>
      match regions s1 with
      | [region] => if is_fake_region region then [s0] else snapshots
      | _ => snapshots
      end
  | _ => snapshots
  end.

(** [snapshots[0].start_time = snapshots[0].end_time - snapshot_time] *)
Definition set_first_start (t : Q) (snapshots : list DAMONSnapshot)
  : list DAMONSnapshot :=
  match snapshots with
  | [] => []
  | s0 :: rest =>
      mkSnapshot (Some (Py.Float (Py.to_Q (end_time s0) - t)))
        (end_time s0) (target_id s0) (regions s0) :: rest
  end.

(** [for snapshots in result.target_snapshots.values():] with its [break].
    Reading [snapshot_time] while it is unbound raises. *)
Fixpoint infer_loop (ts : targets) (tm : timing) : Py.res (targets * timing) :=
  match ts with
  | [] => mret ([], tm)
  | (tid, snapshots) :: rest =>
      if (length snapshots <? 2)%nat then mret (ts, tm)
      else
        let tm1 :=
          if negb (Py.truthy (t_start tm)) then
            match head snapshots, last snapshots with
            | Some first, Some final => measure snapshots first final
            | _, _ => tm
            end
          else tm in
        match snapshot_time tm1 with
        | None => Py.Err (Py.Raised "UnboundLocalError")
        | Some t =>
            let snapshots' := cut_fake (set_first_start t snapshots) in
            '(rest', tm2) ← infer_loop rest tm1;
            mret ((tid, snapshots') :: rest', tm2)
        end
  end.

(** Lines 224-246 of [parse_damon_result_for]: what is done to the decoded
    result before it is returned.  A [result] that is [None] has no
    [target_snapshots]. *)
Definition infer_times (result : option DAMONResult) : Py.res DAMONResult :=
  match result with
  | None => Py.Err Py.AttributeError
  | Some r =>
      '(ts, tm) ←
        infer_loop (target_snapshots r)
          (mkTiming (result_start_time r) (result_end_time r) (nr_snapshots r)
             None);
      mret (mkResult (t_start tm) (t_end tm) (t_nr tm) ts)
  end.

(** [parse_damon_result_for] on a file classified as [file_type_record]. *)
Definition parse_damon_result_for (contents : list byte) (f : option File.t)
  (fmt_version : option Z) (max_secs : option Z) : Py.res decoded :=
  d ← record_to_damon_result contents f fmt_version max_secs;
  match d_err d with
  | Some err => mret (mkDecoded None None None (Some err))
  | None =>
      r ← infer_times (d_result d);
      mret (mkDecoded (Some r) (d_file d) (d_fmt_version d) None)
  end.

(** Each snapshot but the first starts when the previous one ends. *)
Definition chained (snapshots : list DAMONSnapshot) : Prop :=
  forall i s s',
    snapshots !! i = Some s -> snapshots !! S i = Some s' ->
    start_time s' = Some (end_time s).

(** Every target's sequence is chained. *)
Definition all_chained (ts : targets) : Prop :=
  Forall (fun entry => chained (snd entry)) ts.

(** A result of [decode_records]: no error text, no timing yet, chained
    sequences. *)
Definition fresh (d : decoded) (r : DAMONResult) : Prop :=
  d_err d = None
  /\ result_start_time r = None
  /\ all_chained (target_snapshots r).

(** What the pass does to the sequence of a target it visits, with the
    spacing [t]. *)
Definition inferred (t : Q) (snapshots : list DAMONSnapshot)
  : list DAMONSnapshot :=
  cut_fake (set_first_start t snapshots).

(** How the entries of the result relate to those of the decoded targets. *)
Definition visited_or_kept (e e' : Z * list DAMONSnapshot) : Prop :=
  fst e' = fst e
  /\ (snd e' = snd e
      \/ ((2 <= length (snd e))%nat /\ exists t, snd e' = inferred t (snd e))).

(** *** Binary record format: encoding *)

(** [x // d] and [x % d] on a number: floats stay floats. *)
Definition floordiv (x : Py.num) (d : Z) : Py.num :=
  match x with
  | Py.Int z => Py.Int (z / d)
  | Py.Float q => Py.Float (inject_Z (Qfloor (q / inject_Z d)))
  end.

Definition modulo (x : Py.num) (d : Z) : Py.num :=
  match x with
  | Py.Int z => Py.Int (z mod d)
  | Py.Float q =>
      Py.Float (q - inject_Z (Qfloor (q / inject_Z d)) * inject_Z d)
  end.

Definition write_region (region : DAMONRegion) : Py.res (list byte) :=
  b1 ← Struct.pack Struct.fmt_L (start region);
  b2 ← Struct.pack Struct.fmt_L (end_ region);
  b3 ← Struct.pack Struct.fmt_I (nr_accesses region);
  mret (b1 ++ b2 ++ b3).

(** Concatenated output of [for x in xs: f.write(...)]. *)
Fixpoint write_all {A : Type} (w : A -> Py.res (list byte)) (xs : list A)
  : Py.res (list byte) :=
  match xs with
  | [] => mret []
  | x :: xs' => b ← w x; bs ← write_all w xs'; mret (b ++ bs)
  end.

Definition write_snapshot (format_version : Z) (snapshot : DAMONSnapshot)
  : Py.res (list byte) :=
  b1 ← Struct.pack_num Struct.fmt_l (floordiv (end_time snapshot) 1000000000);
  b2 ← Struct.pack_num Struct.fmt_l (modulo (end_time snapshot) 1000000000);
  b3 ← Struct.pack Struct.fmt_I 1;
  b4 ← (if format_version =? 1
        then Struct.pack Struct.fmt_i (target_id snapshot)
        else Struct.pack Struct.fmt_L (target_id snapshot));
  b5 ← Struct.pack Struct.fmt_I (Z.of_nat (length (regions snapshot)));
  b6 ← write_all write_region (regions snapshot);
  mret (b1 ++ b2 ++ b3 ++ b4 ++ b5 ++ b6).

(** [result.target_snapshots[tid][snapshot_idx]] for every [tid]. *)
Definition write_index (format_version : Z) (ts : targets) (snapshot_idx : nat)
  : Py.res (list byte) :=
  write_all
    (fun entry : Z * list DAMONSnapshot =>
       match snd entry !! snapshot_idx with
       | None => Py.Err Py.IndexError
       | Some snapshot => write_snapshot format_version snapshot
       end) ts.

(** The bytes [write_damon_record] writes. [range(None)] is a [TypeError]. *)
Definition write_damon_record (result : DAMONResult) (format_version : Z)
  : Py.res (list byte) :=
  v ← Struct.pack Struct.fmt_i format_version;
  match nr_snapshots result with
  | None => Py.Err Py.TypeError
  | Some n =>
      body ← write_all (write_index format_version (target_snapshots result))
               (seq 0 (Z.to_nat n));
      mret (magic ++ v ++ body)
  end.

(** [DAMONRegion(0, 0, -1, -1)] *)
Definition fake_region : DAMONRegion := mkRegion 0 0 (-1) (Some (-1)).

(** First loop of [write_damon_result]: a target with a single snapshot gets
    a fake second one, and [result.nr_snapshots] is incremented. *)
Fixpoint add_fake_snapshots (ts : targets) (nr : option Z)
  : Py.res (targets * option Z) :=
  match ts with
  | [] => mret ([], nr)
  | (tid, target_snapshots) :: rest =>
      match target_snapshots with
      | [snapshot] =>
          match start_time snapshot, nr with
          | Some st, Some n =>
              let snap_duration := Py.sub (end_time snapshot) st in
              let fake_snapshot :=
                mkSnapshot (Some (end_time snapshot))
                  (Py.add (end_time snapshot) snap_duration)
                  (target_id snapshot) [fake_region] in
              '(rest', nr') ← add_fake_snapshots rest (Some (n + 1));
              mret ((tid, [snapshot; fake_snapshot]) :: rest', nr')
          | _, _ => Py.Err Py.TypeError
          end
      | _ =>
          '(rest', nr') ← add_fake_snapshots rest nr;
          mret ((tid, target_snapshots) :: rest', nr')
      end
  end.

(** [write_damon_result] with [file_type == file_type_record]: the result as
    it is left in memory, and the bytes written. *)
Definition write_damon_result (result : DAMONResult)
  : Py.res (DAMONResult * list byte) :=
  '(ts, nr) ← add_fake_snapshots (target_snapshots result) (nr_snapshots result);
  let result' :=
    mkResult (result_start_time result) (result_end_time result) nr ts in
  bytes ← write_damon_record result' 2;
  mret (result', bytes).

(** *** Text format ([perf script] output): decoding *)

(** White space as [str.strip] and [str.split] see it, on ASCII text. *)
Definition is_space (c : ascii) : bool :=
  let n := nat_of_ascii c in
  ((9 <=? n) && (n <=? 13) || (28 <=? n) && (n <=? 32))%nat.

Fixpoint lstrip (s : string) : string :=
  match s with
  | EmptyString => EmptyString
  | String c s' => if is_space c then lstrip s' else s
  end.

Fixpoint string_rev (s : string) : string :=
  match s with
  | EmptyString => EmptyString
  | String c s' => string_rev s' ++ String c EmptyString
  end.

(** [s.strip()] *)
Definition strip (s : string) : string :=
  string_rev (lstrip (string_rev (lstrip s))).

(** [s.split()]: maximal runs of characters that are not white space;
    [cur] is the run being read. *)
Fixpoint split_from (s cur : string) : list string :=
  match s with
  | EmptyString => match cur with EmptyString => [] | _ => [cur] end
  | String c s' =>
      if is_space c then
        match cur with
        | EmptyString => split_from s' EmptyString
        | _ => cur :: split_from s' EmptyString
        end
      else split_from s' (cur ++ String c EmptyString)
  end.

Definition split (s : string) : list string := split_from s EmptyString.

(** [s.split(sep)] for a one-character separator. *)
Fixpoint split_on (sep : ascii) (s : string) : list string :=
  match s with
  | EmptyString => [EmptyString]
  | String c s' =>
      if Ascii.eqb c sep then EmptyString :: split_on sep s'
      else
        match split_on sep s' with
        | h :: t => String c h :: t
        | [] => [String c EmptyString]
        end
  end.

(** [s[:-1]] *)
Fixpoint drop_last (s : string) : string :=
  match s with
  | EmptyString => EmptyString
  | String c EmptyString => EmptyString
  | String c s' => String c (drop_last s')
  end.

(** [xs[i]] *)
Definition index {A : Type} (xs : list A) (i : nat) : Py.res A :=
  match xs !! i with
  | Some x => Py.Ok x
  | None => Py.Err Py.IndexError
  end.

Definition marker : string := "damon:damon_aggregated:".

(** [if not tid in d: d[tid] = []] *)
Fixpoint ensure_target (tid : Z) (ts : targets) : targets :=
  match ts with
  | [] => [(tid, [])]
  | (k, v) :: rest =>
      if k =? tid then ts else (k, v) :: ensure_target tid rest
  end.

(** [snapshot = d[tid][-1]; snapshot.regions.append(region)] *)
Fixpoint append_region (tid : Z) (region : DAMONRegion) (ts : targets)
  : Py.res targets :=
  match ts with
  | [] => Py.Err Py.KeyError
  | (k, v) :: rest =>
      if k =? tid then
        match last v with
        | None => Py.Err Py.IndexError
        | Some s =>
            mret ((k, removelast v ++
                        [mkSnapshot (start_time s) (end_time s) (target_id s)
                           (regions s ++ [region])]) :: rest)
        end
      else
        rest' ← append_region tid region rest;
        mret ((k, v) :: rest')
  end.

(** The variables of [perf_script_to_damon_result] that live across lines. *)
Record perf_state : Type := mkPerf {
  p_result : option DAMONResult;
  nr_read_regions : Z;
  p_parse_start_time : option Z
}.

(** How a round of the [for] loop ends. *)
Inductive control : Type := Next | Break.

Section PerfScript.

(** The conversions of text to numbers are Python's own: [py_int s] is
    [int(s)] and [seconds_to_ns s] is [int(float(s) * 1000000000)].  They are
    parameters of the decoder. *)
Variable py_int : string -> Py.res Z.
Variable seconds_to_ns : string -> Py.res Z.

(** [line.strip().split()] of the stripped line. *)
Definition fields_of (line : string) : list string :=
  split (strip (strip line)).

(** [not len(fields) in [9, 10]], or [fields[4] != 'damon:damon_aggregated:'] *)
Definition skipped (fields : list string) : bool :=
  negb (Nat.eqb (length fields) 9 || Nat.eqb (length fields) 10)
  || negb (String.eqb (nth 4 fields EmptyString) marker).

(** [int(field.split('=')[1])] *)
Definition int_after_equals (field : string) : Py.res Z :=
  v ← index (split_on "="%char field) 1;
  py_int v.

Fixpoint ints (xs : list string) : Py.res (list Z) :=
  match xs with
  | [] => mret []
  | x :: xs' => v ← py_int x; vs ← ints xs'; mret (v :: vs)
  end.

(** The rest of the loop body once the time budget has been checked. *)
Definition read_region_line (fields : list string) (end_time : Z)
  (result : DAMONResult) (nr_read : Z) (parse_start_time : option Z)
  : Py.res perf_state :=
  target_id ← int_after_equals (nth 5 fields EmptyString);
  let ts := ensure_target target_id (target_snapshots result) in
  let start_time := next_start_time (default [] (lookup_target target_id ts)) in
  nr_regions ← int_after_equals (nth 6 fields EmptyString);
  addrs ← ints (split_on "-"%char (drop_last (nth 7 fields EmptyString)));
  nr_accesses ← py_int (nth 8 fields EmptyString);
  age ← (if Nat.eqb (length fields) 10
         then a ← py_int (nth 9 fields EmptyString); mret (Some a)
         else mret None);
  let ts1 :=
    if nr_read =? 0
    then append_snapshot target_id
           (mkSnapshot start_time (Py.Int end_time) target_id []) ts
    else ts in
  a0 ← index addrs 0;
  a1 ← index addrs 1;
  ts2 ← append_region target_id (mkRegion a0 a1 nr_accesses age) ts1;
  let nr_read' := nr_read + 1 in
  mret (mkPerf
          (Some (mkResult (result_start_time result) (result_end_time result)
                   (nr_snapshots result) ts2))
          (if nr_read' =? nr_regions then 0 else nr_read')
          parse_start_time).

(** One round of [for line in f:]. *)
Definition perf_line (max_secs : option Z) (st : perf_state) (line : string)
  : Py.res (control * perf_state) :=
  let fields := fields_of line in
  if skipped fields then mret (Next, st)
  else
    end_time ← seconds_to_ns (drop_last (nth 3 fields EmptyString));
    let result := default new_result (p_result st) in
    match p_parse_start_time st with
    | None =>
        st' ← read_region_line fields end_time result (nr_read_regions st)
                (Some end_time);
        mret (Next, st')
    | Some t =>
        if over_budget max_secs (Some t) end_time then
          mret (Break, mkPerf (Some result) (nr_read_regions st) (Some t))
        else
          st' ← read_region_line fields end_time result (nr_read_regions st)
                  (Some t);
          mret (Next, st')
    end.

Fixpoint perf_loop (max_secs : option Z) (lines : list string) (st : perf_state)
  : Py.res perf_state :=
  match lines with
  | [] => mret st
  | line :: rest =>
      '(c, st') ← perf_line max_secs st line;
      match c with
      | Next => perf_loop max_secs rest st'
      | Break => mret st'
      end
  end.

(** [lines] is what iterating over [f] yields.  The result is [None] when no
    line was accepted. *)
Definition perf_script_to_damon_result (lines : list string)
  (max_secs : option Z) : Py.res (option DAMONResult) :=
  st ← perf_loop max_secs lines (mkPerf None 0 None);
  mret (p_result st).

End PerfScript.

End Result.

(** ** Configuration values ([_damon.py]) *)

(** [_damo_fmt_str], the module that formats and parses leaf values, is not
    among the sources.  The functions of it that the modelled code calls
    are the fields of this record; every function of [_damon.py] that needs
    them takes the record as its first argument.  The boolean of a formatter
    is its [raw] flag. *)
Module FmtStr.

Record t : Type := mk {
  format_nr : Z -> bool -> string;
  format_sz : Z -> bool -> string;
  format_time_us : Z -> bool -> string;
  format_time_us_exact : Z -> bool -> string;
  format_time_ms_exact : Z -> bool -> string;
  format_permil : Z -> bool -> string;
  format_time_ns : Z -> bool -> string;
  format_time_ms : Z -> bool -> string;
  format_addr_range : Z -> Z -> bool -> string;
  indent_lines : string -> Z -> string;
  text_to_nr : Py.value -> Py.res Z;
  text_to_bytes : Py.value -> Py.res Z;
  text_to_us : Py.value -> Py.res Z;
  text_to_ms : Py.value -> Py.res Z;
  text_to_percent : Py.value -> Py.res Z;
  text_to_permil : Py.value -> Py.res Z;
  text_to_nr_unit : Py.value -> Py.res (Z * string);
  text_to_bool : Py.value -> Py.res bool
}.

(** What the modelled code relies on, from the description the spec gives of
    the leaf values: a number that is already typed is taken as it is, the
    raw format is plain integer text that the matching parser reads back,
    and the unit-suffixed forms that an access pattern emits are told apart
    by the parsers. *)
Record lawful (F : t) : Prop := mk_lawful {
  nr_typed : forall z, text_to_nr F (Py.VInt z) = Py.Ok z;
  bytes_typed : forall z, text_to_bytes F (Py.VInt z) = Py.Ok z;
  us_typed : forall z, text_to_us F (Py.VInt z) = Py.Ok z;
  percent_typed : forall z, text_to_percent F (Py.VInt z) = Py.Ok z;
  bool_typed : forall b, text_to_bool F (Py.VBool b) = Py.Ok b;
  nr_raw : forall z, text_to_nr F (Py.VStr (format_nr F z true)) = Py.Ok z;
  bytes_nr_raw :
    forall z, text_to_bytes F (Py.VStr (format_nr F z true)) = Py.Ok z;
  bytes_sz_raw :
    forall z, text_to_bytes F (Py.VStr (format_sz F z true)) = Py.Ok z;
  us_raw :
    forall z, text_to_us F (Py.VStr (format_time_us F z true)) = Py.Ok z;
  us_exact_raw :
    forall z, text_to_us F (Py.VStr (format_time_us_exact F z true)) = Py.Ok z;
  ms_exact_raw :
    forall z, text_to_ms F (Py.VStr (format_time_ms_exact F z true)) = Py.Ok z;
  permil_raw :
    forall z, text_to_permil F (Py.VStr (format_permil F z true)) = Py.Ok z;
  percent_raw :
    forall z,
      text_to_percent F (Py.VStr (format_nr F z true ++ " %")) = Py.Ok z;
  percent_rejects :
    forall z,
      Py.is_ok
        (text_to_percent F (Py.VStr (format_nr F z true ++ " sample_intervals")))
      = false;
  us_rejects :
    forall z,
      Py.is_ok
        (text_to_us F (Py.VStr (format_nr F z true ++ " aggr_intervals")))
      = false;
  nr_unit_raw :
    forall z u,
      text_to_nr_unit F (Py.VStr (format_nr F z true ++ " " ++ u))
      = Py.Ok (z, u)
}.

End FmtStr.

Module DamonIntervals.

Record t : Type := mk { sample : Z; aggr : Z; ops_update : Z }.

(** [DamonIntervals(sample, aggr, ops_update)] *)
Definition init (F : FmtStr.t) (sample aggr ops_update : Py.value)
  : Py.res t :=
  s ← FmtStr.text_to_us F sample;
  a ← FmtStr.text_to_us F aggr;
  u ← FmtStr.text_to_us F ops_update;
  mret (mk s a u).

Definition to_str (F : FmtStr.t) (self : t) (raw : bool) : string :=
  ("sample " ++ FmtStr.format_time_us F (sample self) raw
   ++ ", aggr " ++ FmtStr.format_time_us F (aggr self) raw
   ++ ", update " ++ FmtStr.format_time_us F (ops_update self) raw)%string.

(** [__eq__] compares the texts [__str__] gives, that is [to_str(False)]. *)
Definition eq (F : FmtStr.t) (self other : t) : bool :=
  String.eqb (to_str F self false) (to_str F other false).

Definition to_kvpairs (F : FmtStr.t) (self : t) (raw : bool) : Py.value :=
  Py.VDict [
    ("sample_us", Py.VStr (FmtStr.format_time_us F (sample self) raw));
    ("aggr_us", Py.VStr (FmtStr.format_time_us F (aggr self) raw));
    ("ops_update_us", Py.VStr (FmtStr.format_time_us F (ops_update self) raw))
  ]%string.

End DamonIntervals.

Definition kvpairs_to_DamonIntervals (F : FmtStr.t) (kvpairs : Py.value)
  : Py.res DamonIntervals.t :=
  s ← Py.getitem kvpairs "sample_us";
  a ← Py.getitem kvpairs "aggr_us";
  u ← Py.getitem kvpairs "ops_update_us";
  DamonIntervals.init F s a u.

Module DamonNrRegionsRange.

Record t : Type := mk { minimum : Z; maximum : Z }.

Definition init (F : FmtStr.t) (min_ max_ : Py.value) : Py.res t :=
  a ← FmtStr.text_to_nr F min_;
  b ← FmtStr.text_to_nr F max_;
  mret (mk a b).

Definition to_str (F : FmtStr.t) (self : t) (raw : bool) : string :=
  ("[" ++ FmtStr.format_nr F (minimum self) raw ++ ", "
   ++ FmtStr.format_nr F (maximum self) raw ++ "]")%string.

Definition eq (F : FmtStr.t) (self other : t) : bool :=
  String.eqb (to_str F self false) (to_str F other false).

Definition to_kvpairs (F : FmtStr.t) (self : t) (raw : bool) : Py.value :=
  Py.VDict [
    ("min", Py.VStr (FmtStr.format_nr F (minimum self) raw));
    ("max", Py.VStr (FmtStr.format_nr F (maximum self) raw))
  ]%string.

End DamonNrRegionsRange.

Definition kvpairs_to_DamonNrRegionsRange (F : FmtStr.t) (kvpairs : Py.value)
  : Py.res DamonNrRegionsRange.t :=
  a ← Py.getitem kvpairs "min";
  b ← Py.getitem kvpairs "max";
  DamonNrRegionsRange.init F a b.

Module DamonRegion.

Record t : Type := mk { start : Z; end_ : Z }.

Definition init (F : FmtStr.t) (start end_ : Py.value) : Py.res t :=
  a ← FmtStr.text_to_bytes F start;
  b ← FmtStr.text_to_bytes F end_;
  mret (mk a b).

Definition to_str (F : FmtStr.t) (self : t) (raw : bool) : string :=
  FmtStr.format_addr_range F (start self) (end_ self) raw.

Definition eq (F : FmtStr.t) (self other : t) : bool :=
  String.eqb (to_str F self false) (to_str F other false).

Definition to_kvpairs (F : FmtStr.t) (self : t) (raw : bool) : Py.value :=
  Py.VDict [
    ("start", Py.VStr (FmtStr.format_nr F (start self) raw));
    ("end", Py.VStr (FmtStr.format_nr F (end_ self) raw))
  ]%string.

End DamonRegion.

Definition kvpairs_to_DamonRegion (F : FmtStr.t) (kvpairs : Py.value)
  : Py.res DamonRegion.t :=
  a ← Py.getitem kvpairs "start";
  b ← Py.getitem kvpairs "end";
  DamonRegion.init F a b.

Module DamonTarget.

Record t : Type := mk {
  name : string;
  pid : option Z;
  regions : list DamonRegion.t
}.

Definition to_str (F : FmtStr.t) (self : t) (raw : bool) : string :=
  Py.join_lines
    ((name self ++ " (pid: " ++ Py.str_of_opt_int (pid self) ++ ")")%string
     :: map (fun r => ("region " ++ DamonRegion.to_str F r raw)%string)
          (regions self)).

Definition eq (F : FmtStr.t) (self other : t) : bool :=
  String.eqb (to_str F self false) (to_str F other false).

Definition to_kvpairs (F : FmtStr.t) (self : t) (raw : bool) : Py.value :=
  Py.VDict [
    ("name", Py.VStr (name self));
    ("pid", Py.of_opt_int (pid self));
    ("regions",
      Py.VList (map (fun r => DamonRegion.to_kvpairs F r raw) (regions self)))
  ]%string.

End DamonTarget.

Definition kvpairs_to_DamonTarget (F : FmtStr.t) (kvpairs : Py.value)
  : Py.res DamonTarget.t :=
  rs ← Py.getitem kvpairs "regions";
  rl ← Py.as_list rs;
  regions ← Py.map_res (kvpairs_to_DamonRegion F) rl;
  n ← Py.getitem kvpairs "name";
  name ← Py.as_str n;
  p ← Py.getitem kvpairs "pid";
  pid ← Py.as_opt_int p;
  mret (DamonTarget.mk name pid regions).

(** The two units of an access frequency and the two units of an age. *)
Inductive nr_accesses_unit : Type := unit_percent | unit_sample_intervals.
Inductive age_unit : Type := unit_usec | unit_aggr_intervals.

Definition nr_accesses_unit_eqb (a b : nr_accesses_unit) : bool :=
  match a, b with
  | unit_percent, unit_percent
  | unit_sample_intervals, unit_sample_intervals => true
  | _, _ => false
  end.

Definition age_unit_eqb (a b : age_unit) : bool :=
  match a, b with
  | unit_usec, unit_usec
  | unit_aggr_intervals, unit_aggr_intervals => true
  | _, _ => false
  end.

Definition nr_accesses_unit_name (u : nr_accesses_unit) : string :=
  match u with
  | unit_percent => "percent"
  | unit_sample_intervals => "sample_intervals"
  end.

Definition age_unit_name (u : age_unit) : string :=
  match u with
  | unit_usec => "usec"
  | unit_aggr_intervals => "aggr_intervals"
  end.

Module DamosAccessPattern.

Record t : Type := mk {
  min_sz_bytes : Z;
  max_sz_bytes : Z;
  min_nr_accesses : Z;
  max_nr_accesses : Z;
  nr_accesses_unit_ : nr_accesses_unit;
  min_age : Z;
  max_age : Z;
  age_unit_ : age_unit
}.

(** [DamosAccessPattern(sz_bytes, nr_accesses, nr_accesses_unit, age,
    age_unit)]; the units arrive as text and are checked. *)
Definition init (F : FmtStr.t) (sz_bytes nr_accesses : Py.value * Py.value)
  (nr_unit : string) (age : Py.value * Py.value) (a_unit : string)
  : Py.res t :=
  min_sz ← FmtStr.text_to_bytes F (fst sz_bytes);
  max_sz ← FmtStr.text_to_bytes F (snd sz_bytes);
  '(min_nr, max_nr, u1) ←
    (if String.eqb nr_unit "percent" then
       a ← FmtStr.text_to_percent F (fst nr_accesses);
       b ← FmtStr.text_to_percent F (snd nr_accesses);
       mret (a, b, unit_percent)
     else if String.eqb nr_unit "sample_intervals" then
       a ← FmtStr.text_to_nr F (fst nr_accesses);
       b ← FmtStr.text_to_nr F (snd nr_accesses);
       mret (a, b, unit_sample_intervals)
     else Py.Err (Py.Raised "invalid access pattern nr_accesses_unit"));
  '(min_a, max_a, u2) ←
    (if String.eqb a_unit "usec" then
       a ← FmtStr.text_to_us F (fst age);
       b ← FmtStr.text_to_us F (snd age);
       mret (a, b, unit_usec)
     else if String.eqb a_unit "aggr_intervals" then
       a ← FmtStr.text_to_nr F (fst age);
       b ← FmtStr.text_to_nr F (snd age);
       mret (a, b, unit_aggr_intervals)
     else Py.Err (Py.Raised "invalid access pattern age_unit"));
  mret (mk min_sz max_sz min_nr max_nr u1 min_a max_a u2).

(** [DamosAccessPattern()] with its default arguments. *)
Definition default (F : FmtStr.t) : Py.res t :=
  init F (Py.VStr "min", Py.VStr "max") (Py.VStr "min", Py.VStr "max")
    "percent" (Py.VStr "min", Py.VStr "max") "usec".

Definition eq (self other : t) : bool :=
  (min_sz_bytes self =? min_sz_bytes other)
  && (max_sz_bytes self =? max_sz_bytes other)
  && (min_nr_accesses self =? min_nr_accesses other)
  && (max_nr_accesses self =? max_nr_accesses other)
  && nr_accesses_unit_eqb (nr_accesses_unit_ self) (nr_accesses_unit_ other)
  && (min_age self =? min_age other)
  && (max_age self =? max_age other)
  && age_unit_eqb (age_unit_ self) (age_unit_ other).

Definition to_str (F : FmtStr.t) (self : t) (raw : bool) : string :=
  let unit :=
    match nr_accesses_unit_ self with
    | unit_percent => "%"
    | u => nr_accesses_unit_name u
    end%string in
  let '(min_a, max_a) :=
    match age_unit_ self with
    | unit_usec =>
        (FmtStr.format_time_us_exact F (min_age self) raw,
         FmtStr.format_time_us_exact F (max_age self) raw)
    | u =>
        (FmtStr.format_nr F (min_age self) raw ++ " " ++ age_unit_name u,
         FmtStr.format_nr F (max_age self) raw ++ " " ++ age_unit_name u)%string
    end in
  Py.join_lines [
    "sz: [" ++ FmtStr.format_sz F (min_sz_bytes self) raw ++ ", "
      ++ FmtStr.format_sz F (max_sz_bytes self) raw ++ "]";
    "nr_accesses: [" ++ FmtStr.format_nr F (min_nr_accesses self) raw ++ " "
      ++ unit ++ ", " ++ FmtStr.format_nr F (max_nr_accesses self) raw ++ " "
      ++ unit ++ "]";
    "age: [" ++ min_a ++ ", " ++ max_a ++ "]"
  ]%string.

Definition to_kvpairs (F : FmtStr.t) (self : t) (raw : bool) : Py.value :=
  let unit :=
    match nr_accesses_unit_ self with
    | unit_percent => "%"
    | u => nr_accesses_unit_name u
    end%string in
  let min_nr :=
    (FmtStr.format_nr F (min_nr_accesses self) raw ++ " " ++ unit)%string in
  let max_nr :=
    (FmtStr.format_nr F (max_nr_accesses self) raw ++ " " ++ unit)%string in
  let '(min_a, max_a) :=
    match age_unit_ self with
    | unit_usec =>
        (FmtStr.format_time_us_exact F (min_age self) raw,
         FmtStr.format_time_us_exact F (max_age self) raw)
    | u =>
        (FmtStr.format_nr F (min_age self) raw ++ " " ++ age_unit_name u,
         FmtStr.format_nr F (max_age self) raw ++ " " ++ age_unit_name u)%string
    end in
  Py.VDict [
    ("min_sz_bytes", Py.VStr (FmtStr.format_sz F (min_sz_bytes self) raw));
    ("max_sz_bytes", Py.VStr (FmtStr.format_sz F (max_sz_bytes self) raw));
    ("min_nr_accesses", Py.VStr min_nr);
    ("max_nr_accesses", Py.VStr max_nr);
    ("min_age", Py.VStr min_a);
    ("max_age", Py.VStr max_a)
  ]%string.

(** [x / y] on numbers: a float, [ZeroDivisionError] when [y] is zero. *)
Definition true_div (x y : Q) : Py.res Q :=
  if Qeq_bool y 0 then Py.Err Py.ZeroDivisionError else Py.Ok (x / y)%Q.

Definition convert_nr_accesses_unit (self : t) (unit : nr_accesses_unit)
  (intervals : DamonIntervals.t) : Py.res t :=
  if nr_accesses_unit_eqb (nr_accesses_unit_ self) unit then mret self
  else
    max_nr_accesses_sample_intervals ←
      true_div (inject_Z (DamonIntervals.aggr intervals))
               (inject_Z (DamonIntervals.sample intervals));
    '(lo, hi) ←
      match unit with
      | unit_sample_intervals =>
          (* percent to sample_intervals *)
          mret
            (Py.int_of_Q (inject_Z (min_nr_accesses self)
                          * max_nr_accesses_sample_intervals / 100)%Q,
             Py.int_of_Q (inject_Z (max_nr_accesses self)
                          * max_nr_accesses_sample_intervals / 100)%Q)
      | unit_percent =>
          (* sample_intervals to percent *)
          a ← true_div (inject_Z (min_nr_accesses self) * 100)%Q
                 max_nr_accesses_sample_intervals;
          b ← true_div (inject_Z (max_nr_accesses self) * 100)%Q
                 max_nr_accesses_sample_intervals;
          mret (Py.int_of_Q a, Py.int_of_Q b)
      end;
    mret (mk (min_sz_bytes self) (max_sz_bytes self) lo hi unit
            (min_age self) (max_age self) (age_unit_ self)).

Definition convert_age_unit (self : t) (unit : age_unit)
  (intervals : DamonIntervals.t) : Py.res t :=
  if age_unit_eqb (age_unit_ self) unit then mret self
  else
    '(lo, hi) ←
      match unit with
      | unit_usec =>
          (* aggr_intervals to usec *)
          mret (min_age self * DamonIntervals.aggr intervals,
                max_age self * DamonIntervals.aggr intervals)
      | unit_aggr_intervals =>
          (* usec to aggr_intervals *)
          a ← true_div (inject_Z (min_age self))
                 (inject_Z (DamonIntervals.aggr intervals));
          b ← true_div (inject_Z (max_age self))
                 (inject_Z (DamonIntervals.aggr intervals));
          mret (Py.int_of_Q a, Py.int_of_Q b)
      end;
    mret (mk (min_sz_bytes self) (max_sz_bytes self) (min_nr_accesses self)
            (max_nr_accesses self) (nr_accesses_unit_ self) lo hi unit).

(** [convert_for_units] changes [self] in place; the changed pattern is
    returned. *)
Definition convert_for_units (self : t) (u1 : nr_accesses_unit) (u2 : age_unit)
  (intervals : DamonIntervals.t) : Py.res t :=
  p ← convert_nr_accesses_unit self u1 intervals;
  convert_age_unit p u2 intervals.

(** [converted_for_units] converts a deep copy. *)
Definition converted_for_units (self : t) (u1 : nr_accesses_unit)
  (u2 : age_unit) (intervals : DamonIntervals.t) : Py.res t :=
  convert_for_units self u1 u2 intervals.

Definition effectively_equal (self other : t) (intervals : DamonIntervals.t)
  : Py.res bool :=
  a ← converted_for_units self unit_sample_intervals unit_aggr_intervals
        intervals;
  b ← converted_for_units other unit_sample_intervals unit_aggr_intervals
        intervals;
  mret (eq a b).

End DamosAccessPattern.

Definition kvpairs_to_DamosAccessPattern (F : FmtStr.t) (kv : Py.value)
  : Py.res DamosAccessPattern.t :=
  '(min_nr_accesses, max_nr_accesses, nr_unit) ←
    Py.try_except
      (a ← Py.getitem kv "min_nr_accesses";
       min_nr ← FmtStr.text_to_percent F a;
       b ← Py.getitem kv "max_nr_accesses";
       max_nr ← FmtStr.text_to_percent F b;
       mret (min_nr, max_nr, "percent"%string))
      (a ← Py.getitem kv "min_nr_accesses";
       '(min_nr, u) ← FmtStr.text_to_nr_unit F a;
       b ← Py.getitem kv "max_nr_accesses";
       '(max_nr, u2) ← FmtStr.text_to_nr_unit F b;
       if negb (String.eqb u u2)
       then Py.Err (Py.Raised "nr_accesses units should be same")
       else mret (min_nr, max_nr, u));
  '(min_age, max_age, a_unit) ←
    Py.try_except
      (a ← Py.getitem kv "min_age";
       min_a ← FmtStr.text_to_us F a;
       b ← Py.getitem kv "max_age";
       max_a ← FmtStr.text_to_us F b;
       mret (min_a, max_a, "usec"%string))
      (a ← Py.getitem kv "min_age";
       '(min_a, u) ← FmtStr.text_to_nr_unit F a;
       b ← Py.getitem kv "max_age";
       '(max_a, u2) ← FmtStr.text_to_nr_unit F b;
       if negb (String.eqb u u2)
       then Py.Err (Py.Raised "age units should be same")
       else mret (min_a, max_a, u));
  lo ← Py.getitem kv "min_sz_bytes";
  min_sz ← FmtStr.text_to_bytes F lo;
  hi ← Py.getitem kv "max_sz_bytes";
  max_sz ← FmtStr.text_to_bytes F hi;
  DamosAccessPattern.init F (Py.VInt min_sz, Py.VInt max_sz)
    (Py.VInt min_nr_accesses, Py.VInt max_nr_accesses) nr_unit
    (Py.VInt min_age, Py.VInt max_age) a_unit.

Module DamosQuotas.

Record t : Type := mk {
  time_ms : Z;
  sz_bytes : Z;
  reset_interval_ms : Z;
  weight_sz_permil : Z;
  weight_nr_accesses_permil : Z;
  weight_age_permil : Z
}.

Definition init (F : FmtStr.t)
  (time_ms sz_bytes reset_interval_ms weight_sz_permil
     weight_nr_accesses_permil weight_age_permil : Py.value) : Py.res t :=
  a ← FmtStr.text_to_ms F time_ms;
  b ← FmtStr.text_to_bytes F sz_bytes;
  c ← FmtStr.text_to_ms F reset_interval_ms;
  d ← FmtStr.text_to_permil F weight_sz_permil;
  e ← FmtStr.text_to_permil F weight_nr_accesses_permil;
  f ← FmtStr.text_to_permil F weight_age_permil;
  mret (mk a b c d e f).

(** [DamosQuotas()] *)
Definition default (F : FmtStr.t) : Py.res t :=
  init F (Py.VInt 0) (Py.VInt 0) (Py.VStr "max") (Py.VStr "0 %")
    (Py.VStr "0 %") (Py.VStr "0 %").

Definition eq (self other : t) : bool :=
  (time_ms self =? time_ms other)
  && (sz_bytes self =? sz_bytes other)
  && (reset_interval_ms self =? reset_interval_ms other)
  && (weight_sz_permil self =? weight_sz_permil other)
  && (weight_nr_accesses_permil self =? weight_nr_accesses_permil other)
  && (weight_age_permil self =? weight_age_permil other).

(** The time is given to [format_sz] and the size to [format_time_ns], as
    in the source. *)
Definition to_str (F : FmtStr.t) (self : t) (raw : bool) : string :=
  Py.join_lines [
    FmtStr.format_sz F (time_ms self * 1000000) raw ++ " / "
      ++ FmtStr.format_time_ns F (sz_bytes self) raw ++ " per "
      ++ FmtStr.format_time_ms F (reset_interval_ms self) raw;
    "priority: sz " ++ FmtStr.format_permil F (weight_sz_permil self) raw
      ++ ", nr_accesses "
      ++ FmtStr.format_permil F (weight_nr_accesses_permil self) raw
      ++ ", age " ++ FmtStr.format_permil F (weight_age_permil self) raw
  ]%string.

Definition to_kvpairs (F : FmtStr.t) (self : t) (raw : bool) : Py.value :=
  Py.VDict [
    ("time_ms", Py.VStr (FmtStr.format_time_ms_exact F (time_ms self) raw));
    ("sz_bytes", Py.VStr (FmtStr.format_sz F (sz_bytes self) raw));
    ("reset_interval_ms",
      Py.VStr (FmtStr.format_time_ms_exact F (reset_interval_ms self) raw));
    ("weight_sz_permil",
      Py.VStr (FmtStr.format_permil F (weight_sz_permil self) raw));
    ("weight_nr_accesses_permil",
      Py.VStr (FmtStr.format_permil F (weight_nr_accesses_permil self) raw));
    ("weight_age_permil",
      Py.VStr (FmtStr.format_permil F (weight_age_permil self) raw))
  ]%string.

End DamosQuotas.

Definition kvpairs_to_DamosQuotas (F : FmtStr.t) (kv : Py.value)
  : Py.res DamosQuotas.t :=
  a ← Py.getitem kv "time_ms";
  b ← Py.getitem kv "sz_bytes";
  c ← Py.getitem kv "reset_interval_ms";
  d ← Py.getitem kv "weight_sz_permil";
  e ← Py.getitem kv "weight_nr_accesses_permil";
  f ← Py.getitem kv "weight_age_permil";
  DamosQuotas.init F a b c d e f.

Module DamosWatermarks.

Record t : Type := mk {
  metric : string;
  interval_us : Z;
  high_permil : Z;
  mid_permil : Z;
  low_permil : Z
}.

Definition init (F : FmtStr.t) (metric : string)
  (interval_us high mid low : Py.value) : Py.res t :=
  a ← FmtStr.text_to_us F interval_us;
  b ← FmtStr.text_to_permil F high;
  c ← FmtStr.text_to_permil F mid;
  d ← FmtStr.text_to_permil F low;
  mret (mk metric a b c d).

(** [DamosWatermarks()] *)
Definition default (F : FmtStr.t) : Py.res t :=
  init F "none" (Py.VInt 0) (Py.VStr "0 %") (Py.VStr "0 %") (Py.VStr "0 %").

Definition eq (self other : t) : bool :=
  String.eqb (metric self) (metric other)
  && (interval_us self =? interval_us other)
  && (high_permil self =? high_permil other)
  && (mid_permil self =? mid_permil other)
  && (low_permil self =? low_permil other).

Definition to_str (F : FmtStr.t) (self : t) (raw : bool) : string :=
  Py.join_lines [
    FmtStr.format_permil F (high_permil self) raw ++ "/"
      ++ FmtStr.format_permil F (mid_permil self) raw ++ "/"
      ++ FmtStr.format_permil F (low_permil self) raw;
    "metric " ++ metric self ++ ", interval "
      ++ FmtStr.format_time_us F (interval_us self) raw
  ]%string.

Definition to_kvpairs (F : FmtStr.t) (self : t) (raw : bool) : Py.value :=
  Py.VDict [
    ("metric", Py.VStr (metric self));
    ("interval_us",
      Py.VStr (FmtStr.format_time_us_exact F (interval_us self) raw));
    ("high_permil", Py.VStr (FmtStr.format_permil F (high_permil self) raw));
    ("mid_permil", Py.VStr (FmtStr.format_permil F (mid_permil self) raw));
    ("low_permil", Py.VStr (FmtStr.format_permil F (low_permil self) raw))
  ]%string.

End DamosWatermarks.

Definition kvpairs_to_DamosWatermarks (F : FmtStr.t) (kv : Py.value)
  : Py.res DamosWatermarks.t :=
  m ← Py.getitem kv "metric";
  a ← Py.getitem kv "interval_us";
  b ← Py.getitem kv "high_permil";
  c ← Py.getitem kv "mid_permil";
  d ← Py.getitem kv "low_permil";
  metric ← Py.as_str m;
  DamosWatermarks.init F metric a b c d.

Module DamosFilter.

Record t : Type := mk {
  name : string;
  filter_type : string;
  memcg_path : option string;
  matching : bool
}.

Definition init (F : FmtStr.t) (name filter_type : string)
  (memcg_path : option string) (matching : Py.value) : Py.res t :=
  m ← FmtStr.text_to_bool F matching;
  mret (mk name filter_type memcg_path m).

(** ['%s' % x] for an optional text and for a boolean. *)
Definition str_of_opt (o : option string) : string :=
  match o with Some s => s | None => "None" end.

Definition str_of_bool (b : bool) : string :=
  if b then "True" else "False".

Definition to_str (self : t) (raw : bool) : string :=
  let memcg_path_str :=
    if String.eqb (filter_type self) "memcg"
    then ("memcg_path " ++ str_of_opt (memcg_path self) ++ ", ")%string
    else ""%string in
  ("filter_type " ++ filter_type self ++ ", " ++ memcg_path_str
   ++ "matching " ++ str_of_bool (matching self))%string.

(** [__eq__] compares the texts [to_str(False)] gives. *)
Definition eq (self other : t) : bool :=
  String.eqb (to_str self false) (to_str other false).

(** What comes back from the key-value pairs of a filter: the path of a
    filter that is not of type [memcg] is not read, and is empty. *)
Definition reloaded (self : t) : t :=
  mk (name self) (filter_type self)
    (if String.eqb (filter_type self) "memcg" then memcg_path self
     else Some ""%string)
    (matching self).

Definition to_kvpairs (F : FmtStr.t) (self : t) (raw : bool) : Py.value :=
  Py.VDict [
    ("name", Py.VStr (name self));
    ("filter_type", Py.VStr (filter_type self));
    ("memcg_path", Py.of_opt_str (memcg_path self));
    ("matching", Py.VBool (matching self))
  ]%string.

End DamosFilter.

Definition kvpairs_to_DamosFilter (F : FmtStr.t) (kv : Py.value)
  : Py.res DamosFilter.t :=
  n ← Py.getitem kv "name";
  name ← Py.as_str n;
  t ← Py.getitem kv "filter_type";
  filter_type ← Py.as_str t;
  memcg_path ←
    (if String.eqb filter_type "memcg"
     then p ← Py.getitem kv "memcg_path"; Py.as_opt_str p
     else mret (Some ""%string));
  m ← Py.getitem kv "matching";
  DamosFilter.init F name filter_type memcg_path m.

Module DamosStats.

Record t : Type := mk {
  nr_tried : Z;
  sz_tried : Z;
  nr_applied : Z;
  sz_applied : Z;
  qt_exceeds : Z
}.

Definition to_str (F : FmtStr.t) (self : t) (raw : bool) : string :=
  Py.join_lines [
    "tried " ++ Py.str_of_int (nr_tried self) ++ " times ("
      ++ FmtStr.format_sz F (sz_tried self) raw ++ ")";
    "applied " ++ Py.str_of_int (nr_applied self) ++ " times ("
      ++ FmtStr.format_sz F (sz_applied self) raw ++ ")";
    "quota exceeded " ++ Py.str_of_int (qt_exceeds self) ++ " times"
  ]%string.

End DamosStats.

Module DamosTriedRegion.

Record t : Type := mk {
  start : Z;
  end_ : Z;
  nr_accesses : Z;
  age : Z
}.

(** [to_str(raw)], that is with [intervals=None]. *)
Definition to_str (F : FmtStr.t) (self : t) (raw : bool) : string :=
  (FmtStr.format_addr_range F (start self) (end_ self) raw
   ++ ": nr_accesses: " ++ FmtStr.format_nr F (nr_accesses self) raw
   ++ ", age: " ++ FmtStr.format_nr F (age self) raw)%string.

End DamosTriedRegion.

(** [l1 == l2] on lists, element by element. *)
Fixpoint list_eqb {A : Type} (eqb : A -> A -> bool) (l1 l2 : list A) : bool :=
  match l1, l2 with
  | [], [] => true
  | x :: l1', y :: l2' => eqb x y && list_eqb eqb l1' l2'
  | _, _ => false
  end.

Module Damos.

Record t : Type := mk {
  name : string;
  access_pattern : DamosAccessPattern.t;
  action : string;
  quotas : DamosQuotas.t;
  watermarks : DamosWatermarks.t;
  filters : list DamosFilter.t;
  stats : option DamosStats.t;
  tried_regions : option (list DamosTriedRegion.t)
}.

(** [Damos(name, access_pattern, action, quotas, watermarks, filters, stats,
    tried_regions)]: an argument that is [None] is replaced by the default
    of its class. *)
Definition init (F : FmtStr.t) (name : string)
  (access_pattern : option DamosAccessPattern.t) (action : string)
  (quotas : option DamosQuotas.t) (watermarks : option DamosWatermarks.t)
  (filters : option (list DamosFilter.t)) (stats : option DamosStats.t)
  (tried_regions : option (list DamosTriedRegion.t)) : Py.res t :=
  ap ← match access_pattern with
       | Some p => mret p
       | None => DamosAccessPattern.default F
       end;
  q ← match quotas with
      | Some q => mret q
      | None => DamosQuotas.default F
      end;
  w ← match watermarks with
      | Some w => mret w
      | None => DamosWatermarks.default F
      end;
  mret (mk name ap action q w (default [] filters) stats tried_regions).

(** [Damos()] *)
Definition default (F : FmtStr.t) : Py.res t :=
  init F "0" None "stat" None None None None None.

Definition to_str (F : FmtStr.t) (self : t) (raw : bool) : string :=
  Py.join_lines
    ([ (name self ++ " (action: " ++ action self ++ ")")%string;
       "target access pattern"%string;
       FmtStr.indent_lines F
         (DamosAccessPattern.to_str F (access_pattern self) raw) 4;
       "quotas"%string;
       FmtStr.indent_lines F (DamosQuotas.to_str F (quotas self) raw) 4;
       "watermarks"%string;
       FmtStr.indent_lines F (DamosWatermarks.to_str F (watermarks self) raw) 4;
       "filters"%string ]
     ++ map (fun f => FmtStr.indent_lines F (DamosFilter.to_str f raw) 8)
          (filters self)
     ++ match stats self with
        | Some st =>
            [ "statistics"%string;
              FmtStr.indent_lines F (DamosStats.to_str F st raw) 4 ]
        | None => []
        end
     ++ match tried_regions self with
        | Some rs =>
            "tried regions"%string
            :: map (fun r =>
                      FmtStr.indent_lines F (DamosTriedRegion.to_str F r raw) 4)
                 rs
        | None => []
        end).

(** A scheme that carries no data of a live query. *)
Definition plain (self : t) : Prop :=
  stats self = None /\ tried_regions self = None.

(** What comes back from the key-value pairs of a scheme: [to_kvpairs]
    writes neither the statistics nor the tried regions. *)
Definition reloaded (self : t) : t :=
  mk (name self) (access_pattern self) (action self) (quotas self)
    (watermarks self) (map DamosFilter.reloaded (filters self)) None None.

Definition eq (self other : t) : bool :=
  String.eqb (name self) (name other)
  && DamosAccessPattern.eq (access_pattern self) (access_pattern other)
  && String.eqb (action self) (action other)
  && DamosQuotas.eq (quotas self) (quotas other)
  && DamosWatermarks.eq (watermarks self) (watermarks other)
  && list_eqb DamosFilter.eq (filters self) (filters other).

Definition to_kvpairs (F : FmtStr.t) (self : t) (raw : bool) : Py.value :=
  Py.VDict [
    ("name", Py.VStr (name self));
    ("action", Py.VStr (action self));
    ("access_pattern",
      DamosAccessPattern.to_kvpairs F (access_pattern self) raw);
    ("quotas", DamosQuotas.to_kvpairs F (quotas self) raw);
    ("watermarks", DamosWatermarks.to_kvpairs F (watermarks self) raw);
    ("filters",
      Py.VList (map (fun f => DamosFilter.to_kvpairs F f raw) (filters self)))
  ]%string.

(** The conjunction is evaluated from the left and stops at the first false
    operand; the quotas, watermarks and filters cannot raise. *)
Definition effectively_equal (self other : t) (intervals : DamonIntervals.t)
  : Py.res bool :=
  b ← DamosAccessPattern.effectively_equal (access_pattern self)
        (access_pattern other) intervals;
  mret (b
        && String.eqb (action self) (action other)
        && DamosQuotas.eq (quotas self) (quotas other)
        && DamosWatermarks.eq (watermarks self) (watermarks other)
        && list_eqb DamosFilter.eq (filters self) (filters other)).

End Damos.

Definition kvpairs_to_Damos (F : FmtStr.t) (kv : Py.value) : Py.res Damos.t :=
  has_filters ← Py.contains kv "filters";
  filters ←
    (if has_filters
     then fl ← Py.getitem kv "filters";
          l ← Py.as_list fl;
          Py.map_res (kvpairs_to_DamosFilter F) l
     else mret []);
  n ← Py.getitem kv "name";
  name ← Py.as_str n;
  has_ap ← Py.contains kv "access_pattern";
  ap ← (if has_ap
        then a ← Py.getitem kv "access_pattern";
             kvpairs_to_DamosAccessPattern F a
        else DamosAccessPattern.default F);
  has_action ← Py.contains kv "action";
  action ← (if has_action
            then a ← Py.getitem kv "action"; Py.as_str a
            else mret "stat"%string);
  has_quotas ← Py.contains kv "quotas";
  quotas ← (if has_quotas
            then q ← Py.getitem kv "quotas"; kvpairs_to_DamosQuotas F q
            else DamosQuotas.default F);
  has_wmarks ← Py.contains kv "watermarks";
  watermarks ← (if has_wmarks
                then w ← Py.getitem kv "watermarks";
                     kvpairs_to_DamosWatermarks F w
                else DamosWatermarks.default F);
  Damos.init F name (Some ap) action (Some quotas) (Some watermarks)
    (Some filters) None None.

(** [Damos().effectively_equal(scheme, intervals)] *)
Definition is_monitoring_scheme (F : FmtStr.t) (scheme : Damos.t)
  (intervals : DamonIntervals.t) : Py.res bool :=
  d ← Damos.default F;
  Damos.effectively_equal d scheme intervals.

Module DamonRecord.

Record t : Type := mk { rfile_buf : Z; rfile_path : string }.

Definition init (F : FmtStr.t) (rfile_buf : Py.value) (rfile_path : string)
  : Py.res t :=
  b ← FmtStr.text_to_bytes F rfile_buf;
  mret (mk b rfile_path).

Definition to_str (F : FmtStr.t) (self : t) (raw : bool) : string :=
  ("path: " ++ rfile_path self ++ ", buffer sz: "
   ++ FmtStr.format_sz F (rfile_buf self) raw)%string.

Definition eq (F : FmtStr.t) (self other : t) : bool :=
  String.eqb (to_str F self false) (to_str F other false).

Definition to_kvpairs (F : FmtStr.t) (self : t) (raw : bool) : Py.value :=
  Py.VDict [
    ("rfile_buf", Py.VInt (rfile_buf self));
    ("rfile_path", Py.VStr (rfile_path self))
  ]%string.

End DamonRecord.

Definition kvpairs_to_DamonRecord (F : FmtStr.t) (kv : Py.value)
  : Py.res DamonRecord.t :=
  b ← Py.getitem kv "rfile_buf";
  p ← Py.getitem kv "rfile_path";
  path ← Py.as_str p;
  DamonRecord.init F b path.

Module DamonCtx.

Record t : Type := mk {
  name : string;
  intervals : DamonIntervals.t;
  nr_regions : DamonNrRegionsRange.t;
  ops : string;
  targets : list DamonTarget.t;
  schemes : list Damos.t;
  record_request : option DamonRecord.t
}.

Definition to_str (F : FmtStr.t) (self : t) (raw : bool) : string :=
  Py.join_lines
    ([ (name self ++ " (ops: " ++ ops self ++ ")")%string;
       ("intervals: " ++ DamonIntervals.to_str F (intervals self) raw)%string;
       ("nr_regions: "
        ++ DamonNrRegionsRange.to_str F (nr_regions self) raw)%string;
       "targets"%string ]
     ++ map (fun t => FmtStr.indent_lines F (DamonTarget.to_str F t raw) 4)
          (targets self)
     ++ [ "schemes"%string ]
     ++ map (fun s => FmtStr.indent_lines F (Damos.to_str F s raw) 4)
          (schemes self)).

Definition eq (F : FmtStr.t) (self other : t) : bool :=
  String.eqb (to_str F self false) (to_str F other false).

Definition plain (self : t) : Prop := Forall Damos.plain (schemes self).

(** What comes back from the key-value pairs of a context. *)
Definition reloaded (self : t) : t :=
  mk (name self) (intervals self) (nr_regions self) (ops self) (targets self)
    (map Damos.reloaded (schemes self)) (record_request self).

Definition to_kvpairs (F : FmtStr.t) (self : t) (raw : bool) : Py.value :=
  Py.VDict
    ([ ("name", Py.VStr (name self));
       ("intervals", DamonIntervals.to_kvpairs F (intervals self) raw);
       ("nr_regions", DamonNrRegionsRange.to_kvpairs F (nr_regions self) raw);
       ("ops", Py.VStr (ops self));
       ("targets",
         Py.VList (map (fun t => DamonTarget.to_kvpairs F t raw) (targets self)));
       ("schemes",
         Py.VList (map (fun s => Damos.to_kvpairs F s raw) (schemes self))) ]%string
     ++ match record_request self with
        | Some r => [("record_request"%string, DamonRecord.to_kvpairs F r raw)]
        | None => []
        end).

End DamonCtx.

(** The default of a missing ["nr_regions"] is spelled [DAmonNrRegionsRange]
    in the source, a name that is not defined. *)
Definition kvpairs_to_DamonCtx (F : FmtStr.t) (kv : Py.value)
  : Py.res DamonCtx.t :=
  n ← Py.getitem kv "name";
  name ← Py.as_str n;
  has_intervals ← Py.contains kv "intervals";
  intervals ←
    (if has_intervals
     then i ← Py.getitem kv "intervals"; kvpairs_to_DamonIntervals F i
     else DamonIntervals.init F (Py.VStr "5ms") (Py.VStr "100ms") (Py.VStr "1s"));
  has_nr_regions ← Py.contains kv "nr_regions";
  nr_regions ←
    (if has_nr_regions
     then r ← Py.getitem kv "nr_regions"; kvpairs_to_DamonNrRegionsRange F r
     else Py.Err (Py.Raised "NameError"));
  o ← Py.getitem kv "ops";
  ops ← Py.as_str o;
  t ← Py.getitem kv "targets";
  tl ← Py.as_list t;
  targets ← Py.map_res (kvpairs_to_DamonTarget F) tl;
  has_schemes ← Py.contains kv "schemes";
  schemes ←
    (if has_schemes
     then s ← Py.getitem kv "schemes";
          sl ← Py.as_list s;
          Py.map_res (kvpairs_to_Damos F) sl
     else mret []);
  has_record ← Py.contains kv "record_request";
  record_request ←
    (if has_record
     then r ← Py.getitem kv "record_request";
          rr ← kvpairs_to_DamonRecord F r;
          mret (Some rr)
     else mret None);
  mret (DamonCtx.mk name intervals nr_regions ops targets schemes
          record_request).

Module Kdamond.

Record t : Type := mk {
  name : string;
  state : string;
  pid : option Z;
  contexts : list DamonCtx.t
}.

Definition summary_str (self : t) : string :=
  (name self ++ " (state: " ++ state self ++ ", pid: "
   ++ Py.str_of_opt_int (pid self) ++ ")")%string.

Definition to_str (F : FmtStr.t) (self : t) (raw : bool) : string :=
  Py.join_lines
    (summary_str self
     :: concat
          (map (fun ctx =>
                  [ "contexts"%string;
                    FmtStr.indent_lines F (DamonCtx.to_str F ctx raw) 4 ])
             (contexts self))).

Definition eq (F : FmtStr.t) (self other : t) : bool :=
  String.eqb (to_str F self false) (to_str F other false).

Definition plain (self : t) : Prop := Forall DamonCtx.plain (contexts self).

(** What comes back from the key-value pairs of a kdamond. *)
Definition reloaded (self : t) : t :=
  mk (name self) (state self) (pid self)
    (map DamonCtx.reloaded (contexts self)).

Definition to_kvpairs (F : FmtStr.t) (self : t) (raw : bool) : Py.value :=
  Py.VDict [
    ("name", Py.VStr (name self));
    ("state", Py.VStr (state self));
    ("pid", Py.of_opt_int (pid self));
    ("contexts",
      Py.VList (map (fun c => DamonCtx.to_kvpairs F c raw) (contexts self)))
  ]%string.

End Kdamond.

Definition kvpairs_to_Kdamond (F : FmtStr.t) (kv : Py.value)
  : Py.res Kdamond.t :=
  n ← Py.getitem kv "name";
  name ← Py.as_str n;
  has_state ← Py.contains kv "state";
  state ← (if has_state
           then s ← Py.getitem kv "state"; Py.as_str s
           else mret "off"%string);
  has_pid ← Py.contains kv "pid";
  pid ← (if has_pid
         then p ← Py.getitem kv "pid"; Py.as_opt_int p
         else mret None);
  c ← Py.getitem kv "contexts";
  cl ← Py.as_list c;
  contexts ← Py.map_res (kvpairs_to_DamonCtx F) cl;
  mret (Kdamond.mk name state pid contexts).

(** ** An instance of the leaf formats *)

(** Modelled from the spec: [_damo_fmt_str] is not among the sources.  The
    spec describes its raw format as plain integer text, and its parsers as
    accepting a bare number, a unit-suffixed number or a number that is
    already typed, with [min] and [max] naming the ends of a range.  This
    instance does that much: the raw format is the decimal text of the
    integer, and the human format, which the spec only describes as grouped
    or suffixed, is the decimal text followed by the unit. *)
Module SpecFmt.

Definition ulong_max : Z := 18446744073709551615.

Definition dec (z : Z) : string := NilZero.string_of_int (Z.to_int z).

Definition undec (s : string) : Py.res Z :=
  match NilZero.int_of_string s with
  | Some d => Py.Ok (Z.of_int d)
  | None => Py.Err Py.ValueError
  end.

(** The text before the first space, and the text after it if there is a
    space. *)
Fixpoint cut_at_space (s : string) : string * option string :=
  match s with
  | EmptyString => (EmptyString, None)
  | String c s' =>
      if Ascii.eqb c " " then (EmptyString, Some s')
      else let '(a, b) := cut_at_space s' in (String c a, b)
  end.

Definition format (unit : string) (z : Z) (raw : bool) : string :=
  if raw then dec z else (dec z ++ " " ++ unit)%string.

(** A number, alone or followed by the unit; [scale] is applied when the
    suffix [other] is given instead. *)
Definition parse (lo hi : option Z) (unit other : string) (scale : Z)
  (v : Py.value) : Py.res Z :=
  match v with
  | Py.VInt z => Py.Ok z
  | Py.VStr s =>
      if String.eqb s "min" then
        match lo with Some z => Py.Ok z | None => Py.Err Py.ValueError end
      else if String.eqb s "max" then
        match hi with Some z => Py.Ok z | None => Py.Err Py.ValueError end
      else
        match cut_at_space s with
        | (n, None) => undec n
        | (n, Some u) =>
            if String.eqb u unit then undec n
            else if String.eqb u other then z ← undec n; mret (z * scale)
            else Py.Err Py.ValueError
        end
  | _ => Py.Err Py.TypeError
  end.

Definition text_to_nr_unit (v : Py.value) : Py.res (Z * string) :=
  match v with
  | Py.VStr s =>
      match cut_at_space s with
      | (n, Some u) => z ← undec n; mret (z, u)
      | (_, None) => Py.Err Py.ValueError
      end
  | _ => Py.Err Py.TypeError
  end.

Definition text_to_bool (v : Py.value) : Py.res bool :=
  match v with
  | Py.VBool b => Py.Ok b
  | Py.VStr s =>
      if String.eqb s "true" || String.eqb s "True" then Py.Ok true
      else if String.eqb s "false" || String.eqb s "False" then Py.Ok false
      else Py.Err Py.ValueError
  | _ => Py.Err Py.TypeError
  end.

Definition format_addr_range (start end_ : Z) (raw : bool) : string :=
  ("[" ++ format "" start true ++ ", " ++ format "" end_ true ++ ") ("
   ++ format "B" (end_ - start) raw ++ ")")%string.

(** Every line of the text moved right by [n] spaces. *)
Fixpoint indent_from (pad s : string) : string :=
  match s with
  | EmptyString => EmptyString
  | String c s' =>
      if Ascii.eqb c "010"%char then String c (pad ++ indent_from pad s')
      else String c (indent_from pad s')
  end.

Fixpoint spaces (n : nat) : string :=
  match n with
  | O => EmptyString
  | S n' => String " " (spaces n')
  end.

Definition indent_lines (s : string) (n : Z) : string :=
  (spaces (Z.to_nat n) ++ indent_from (spaces (Z.to_nat n)) s)%string.

(** Characters of the decimal text of an integer. *)
Definition numeric (c : ascii) : bool :=
  match c with
  | "0" | "1" | "2" | "3" | "4" | "5" | "6" | "7" | "8" | "9" | "-" => true
  | _ => false
  end%char.

Fixpoint all_numeric (s : string) : bool :=
  match s with
  | EmptyString => true
  | String c s' => numeric c && all_numeric s'
  end.

Definition F : FmtStr.t := {|
  FmtStr.format_nr := format "";
  FmtStr.format_sz := format "B";
  FmtStr.format_time_us := format "us";
  FmtStr.format_time_us_exact := format "us";
  FmtStr.format_time_ms_exact := format "ms";
  FmtStr.format_permil := format "permil";
  FmtStr.format_time_ns := format "ns";
  FmtStr.format_time_ms := format "ms";
  FmtStr.format_addr_range := format_addr_range;
  FmtStr.indent_lines := indent_lines;
  FmtStr.text_to_nr := parse None None "" "" 1;
  FmtStr.text_to_bytes := parse (Some 0) (Some ulong_max) "B" "KiB" 1024;
  FmtStr.text_to_us := parse (Some 0) (Some ulong_max) "us" "ms" 1000;
  FmtStr.text_to_ms := parse (Some 0) (Some ulong_max) "ms" "s" 1000;
  FmtStr.text_to_percent := parse (Some 0) (Some 100) "%" "%" 1;
  FmtStr.text_to_permil := parse (Some 0) (Some 1000) "permil" "%" 10;
  FmtStr.text_to_nr_unit := text_to_nr_unit;
  FmtStr.text_to_bool := text_to_bool
|}.

End SpecFmt.

(** ** Inputs used in examples *)

Module Examples.
Import Result.

(** A result with one target that has a single snapshot, holding the single
    region [100,200) with access count 3. *)
Definition single_snapshot : DAMONSnapshot :=
  mkSnapshot (Some (Py.Int 0)) (Py.Int 1000000000) 1 [mkRegion 100 200 3 None].

Definition single_result : DAMONResult :=
  mkResult (Some (Py.Int 0)) (Some (Py.Int 1000000000)) (Some 1)
    [(1, [single_snapshot])].

(** One record of a version 2 file: time stamp of [nsec] nanoseconds, one
    task [tid], no region. *)
Definition record_bytes (nsec tid : Z) : list byte :=
  Struct.le_bytes 8 0 ++ Struct.le_bytes 8 nsec ++ Struct.le_bytes 4 1
  ++ Struct.le_bytes 8 tid ++ Struct.le_bytes 4 0.

(** A version 2 file in which target 1 is seen at 100 ns and 110 ns and
    target 2 at 110 ns and 150 ns. *)
Definition two_target_file : list byte :=
  magic ++ Struct.le_bytes 4 2
  ++ record_bytes 100 1 ++ record_bytes 110 2
  ++ record_bytes 110 1 ++ record_bytes 150 2.

(** What the decoder reads from it, before the start times are inferred. *)
Definition two_target_decoded : DAMONResult :=
  mkResult None None None
    [(1, [mkSnapshot None (Py.Int 100) 1 [];
          mkSnapshot (Some (Py.Int 100)) (Py.Int 110) 1 []]);
     (2, [mkSnapshot None (Py.Int 110) 2 [];
          mkSnapshot (Some (Py.Int 110)) (Py.Int 150) 2 []])].

(** A version 2 file in which target 1 is seen once, at 100 ns, and target 2
    at 110 ns and 150 ns. *)
Definition short_first_file : list byte :=
  magic ++ Struct.le_bytes 4 2
  ++ record_bytes 100 1 ++ record_bytes 110 2 ++ record_bytes 150 2.

(** A file without the magic header: a single record, in the layout of
    version 0. *)
Definition headerless_file : list byte := record_bytes 100 1.

(** A line of [perf script] output that lacks its access count: 8 tokens. *)
Definition short_line : string :=
  "kdamond.0 4452 [000] 82877.315633: damon:damon_aggregated: target_id=1 nr_regions=1 4096-8192:".

(** A complete line with 9 tokens. *)
Definition good_line : string :=
  "kdamond.0 4452 [000] 82877.315633: damon:damon_aggregated: target_id=1 nr_regions=1 4096-8192: 3".

(** Readers of numbers for the examples: decimal integers, and a time stamp
    [seconds.fraction] read exactly. *)
Definition read_int (s : string) : Py.res Z := SpecFmt.undec s.

Definition read_seconds (s : string) : Py.res Z :=
  match split_on "."%char s with
  | [a; b] =>
      sec ← SpecFmt.undec a;
      frac ← SpecFmt.undec b;
      mret (sec * 1000000000 + frac * 10 ^ (9 - Z.of_nat (String.length b)))
  | _ => Py.Err Py.ValueError
  end.

(** The target, scheme, context and kdamond of the unit tests. *)
Definition target : DamonTarget.t :=
  DamonTarget.mk "foo" (Some 1234) [DamonRegion.mk 10 20].

Definition scheme : Damos.t :=
  Damos.mk "foo"
    (DamosAccessPattern.mk 0 10 5 8 unit_percent 54 88 unit_usec)
    "pageout" (DamosQuotas.mk 100 1024 1000 80 76 24)
    (DamosWatermarks.mk "free_mem_rate" 5000000 800 500 200)
    [DamosFilter.mk "bar" "anon" None true] None None.

Definition ctx : DamonCtx.t :=
  DamonCtx.mk "test_ctx" (DamonIntervals.mk 5000 100000 1000000)
    (DamonNrRegionsRange.mk 10 1000) "paddr" [target] [scheme] None.




End Examples.
(** ** Shapes used to state more properties *)

Module AggregatorShapes.
Import Result.

(** A region cut from [region]: inside its range, with its count and age. *)
Definition piece_of (region x : DAMONRegion) : Prop :=
  start region <= start x /\ end_ x <= end_ region
  /\ nr_accesses x = nr_accesses region /\ age x = age region.

(** An address is covered by a list of regions when one of them holds it. *)
Definition covered (rs : list DAMONRegion) (x : Z) : Prop :=
  exists r, In r rs /\ start r <= x < end_ r.

(** The pending increments are never negative. *)
Definition nonneg (m : gmap nat Z) : Prop :=
  forall i v, m !! i = Some v -> 0 <= v.

(** A region of the accumulator later on: same place, same range and age,
    and an access count that is not smaller. *)
Definition grown (r r' : DAMONRegion) : Prop :=
  start r' = start r /\ end_ r' = end_ r /\ age r' = age r
  /\ nr_accesses r <= nr_accesses r'.

(** [x] lies inside [R] and is not empty. *)
Definition inside (R x : DAMONRegion) : Prop :=
  start R <= start x /\ start x < end_ x /\ end_ x <= end_ R.

(** The address ranges of a list of regions, in order. *)
Definition ranges (rs : list DAMONRegion) : list (Z * Z) :=
  map (fun r => (start r, end_ r)) rs.

(** The accumulator after a snapshot that has its ranges: the access counts
    of the snapshot, where positive, are added region by region. *)
Definition add_counts (acc : list DAMONRegion) (s : DAMONSnapshot)
  : list DAMONRegion :=
  zip_with
    (fun a x =>
       mkRegion (start a) (end_ a) (nr_accesses a + Z.max 0 (nr_accesses x))
         (age a))
    acc (regions s).

End AggregatorShapes.

Module RecordShapes.
Import Result.

(** The stream [f] has read a prefix of its data and has [rest] left. *)
Definition at_ (f : File.t) (rest : list byte) : Prop :=
  exists pre, File.data f = pre ++ rest /\ File.pos f = length pre.

(** [f'] is the stream [f] further on, with [rest] left to read. *)
Definition advanced (f f' : File.t) (rest : list byte) : Prop :=
  at_ f' rest
  /\ File.data f' = File.data f
  /\ File.closed f' = File.closed f.

(** A region as the binary format keeps it: without its age. *)
Definition ageless (x : DAMONRegion) : DAMONRegion :=
  mkRegion (start x) (end_ x) (nr_accesses x) None.

(** A sequence of snapshots as the binary decoder rebuilds it: the first
    one starts at [prev], every other one when the one before it ends, and
    the regions have no age. *)
Fixpoint rechained (prev : option Py.num) (l : list DAMONSnapshot)
  : list DAMONSnapshot :=
  match l with
  | [] => []
  | s :: l' =>
      mkSnapshot prev (end_time s) (target_id s) (map ageless (regions s))
      :: rechained (Some (end_time s)) l'
  end.

(** The snapshots at index [idx], one for every target that has one, in the
    order of the targets. *)
Definition column (ts : targets) (idx : nat) : list DAMONSnapshot :=
  omap (fun e : Z * list DAMONSnapshot => snd e !! idx) ts.

(** The snapshots in the order [write_damon_record] writes them. *)
Definition write_order (ts : targets) (n : nat) : list DAMONSnapshot :=
  flat_map (column ts) (seq 0 n).

(** An entry of the targets as it is read back when [k] snapshots of it
    have been written. *)
Definition reread (k : nat) (e : Z * list DAMONSnapshot)
  : Z * list DAMONSnapshot :=
  (fst e, rechained None (take k (snd e))).

(** Every snapshot of the entry carries the target id it is filed under. *)
Definition filed_under (e : Z * list DAMONSnapshot) : Prop :=
  Forall (fun s => target_id s = fst e) (snd e).

(** What the decoder does with the record of one written snapshot. *)
Definition replay_one (ts : targets) (s : DAMONSnapshot) : targets :=
  append_snapshot (target_id s)
    (mkSnapshot (next_start_time (default [] (lookup_target (target_id s) ts)))
       (end_time s) (target_id s) (map ageless (regions s)))
    ts.

Definition replay (written : list DAMONSnapshot) (ts : targets) : targets :=
  fold_left replay_one written ts.

(** A region as it can come out of a binary record: no age, and numbers in
    the ranges of their unsigned formats. *)
Definition decoded_region (x : DAMONRegion) : Prop :=
  age x = None
  /\ 0 <= start x < 2 ^ 64 /\ 0 <= end_ x < 2 ^ 64
  /\ 0 <= nr_accesses x < 2 ^ 32.

(** A snapshot as it can come out of a binary record filed under [tid]. *)
Definition decoded_snapshot (tid : Z) (s : DAMONSnapshot) : Prop :=
  target_id s = tid
  /\ (exists z, end_time s = Py.Int z)
  /\ Forall decoded_region (regions s).

(** Every snapshot is filed under its own target id and ends at an integer
    time. *)
Definition decoded_ids (ts : targets) : Prop :=
  Forall (fun e : Z * list DAMONSnapshot =>
            Forall (fun s => target_id s = fst e
                             /\ exists z, end_time s = Py.Int z) (snd e)) ts.

Definition decoded_targets (ts : targets) : Prop :=
  Forall (fun e : Z * list DAMONSnapshot =>
            Forall (decoded_snapshot (fst e)) (snd e)) ts.

End RecordShapes.

(** ** More of [_damon_result.py] and of [_damon_dbgfs.py] *)

Module ResultFile.
Import Result.

(** [parse_damon_result_for] on a file classified as
    [file_type_perf_script]: the text decoder, then the inference of the
    start times (lines 217 to 246).  [lines] is what iterating over the
    file yields; the stream itself is not modelled, and the format version
    returned is [None]. *)
Definition parse_damon_result_for_perf_script
  (py_int seconds_to_ns : string -> Py.res Z) (lines : list string)
  (max_secs : option Z) : Py.res DAMONResult :=
  result ← perf_script_to_damon_result py_int seconds_to_ns lines max_secs;
  infer_times result.

(** [parse_damon_result] on a file classified as [file_type_record]:
    [(result, err)].  [f.close()] on a stream that is [None] raises. *)
Definition parse_damon_result (contents : list byte)
  : Py.res (option DAMONResult * option string) :=
  d ← parse_damon_result_for contents None None None;
  match d_err d with
  | Some err => mret (None, Some err)
  | None =>
      match d_file d with
      | Some f => mret (d_result d, None)
      | None => Py.Err Py.AttributeError
      end
  end.

(** The state of the text decoder between two lines: nothing decoded yet,
    or a result whose sequences are chained and filed. *)
Definition text_invariant (st : perf_state) : Prop :=
  match p_result st with
  | None => True
  | Some r =>
      result_start_time r = None
      /\ result_end_time r = None
      /\ nr_snapshots r = None
      /\ all_chained (target_snapshots r)
      /\ RecordShapes.decoded_ids (target_snapshots r)
  end.

End ResultFile.

Module PerfWriter.
Import Result.

(** [' '.join(items)] *)
Fixpoint join_spaces (items : list string) : string :=
  match items with
  | [] => EmptyString
  | [x] => x
  | x :: rest => (x ++ String " "%char (join_spaces rest))%string
  end.

Section Writer.

(** ['%f' % x] for a float [x] is Python's own; it is a parameter of the
    writer. *)
Variable fmt_f : Q -> string.

(** The line written for one region of a snapshot. *)
Definition perf_script_line (snapshot : DAMONSnapshot) (region : DAMONRegion)
  : string :=
  (join_spaces
     [ "kdamond.x"; "xxxx"; "xxxx";
       fmt_f (Py.to_Q (end_time snapshot) / inject_Z 1000000000)%Q ++ ":";
       "damon:damon_aggregated:";
       "target_id=" ++ Py.str_of_int (target_id snapshot);
       "nr_regions=" ++ Py.str_of_int (Z.of_nat (length (regions snapshot)));
       Py.str_of_int (start region) ++ "-" ++ Py.str_of_int (end_ region)
       ++ ": " ++ Py.str_of_int (nr_accesses region) ++ " "
       ++ Py.str_of_opt_int (age region) ]
   ++ String "010"%char EmptyString)%string.

(** [for region in snapshot.regions: f.write(...)] *)
Definition snapshot_lines (snapshot : DAMONSnapshot) : list string :=
  map (perf_script_line snapshot) (regions snapshot).

(** [for tid in result.target_snapshots] at one [snapshot_idx]. *)
Fixpoint index_lines (ts : targets) (snapshot_idx : nat)
  : Py.res (list string) :=
  match ts with
  | [] => mret []
  | (tid, snapshots) :: rest =>
      match snapshots !! snapshot_idx with
      | None => Py.Err Py.IndexError
      | Some snapshot =>
          ls ← index_lines rest snapshot_idx;
          mret (snapshot_lines snapshot ++ ls)
      end
  end.

(** [for snapshot_idx in range(result.nr_snapshots)] *)
Fixpoint all_lines (ts : targets) (idxs : list nat) : Py.res (list string) :=
  match idxs with
  | [] => mret []
  | idx :: rest =>
      ls ← index_lines ts idx;
      ls' ← all_lines ts rest;
      mret (ls ++ ls')
  end.

(** The strings [write_damon_perf_script] writes, one for every region.
    [range(None)] is a [TypeError]. *)
Definition write_damon_perf_script (result : DAMONResult)
  : Py.res (list string) :=
  match nr_snapshots result with
  | None => Py.Err Py.TypeError
  | Some n => all_lines (target_snapshots result) (seq 0 (Z.to_nat n))
  end.

End Writer.

(** A text without white space. *)
Fixpoint spaceless (s : string) : bool :=
  match s with
  | EmptyString => true
  | String c s' => negb (is_space c) && spaceless s'
  end.

(** What [str.split] returns as a field: not empty, no white space. *)
Definition token (s : string) : Prop :=
  spaceless s = true /\ s <> EmptyString.

End PerfWriter.

Module Dbgfs.

Section InitRegions.

(** [int(s)] is a parameter. *)
Variable py_int : string -> Py.res Z.

(** [exit(1)] *)
Definition system_exit : Py.exn := Py.Raised "SystemExit".

(** The [try] block of the loop body: the region of one argument, checked
    against the regions accepted so far. *)
Definition checked_region (regions : list (Z * Z)) (arg : string)
  : Py.res (Z * Z) :=
  let addrs := Result.split_on "-"%char arg in
  if negb (Nat.eqb (length addrs) 2)
  then Py.Err (Py.Raised "two addresses not given")
  else
    start ← py_int (nth 0 addrs EmptyString);
    end_ ← py_int (nth 1 addrs EmptyString);
    if end_ <=? start then Py.Err (Py.Raised "start >= end")
    else
      match last regions with
      | Some prev =>
          if start <? snd prev then Py.Err (Py.Raised "regions overlap")
          else mret (start, end_)
      | None => mret (start, end_)
      end.

(** One round of the loop: every exception of the [try] block ends in
    [exit(1)]. *)
Definition add_init_region (regions : list (Z * Z)) (arg : string)
  : Py.res (list (Z * Z)) :=
  match checked_region regions arg with
  | Py.Ok region => mret (regions ++ [region])
  | Py.Err _ => Py.Err system_exit
  end.

Fixpoint init_regions_loop (args : list string) (regions : list (Z * Z))
  : Py.res (list (Z * Z)) :=
  match args with
  | [] => mret regions
  | arg :: rest =>
      regions' ← add_init_region regions arg;
      init_regions_loop rest regions'
  end.

(** [cmd_args_to_init_regions(args)], with [args.regions] as argument. *)
Definition cmd_args_to_init_regions (regions : string)
  : Py.res (list (Z * Z)) :=
  init_regions_loop (Result.split regions) [].

End InitRegions.

(** Regions given in increasing order: each one is not empty and ends no
    later than the next one starts. *)
Definition ascending (regions : list (Z * Z)) : Prop :=
  Forall (fun r : Z * Z => fst r < snd r) regions
  /\ forall i r r',
       regions !! i = Some r -> regions !! S i = Some r' -> snd r <= fst r'.

End Dbgfs.

Module MoreExamples.
Import Result.

(** Two targets with two snapshots each. *)
Definition two_by_two : DAMONResult :=
  mkResult (Some (Py.Int 0)) (Some (Py.Int 2000000000)) (Some 2)
    [(1, [mkSnapshot (Some (Py.Int 0)) (Py.Int 1000000000) 1
            [mkRegion 100 200 3 (Some 5)];
          mkSnapshot (Some (Py.Int 1000000000)) (Py.Int 2000000000) 1
            [mkRegion 100 200 4 (Some 6)]]);
     (2, [mkSnapshot (Some (Py.Int 0)) (Py.Int 1000000000) 2 [];
          mkSnapshot (Some (Py.Int 1000000000)) (Py.Int 2000000000) 2
            [mkRegion 0 4096 0 None; mkRegion 4096 8192 1 None]])].

(** The bytes [write_damon_record] writes for it, in version 2. *)
Definition two_by_two_file : list byte :=
  Eval vm_compute in
    match write_damon_record two_by_two 2 with
    | Py.Ok bytes => bytes
    | Py.Err _ => []
    end.

(** What the decoder reads from these bytes. *)
Definition two_by_two_decoded : DAMONResult :=
  mkResult None None None
    [(1, [mkSnapshot None (Py.Int 1000000000) 1 [mkRegion 100 200 3 None];
          mkSnapshot (Some (Py.Int 1000000000)) (Py.Int 2000000000) 1
            [mkRegion 100 200 4 None]]);
     (2, [mkSnapshot None (Py.Int 1000000000) 2 [];
          mkSnapshot (Some (Py.Int 1000000000)) (Py.Int 2000000000) 2
            [mkRegion 0 4096 0 None; mkRegion 4096 8192 1 None]])].

End MoreExamples.

(** ** Properties of the aggregator *)

Module AggregatorProofs.
Import Result.

Lemma regions_intersect_overlap (a b : DAMONRegion) :
  regions_intersect a b = true <-> overlap a b.
Proof.
  unfold regions_intersect, overlap.
  rewrite negb_true_iff, orb_false_iff, !Z.leb_gt. lia.
Qed.

Lemma regions_intersect_false (a b : DAMONRegion) :
  regions_intersect a b = false <-> ~ overlap a b.
Proof.
  rewrite <- regions_intersect_overlap. symmetry. apply not_true_iff_false.
Qed.

Lemma overlap_sym (a b : DAMONRegion) : overlap a b -> overlap b a.
Proof. unfold overlap. tauto. Qed.

Lemma first_intersecting_None (rs : list DAMONRegion) (region : DAMONRegion) :
  forall k, first_intersecting rs region k = None ->
  forall j r, rs !! j = Some r -> ~ overlap r region.
Proof.
  induction rs as [|x rs IH]; intros k Hnone j r Hj; [by destruct j|].
  simpl in Hnone.
  destruct (regions_intersect x region) eqn:Hx; [discriminate|].
  destruct j as [|j]; simpl in Hj.
  - injection Hj as <-. by apply regions_intersect_false.
  - eapply IH; eauto.
Qed.

Lemma first_intersecting_Some (rs : list DAMONRegion) (region : DAMONRegion) :
  forall k i r, first_intersecting rs region k = Some (i, r) ->
  overlap r region /\ (k <= i)%nat /\ rs !! (i - k)%nat = Some r.
Proof.
  induction rs as [|x rs IH]; intros k i r Hsome; [discriminate|].
  simpl in Hsome.
  destruct (regions_intersect x region) eqn:Hx.
  - injection Hsome as <- <-. rewrite Nat.sub_diag.
    split; [by apply regions_intersect_overlap | split; [lia | done]].
  - destruct (IH _ _ _ Hsome) as (Ho & Hle & Hl).
    split; [done | split; [lia |]].
    replace (i - k)%nat with (S (i - S k)) by lia. done.
Qed.

(** The remainders are strictly shorter than the region that was cut. *)
Lemma remainders_span (region r x : DAMONRegion) :
  overlap r region -> In x (remainders region r) -> (span x < span region)%nat.
Proof.
  unfold overlap, remainders, span. intros [H1 H2] Hin.
  apply in_app_or in Hin.
  destruct Hin as [Hin | Hin].
  - destruct (Z.ltb_spec (start region) (start r)); simpl in Hin; [|done].
    destruct Hin as [<- | []]. simpl. lia.
  - destruct (Z.ltb_spec (end_ r) (end_ region)); simpl in Hin; [|done].
    destruct Hin as [<- | []]. simpl. lia.
Qed.

Lemma fold_left_agree {A B : Type} (f g : A -> B -> A) (l : list B) :
  (forall x, In x l -> forall a, f a x = g a x) ->
  forall a, fold_left f l a = fold_left g l a.
Proof.
  induction l as [|x l IH]; intros Hfg a; [done|]. simpl.
  rewrite (Hfg x (or_introl eq_refl)). apply IH.
  intros y Hy. apply Hfg. by right.
Qed.

(** Any fuel above the span of the region gives the same result. *)
Lemma add_region_fuel_enough (n : nat) :
  forall m st region,
    (span region < n)%nat -> (span region < m)%nat ->
    add_region_fuel n st region = add_region_fuel m st region.
Proof.
  induction n as [|n IH]; intros m st region Hn Hm; [lia|].
  destruct m as [|m]; [lia|]. simpl.
  destruct (first_intersecting (fst st) region 0) as [[i r]|] eqn:Hf; [|done].
  apply first_intersecting_Some in Hf as (Ho & _ & _).
  apply fold_left_agree. intros x Hx a.
  pose proof (remainders_span _ _ _ Ho Hx).
  apply IH; lia.
Qed.

(** [add_region] satisfies the recursion of the source: append when nothing
    intersects, otherwise note the increment and insert the remainders. *)
Lemma add_region_eq (st : agg_state) (region : DAMONRegion) :
  add_region st region =
  match first_intersecting (fst st) region 0 with
  | Some (i, r) =>
      fold_left add_region (remainders region r)
        (fst st, note_increment (snd st) i (nr_accesses region))
  | None => (fst st ++ [region], snd st)
  end.
Proof.
  unfold add_region at 1. simpl.
  destruct (first_intersecting (fst st) region 0) as [[i r]|] eqn:Hf; [|done].
  apply first_intersecting_Some in Hf as (Ho & _ & _).
  apply fold_left_agree. intros x Hx a.
  pose proof (remainders_span _ _ _ Ho Hx).
  unfold add_region. apply add_region_fuel_enough; lia.
Qed.

Lemma pairwise_disjoint_nil : pairwise_disjoint [].
Proof. intros i j a b _ Hi. by destruct i. Qed.

Lemma pairwise_disjoint_snoc (rs : list DAMONRegion) (x : DAMONRegion) :
  pairwise_disjoint rs ->
  (forall j r, rs !! j = Some r -> ~ overlap r x) ->
  pairwise_disjoint (rs ++ [x]).
Proof.
  intros Hd Hx i j a b Hij Hi Hj.
  destruct (decide (i < length rs)%nat) as [Hil | Hil];
    destruct (decide (j < length rs)%nat) as [Hjl | Hjl].
  - rewrite lookup_app_l in Hi, Hj by done. eauto.
  - rewrite lookup_app_l in Hi by done.
    rewrite lookup_app_r in Hj by lia.
    destruct (j - length rs)%nat; simpl in Hj; [|by destruct n].
    injection Hj as <-. eauto.
  - rewrite lookup_app_r in Hi by lia.
    rewrite lookup_app_l in Hj by done.
    destruct (i - length rs)%nat; simpl in Hi; [|by destruct n].
    injection Hi as <-. intros Ho. apply overlap_sym in Ho. by eapply Hx.
  - rewrite lookup_app_r in Hi, Hj by lia.
    destruct (i - length rs)%nat eqn:Ei; simpl in Hi; [|by destruct n].
    destruct (j - length rs)%nat eqn:Ej; simpl in Hj; [|by destruct n].
    lia.
Qed.

Lemma fold_left_invariant {A B : Type} (P : A -> Prop) (f : A -> B -> A)
  (l : list B) :
  (forall a x, P a -> P (f a x)) -> forall a, P a -> P (fold_left f l a).
Proof.
  intros Hf. induction l as [|x l IH]; intros a Ha; simpl; auto.
Qed.

Lemma add_region_fuel_disjoint (fuel : nat) :
  forall st region,
    pairwise_disjoint (fst st) ->
    pairwise_disjoint (fst (add_region_fuel fuel st region)).
Proof.
  induction fuel as [|fuel IH]; intros st region Hd; [done|]. simpl.
  destruct (first_intersecting (fst st) region 0) as [[i r]|] eqn:Hf.
  - apply (fold_left_invariant (fun s => pairwise_disjoint (fst s))); auto.
  - simpl. apply pairwise_disjoint_snoc; [done|].
    eapply first_intersecting_None; eauto.
Qed.

Lemma add_region_disjoint (st : agg_state) (region : DAMONRegion) :
  pairwise_disjoint (fst st) -> pairwise_disjoint (fst (add_region st region)).
Proof. apply add_region_fuel_disjoint. Qed.

(** Applying the increments changes access counts only. *)
Lemma apply_increments_geometry (st : agg_state) (i : nat) (a : DAMONRegion) :
  apply_increments st !! i = Some a ->
  exists a0, fst st !! i = Some a0 /\ start a = start a0 /\ end_ a = end_ a0.
Proof.
  unfold apply_increments. rewrite list_lookup_imap.
  destruct (fst st !! i) as [a0|]; simpl; [|done].
  intros [= <-]. exists a0. by destruct (snd st !! i).
Qed.

Lemma apply_increments_disjoint (st : agg_state) :
  pairwise_disjoint (fst st) -> pairwise_disjoint (apply_increments st).
Proof.
  intros Hd i j a b Hij Hi Hj.
  apply apply_increments_geometry in Hi as (a0 & Hi & Hsa & Hea).
  apply apply_increments_geometry in Hj as (b0 & Hj & Hsb & Heb).
  specialize (Hd i j a0 b0 Hij Hi Hj).
  unfold overlap in *. lia.
Qed.

Lemma aggregate_pass_disjoint (rs : list DAMONRegion) (s : DAMONSnapshot) :
  pairwise_disjoint rs -> pairwise_disjoint (aggregate_pass rs s).
Proof.
  intros Hd. apply apply_increments_disjoint.
  apply (fold_left_invariant (fun s => pairwise_disjoint (fst s))); [|done].
  intros. by apply add_region_disjoint.
Qed.

Lemma aggregate_regions_disjoint (snapshots : list DAMONSnapshot) :
  pairwise_disjoint (aggregate_regions snapshots).
Proof.
  apply (fold_left_invariant pairwise_disjoint).
  - intros. by apply aggregate_pass_disjoint.
  - apply pairwise_disjoint_nil.
Qed.

(** C3.  With snapshot A holding the single region [0,10) of access count 5
    and snapshot B holding [0,5) of count 2 and [5,10) of count 4, whatever
    their times, target ids and ages, [aggregate_snapshots [A; B]] returns a
    snapshot whose only region is [0,10) with access count 9: both regions of
    B intersect the region of A, the pending increment is max(2,4) = 4, and
    it is applied once at the end of the pass. *)
Theorem aggregate_example
  (stA stB : option Py.num) (etA etB : Py.num) (tidA tidB : Z)
  (ageA age1 age2 : option Z) :
  exists s,
    aggregate_snapshots
      [ mkSnapshot stA etA tidA [mkRegion 0 10 5 ageA];
        mkSnapshot stB etB tidB [mkRegion 0 5 2 age1; mkRegion 5 10 4 age2] ]
    = Py.Ok s
    /\ regions s = [mkRegion 0 10 9 ageA].
Proof. eexists. split; reflexivity. Qed.



(** C10.  The accumulator of the aggregator is pairwise non-overlapping:
    [add_region] keeps a pairwise disjoint accumulator pairwise disjoint for
    every inserted region, the accumulator reached after any sequence of
    snapshots is pairwise disjoint, and so is the region list of every
    snapshot that [aggregate_snapshots] returns. *)
Theorem aggregate_disjoint :
  (forall (st : agg_state) (region : DAMONRegion),
      pairwise_disjoint (fst st) ->
      pairwise_disjoint (fst (add_region st region)))
  /\ (forall snapshots : list DAMONSnapshot,
        pairwise_disjoint (aggregate_regions snapshots))
  /\ (forall (snapshots : list DAMONSnapshot) (r : DAMONSnapshot),
        aggregate_snapshots snapshots = Py.Ok r ->
        pairwise_disjoint (regions r)).
Proof.
  split; [exact add_region_disjoint|].
  split; [exact aggregate_regions_disjoint|].
  intros snapshots r. unfold aggregate_snapshots.
  destruct (head snapshots); [|discriminate].
  destruct (last snapshots); [|discriminate].
  intros [= <-]. simpl. apply aggregate_regions_disjoint.
Qed.

Lemma pairwise_disjoint_singleton (x : DAMONRegion) : pairwise_disjoint [x].
Proof.
  intros i j a b Hij Hi Hj.
  destruct i as [|i]; [|by destruct i].
  destruct j as [|j]; [lia | by destruct j].
Qed.

(** The three parts of [aggregate_disjoint] at concrete inputs: a region
    that straddles the one already accumulated, and the two snapshots of the
    example. *)
Lemma aggregate_disjoint_witness :
  pairwise_disjoint
    (fst (add_region ([mkRegion 10 20 1 None], ∅) (mkRegion 5 30 2 None)))
  /\ pairwise_disjoint
       (aggregate_regions
          [mkSnapshot None (Py.Int 1) 7 [mkRegion 0 10 5 None];
           mkSnapshot None (Py.Int 2) 7
             [mkRegion 0 5 2 None; mkRegion 5 10 4 None]])
  /\ pairwise_disjoint [mkRegion 0 10 9 None].
Proof.
  split; [|split].
  - apply (proj1 aggregate_disjoint). simpl.
    apply pairwise_disjoint_singleton.
  - apply (proj1 (proj2 aggregate_disjoint)).
  - apply (proj2 (proj2 aggregate_disjoint)
             [mkSnapshot None (Py.Int 1) 7 [mkRegion 0 10 5 None];
              mkSnapshot None (Py.Int 2) 7
                [mkRegion 0 5 2 None; mkRegion 5 10 4 None]]
             (mkSnapshot None (Py.Int 2) 7 [mkRegion 0 10 9 None])).
    reflexivity.
Defined.

End AggregatorProofs.
(** ** Properties of access patterns and schemes *)

Module PatternProofs.
Import DamosAccessPattern.

Lemma nr_accesses_unit_eqb_eq (a b : nr_accesses_unit) :
  nr_accesses_unit_eqb a b = true <-> a = b.
Proof. destruct a, b; simpl; split; congruence. Qed.

Lemma age_unit_eqb_eq (a b : age_unit) : age_unit_eqb a b = true <-> a = b.
Proof. destruct a, b; simpl; split; congruence. Qed.

Lemma eq_refl_true (p : t) : eq p p = true.
Proof.
  unfold eq. rewrite !Z.eqb_refl.
  destruct (nr_accesses_unit_ p), (age_unit_ p); reflexivity.
Qed.

Lemma true_div_pos (x : Q) (y : Z) :
  0 < y -> true_div x (inject_Z y) = Py.Ok (x / inject_Z y)%Q.
Proof.
  intros Hy. unfold true_div.
  destruct (Qeq_bool (inject_Z y) 0) eqn:E; [|done].
  apply Qeq_bool_iff in E. unfold Qeq in E. simpl in E. lia.
Qed.

(** [int(x)] of an integer is that integer. *)
Lemma int_of_Q_inject (z : Z) : Py.int_of_Q (inject_Z z) = z.
Proof.
  unfold Py.int_of_Q.
  destruct (Qle_bool 0 (inject_Z z)); [apply Qfloor_Z | apply Qceiling_Z].
Qed.

Lemma int_of_Q_comp (x y : Q) : (x == y)%Q -> Py.int_of_Q x = Py.int_of_Q y.
Proof.
  intros Hxy. unfold Py.int_of_Q.
  assert (Qle_bool 0 x = Qle_bool 0 y) as ->.
  { destruct (Qle_bool 0 x) eqn:Ex, (Qle_bool 0 y) eqn:Ey; try done.
    - apply Qle_bool_iff in Ex. rewrite Hxy in Ex.
      apply Qle_bool_iff in Ex. congruence.
    - apply Qle_bool_iff in Ey. rewrite <- Hxy in Ey.
      apply Qle_bool_iff in Ey. congruence. }
  destruct (Qle_bool 0 y); [by apply Qfloor_comp | by apply Qceiling_comp].
Qed.

(** An age in aggregation intervals survives the trip through microseconds. *)
Lemma age_round_trip (a g : Z) :
  0 < g -> Py.int_of_Q (inject_Z (a * g) / inject_Z g) = a.
Proof.
  intros Hg. rewrite <- (int_of_Q_inject a) at 2.
  apply int_of_Q_comp.
  rewrite inject_Z_mult. field.
  intros E. unfold Qeq in E. simpl in E. lia.
Qed.

Lemma convert_nr_same (p : t) (intervals : DamonIntervals.t) :
  convert_nr_accesses_unit p (nr_accesses_unit_ p) intervals = Py.Ok p.
Proof.
  unfold convert_nr_accesses_unit.
  by destruct (nr_accesses_unit_ p).
Qed.

Lemma convert_age_same (p : t) (intervals : DamonIntervals.t) :
  convert_age_unit p (age_unit_ p) intervals = Py.Ok p.
Proof.
  unfold convert_age_unit.
  by destruct (age_unit_ p).
Qed.

(** Conversion to sample intervals succeeds when the sampling interval is
    positive, and leaves everything but the access counts and their unit. *)
Lemma convert_nr_to_samples (p : t) (intervals : DamonIntervals.t) :
  0 < DamonIntervals.sample intervals ->
  exists lo hi,
    convert_nr_accesses_unit p unit_sample_intervals intervals
    = Py.Ok (mk (min_sz_bytes p) (max_sz_bytes p) lo hi unit_sample_intervals
               (min_age p) (max_age p) (age_unit_ p)).
Proof.
  intros Hs. destruct p as [a b c d u e f v].
  unfold convert_nr_accesses_unit. simpl.
  destruct u; simpl.
  - rewrite (true_div_pos _ _ Hs). simpl. eauto.
  - eauto.
Qed.

(** Conversion of the ages succeeds when the aggregation interval is
    positive, and leaves everything but the ages and their unit. *)
Lemma convert_age_defined (p : t) (u : age_unit) (intervals : DamonIntervals.t) :
  0 < DamonIntervals.aggr intervals ->
  exists lo hi,
    convert_age_unit p u intervals
    = Py.Ok (mk (min_sz_bytes p) (max_sz_bytes p) (min_nr_accesses p)
               (max_nr_accesses p) (nr_accesses_unit_ p) lo hi u).
Proof.
  intros Ha. destruct p as [a b c d w e f v].
  unfold convert_age_unit. simpl.
  destruct v, u; simpl; eauto.
  rewrite !(true_div_pos _ _ Ha). simpl. eauto.
Qed.

(** Converting the ages to aggregation intervals gives the same pattern
    whether or not the ages were first converted to some unit [u]. *)
Lemma convert_age_twice (p : t) (u : age_unit) (intervals : DamonIntervals.t) :
  0 < DamonIntervals.aggr intervals ->
  Py.bind (convert_age_unit p u intervals)
    (fun q => convert_age_unit q unit_aggr_intervals intervals)
  = convert_age_unit p unit_aggr_intervals intervals.
Proof.
  intros Ha. destruct p as [a b c d w e f v].
  unfold convert_age_unit. simpl.
  destruct v, u; simpl; try done.
  - rewrite !(true_div_pos _ _ Ha). simpl. done.
  - rewrite !(true_div_pos _ _ Ha). simpl.
    by rewrite !(age_round_trip _ _ Ha).
Qed.

(** The same for the access counts, when no trip from sample intervals
    through percent is involved. *)
Lemma convert_nr_twice (p : t) (u : nr_accesses_unit)
  (intervals : DamonIntervals.t) :
  0 < DamonIntervals.sample intervals ->
  nr_accesses_unit_ p = unit_percent \/ u = unit_sample_intervals ->
  Py.bind (convert_nr_accesses_unit p u intervals)
    (fun q => convert_nr_accesses_unit q unit_sample_intervals intervals)
  = convert_nr_accesses_unit p unit_sample_intervals intervals.
Proof.
  intros Hs Hor. destruct p as [a b c d w e f v]. simpl in Hor.
  unfold convert_nr_accesses_unit. simpl.
  destruct w, u; simpl; try done.
  - rewrite (true_div_pos _ _ Hs). simpl. done.
  - destruct Hor; discriminate.
Qed.

(** The law behind C1 and C6: a pattern is effectively equal to its own
    conversion, unless the conversion takes access counts from sample
    intervals to percent. *)
Lemma effectively_equal_converted (p : t) (u1 : nr_accesses_unit)
  (u2 : age_unit) (intervals : DamonIntervals.t) :
  0 < DamonIntervals.sample intervals ->
  0 < DamonIntervals.aggr intervals ->
  nr_accesses_unit_ p = unit_percent \/ u1 = unit_sample_intervals ->
  exists p',
    converted_for_units p u1 u2 intervals = Py.Ok p'
    /\ nr_accesses_unit_ p' = u1
    /\ age_unit_ p' = u2
    /\ effectively_equal p p' intervals = Py.Ok true.
Proof.
  intros Hs Ha Hor. destruct p as [a b c d w e f v]. simpl in Hor.
  unfold effectively_equal, converted_for_units, convert_for_units,
    convert_nr_accesses_unit, convert_age_unit.
  destruct w, u1; try (destruct Hor; discriminate);
    destruct v, u2; simpl;
    rewrite ?(true_div_pos _ _ Hs), ?(true_div_pos _ _ Ha); simpl;
    rewrite ?(true_div_pos _ _ Hs), ?(true_div_pos _ _ Ha); simpl;
    rewrite ?(age_round_trip _ _ Ha);
    eexists; (split; [reflexivity|]); simpl;
    rewrite ?(true_div_pos _ _ Hs), ?(true_div_pos _ _ Ha); simpl;
    rewrite ?(age_round_trip _ _ Ha), ?eq_refl_true; done.
Qed.




Lemma effectively_equal_refl (p : t) (intervals : DamonIntervals.t) :
  0 < DamonIntervals.sample intervals ->
  0 < DamonIntervals.aggr intervals ->
  effectively_equal p p intervals = Py.Ok true.
Proof.
  intros Hs Ha.
  destruct (effectively_equal_converted p unit_sample_intervals
              unit_aggr_intervals intervals Hs Ha (or_intror eq_refl))
    as (n & Hn & _ & _ & _).
  unfold effectively_equal. rewrite Hn. simpl. by rewrite eq_refl_true.
Qed.

Lemma quotas_eq_refl (q : DamosQuotas.t) : DamosQuotas.eq q q = true.
Proof. unfold DamosQuotas.eq. by rewrite !Z.eqb_refl. Qed.

Lemma watermarks_eq_refl (w : DamosWatermarks.t) : DamosWatermarks.eq w w = true.
Proof.
  unfold DamosWatermarks.eq. by rewrite String.eqb_refl, !Z.eqb_refl.
Qed.

Lemma filters_eq_refl (fs : list DamosFilter.t) :
  list_eqb DamosFilter.eq fs fs = true.
Proof.
  induction fs as [|f fs IH]; simpl; [done|].
  unfold DamosFilter.eq at 1. by rewrite String.eqb_refl, IH.
Qed.

(** Two schemes with effectively equal patterns that agree on everything
    else but the name are effectively equal. *)
Lemma damos_effectively_equal (d d' : Damos.t) (intervals : DamonIntervals.t) :
  effectively_equal (Damos.access_pattern d) (Damos.access_pattern d') intervals
  = Py.Ok true ->
  Damos.action d' = Damos.action d ->
  Damos.quotas d' = Damos.quotas d ->
  Damos.watermarks d' = Damos.watermarks d ->
  Damos.filters d' = Damos.filters d ->
  Damos.effectively_equal d d' intervals = Py.Ok true.
Proof.
  intros Hp H1 H2 H3 H4. unfold Damos.effectively_equal.
  rewrite Hp, H1, H2, H3, H4. simpl.
  by rewrite String.eqb_refl, quotas_eq_refl, watermarks_eq_refl,
    filters_eq_refl.
Qed.

(** C6.  Whatever the leaf parsers make of the default arguments, when
    [Damos()] is constructed, it is classified as monitoring-only under
    every interval set with positive sampling and aggregation intervals;
    converting its access pattern in place to sample intervals and
    aggregation intervals under the same interval set succeeds, and the
    scheme is still classified as monitoring-only afterwards. *)
Theorem default_scheme_is_monitoring (F : FmtStr.t) (d : Damos.t)
  (intervals : DamonIntervals.t) :
  Damos.default F = Py.Ok d ->
  0 < DamonIntervals.sample intervals ->
  0 < DamonIntervals.aggr intervals ->
  is_monitoring_scheme F d intervals = Py.Ok true
  /\ exists p',
       convert_for_units (Damos.access_pattern d) unit_sample_intervals
         unit_aggr_intervals intervals = Py.Ok p'
       /\ is_monitoring_scheme F
            (Damos.mk (Damos.name d) p' (Damos.action d) (Damos.quotas d)
               (Damos.watermarks d) (Damos.filters d) (Damos.stats d)
               (Damos.tried_regions d))
            intervals
          = Py.Ok true.
Proof.
  intros Hd Hs Ha. unfold is_monitoring_scheme. rewrite Hd. simpl. split.
  - apply damos_effectively_equal; try done.
    by apply effectively_equal_refl.
  - destruct (effectively_equal_converted (Damos.access_pattern d)
                unit_sample_intervals unit_aggr_intervals intervals Hs Ha
                (or_intror eq_refl)) as (p' & Hp' & _ & _ & He).
    exists p'. split; [exact Hp'|].
    by apply damos_effectively_equal.
Qed.

(** The default scheme of the instance of the leaf formats, under the
    default intervals of 5 ms, 100 ms and 1 s. *)
Lemma default_scheme_is_monitoring_witness :
  is_monitoring_scheme SpecFmt.F
    (Damos.mk "0"
       (mk 0 SpecFmt.ulong_max 0 100 unit_percent 0 SpecFmt.ulong_max unit_usec)
       "stat" (DamosQuotas.mk 0 0 SpecFmt.ulong_max 0 0 0)
       (DamosWatermarks.mk "none" 0 0 0 0) [] None None)
    (DamonIntervals.mk 5000 100000 1000000)
  = Py.Ok true
  /\ exists p',
       convert_for_units
         (mk 0 SpecFmt.ulong_max 0 100 unit_percent 0 SpecFmt.ulong_max
            unit_usec)
         unit_sample_intervals unit_aggr_intervals
         (DamonIntervals.mk 5000 100000 1000000) = Py.Ok p'
       /\ is_monitoring_scheme SpecFmt.F
            (Damos.mk "0" p' "stat" (DamosQuotas.mk 0 0 SpecFmt.ulong_max 0 0 0)
               (DamosWatermarks.mk "none" 0 0 0 0) [] None None)
            (DamonIntervals.mk 5000 100000 1000000)
          = Py.Ok true.
Proof.
  apply (default_scheme_is_monitoring SpecFmt.F
           (Damos.mk "0"
              (mk 0 SpecFmt.ulong_max 0 100 unit_percent 0 SpecFmt.ulong_max
                 unit_usec)
              "stat" (DamosQuotas.mk 0 0 SpecFmt.ulong_max 0 0 0)
              (DamosWatermarks.mk "none" 0 0 0 0) [] None None)
           (DamonIntervals.mk 5000 100000 1000000)).
  - vm_compute. reflexivity.
  - simpl. lia.
  - simpl. lia.
Defined.

End PatternProofs.

(** ** The instance of the leaf formats is lawful *)

Module SpecFmtProofs.
Import SpecFmt.
Local Open Scope string_scope.

Lemma string_of_uint_numeric (d : Decimal.uint) :
  all_numeric (NilEmpty.string_of_uint d) = true.
Proof. induction d; simpl; auto. Qed.

Lemma dec_numeric (z : Z) : all_numeric (dec z) = true.
Proof.
  unfold dec, NilZero.string_of_int, NilZero.string_of_uint.
  destruct (Z.to_int z) as [d|d]; destruct d; simpl;
    auto using string_of_uint_numeric.
Qed.

Lemma dec_nonempty (z : Z) : dec z <> "".
Proof.
  unfold dec, NilZero.string_of_int, NilZero.string_of_uint.
  destruct (Z.to_int z) as [d|d]; destruct d; simpl; discriminate.
Qed.

Lemma undec_dec (z : Z) : undec (dec z) = Py.Ok z.
Proof.
  unfold undec, dec. rewrite NilZero.isi.
  - by rewrite DecimalZ.of_to.
  - destruct z; simpl; try discriminate.
    intros [= H]. by apply DecimalPos.Unsigned.to_uint_nonnil in H.
  - destruct z; simpl; try discriminate.
    intros [= H]. by apply DecimalPos.Unsigned.to_uint_nonnil in H.
Qed.

Lemma numeric_not_space (c : ascii) :
  numeric c = true -> Ascii.eqb c " " = false.
Proof.
  destruct c as [[|] [|] [|] [|] [|] [|] [|] [|]]; simpl; congruence.
Qed.

Lemma cut_numeric (s : string) :
  all_numeric s = true -> cut_at_space s = (s, None).
Proof.
  induction s as [|c s IH]; simpl; [done|].
  intros [Hc Hs]%andb_true_iff.
  by rewrite (numeric_not_space _ Hc), (IH Hs).
Qed.

Lemma cut_numeric_suffix (s u : string) :
  all_numeric s = true -> cut_at_space (s ++ " " ++ u) = (s, Some u).
Proof.
  induction s as [|c s IH]; simpl; [done|].
  intros [Hc Hs]%andb_true_iff.
  by rewrite (numeric_not_space _ Hc), (IH Hs).
Qed.

(** A numeric text is not one of the words [min] and [max]. *)
Lemma numeric_not_word (s : string) :
  all_numeric s = true ->
  String.eqb s "min" = false /\ String.eqb s "max" = false.
Proof.
  destruct s as [|c s]; [done|]. simpl.
  intros [Hc _]%andb_true_iff.
  destruct c as [[|] [|] [|] [|] [|] [|] [|] [|]]; simpl in *; done.
Qed.

Lemma numeric_suffix_not_word (s u : string) :
  all_numeric s = true -> s <> "" ->
  String.eqb (s ++ " " ++ u) "min" = false
  /\ String.eqb (s ++ " " ++ u) "max" = false.
Proof.
  destruct s as [|c s]; [done|]. simpl.
  intros [Hc _]%andb_true_iff _.
  destruct c as [[|] [|] [|] [|] [|] [|] [|] [|]]; simpl in *; done.
Qed.

(** Plain integer text is read back, whatever the unit of the parser. *)
Lemma parse_dec (lo hi : option Z) (unit other : string) (scale z : Z) :
  parse lo hi unit other scale (Py.VStr (dec z)) = Py.Ok z.
Proof.
  unfold parse.
  destruct (numeric_not_word _ (dec_numeric z)) as [-> ->].
  rewrite (cut_numeric _ (dec_numeric z)). apply undec_dec.
Qed.

(** Integer text followed by the unit of the parser is read back. *)
Lemma parse_dec_unit (lo hi : option Z) (unit other : string) (scale z : Z) :
  parse lo hi unit other scale (Py.VStr (dec z ++ " " ++ unit)) = Py.Ok z.
Proof.
  unfold parse.
  destruct (numeric_suffix_not_word _ unit (dec_numeric z) (dec_nonempty z))
    as [-> ->].
  rewrite (cut_numeric_suffix _ _ (dec_numeric z)).
  rewrite String.eqb_refl. apply undec_dec.
Qed.

(** Integer text followed by a foreign unit is refused. *)
Lemma parse_dec_foreign (lo hi : option Z) (unit other u : string)
  (scale z : Z) :
  String.eqb u unit = false -> String.eqb u other = false ->
  Py.is_ok (parse lo hi unit other scale (Py.VStr (dec z ++ " " ++ u))) = false.
Proof.
  intros Hu Ho. unfold parse.
  destruct (numeric_suffix_not_word _ u (dec_numeric z) (dec_nonempty z))
    as [-> ->].
  rewrite (cut_numeric_suffix _ _ (dec_numeric z)).
  by rewrite Hu, Ho.
Qed.

Lemma F_lawful : FmtStr.lawful F.
Proof.
  split; intros.
  - reflexivity.
  - reflexivity.
  - reflexivity.
  - reflexivity.
  - reflexivity.
  - exact (parse_dec _ _ _ _ _ z).
  - exact (parse_dec _ _ _ _ _ z).
  - exact (parse_dec _ _ _ _ _ z).
  - exact (parse_dec _ _ _ _ _ z).
  - exact (parse_dec _ _ _ _ _ z).
  - exact (parse_dec _ _ _ _ _ z).
  - exact (parse_dec _ _ _ _ _ z).
  - exact (parse_dec_unit (Some 0) (Some 100) "%" "%" 1 z).
  - exact (parse_dec_foreign (Some 0) (Some 100) "%" "%" "sample_intervals" 1 z
             eq_refl eq_refl).
  - exact (parse_dec_foreign (Some 0) (Some ulong_max) "us" "ms"
             "aggr_intervals" 1000 z eq_refl eq_refl).
  - change (text_to_nr_unit (Py.VStr (dec z ++ " " ++ u)) = Py.Ok (z, u)).
    unfold text_to_nr_unit.
    rewrite (cut_numeric_suffix _ _ (dec_numeric z)).
    by rewrite undec_dec.
Qed.

End SpecFmtProofs.

(** ** Properties of the record codec *)

Module CodecProofs.
Import Result.

(** *** Encoding a single snapshot *)

(** A region without an age is never the fake region; the binary format
    carries no age. *)
Lemma ageless_not_fake (s e n : Z) : is_fake_region (mkRegion s e n None) = false.
Proof. unfold is_fake_region. simpl. by rewrite andb_false_r. Qed.

(** C2, on the code.  For the result whose only target has the single
    snapshot with region [100,200) and access count 3, the first loop of
    [write_damon_result] appends the fake snapshot, and writing it fails:
    its access count -1 does not fit the unsigned format ['I'], so
    [struct.pack] raises and no file that could be decoded is produced.
    Besides, a region read from a binary file has no age, so it is never
    taken for the fake region. *)
Theorem single_snapshot_encode_fails :
  add_fake_snapshots (target_snapshots Examples.single_result)
    (nr_snapshots Examples.single_result)
  = Py.Ok
      ([(1, [Examples.single_snapshot;
             mkSnapshot (Some (Py.Int 1000000000)) (Py.Int 2000000000) 1
               [fake_region]])],
       Some 2)
  /\ write_region fake_region = Py.Err Py.StructError
  /\ write_damon_result Examples.single_result = Py.Err Py.StructError
  /\ (forall s e n : Z, is_fake_region (mkRegion s e n None) = false).
Proof.
  split; [reflexivity|].
  split; [reflexivity|].
  split; [vm_compute; reflexivity|].
  exact ageless_not_fake.
Qed.

(** *** The header of a binary file *)

Lemma magic_length : length magic = 16%nat.
Proof. reflexivity. Qed.

Lemma read_mk (n : nat) (d : list byte) (p : nat) (c : bool) :
  File.read n (File.mk d p c)
  = (take n (drop p d), File.mk d (p + length (take n (drop p d))) c).
Proof. reflexivity. Qed.

Lemma bytes_eqb_eq (a b : list byte) : bytes_eqb a b = true <-> a = b.
Proof.
  revert b. induction a as [|x a IH]; intros [|y b]; simpl; try done.
  rewrite andb_true_iff, IH. split.
  - intros [Hxy ->]. f_equal. by apply Byte.byte_dec_bl.
  - intros [= -> ->]. split; [by apply Byte.byte_dec_lb | done].
Qed.

Lemma bytes_eqb_neq (a b : list byte) : a <> b -> bytes_eqb a b = false.
Proof.
  intros Hab. destruct (bytes_eqb a b) eqn:E; [|done].
  by apply bytes_eqb_eq in E.
Qed.

(** C9.  When the decoder opens the file itself and the file starts with
    the 16 bytes of the magic literal, the next 4 bytes are unpacked as a
    signed 32-bit version and the records are decoded from offset 20 with
    that version.  When the first 16 bytes are not the magic literal, the
    records are decoded with version 0 from offset 0 of the same content.
    When the decoder is given an open stream and no version (or version 0),
    it returns the error text and no result, stream or version. *)
Theorem header_handling :
  (forall (v4 rest : list byte) (fmt_version max_secs : option Z),
      length v4 = 4%nat ->
      record_to_damon_result (magic ++ v4 ++ rest) None fmt_version max_secs
      = Py.bind (Struct.unpack Struct.fmt_i v4)
          (fun v =>
             decode_records (File.mk (magic ++ v4 ++ rest) 20 false) v max_secs))
  /\ (forall (contents : list byte) (fmt_version max_secs : option Z),
         take 16 contents <> magic ->
         record_to_damon_result contents None fmt_version max_secs
         = decode_records (File.mk contents 0 false) 0 max_secs)
  /\ (forall (contents : list byte) (f : File.t)
        (fmt_version max_secs : option Z),
         fmt_version = None \/ fmt_version = Some 0 ->
         record_to_damon_result contents (Some f) fmt_version max_secs
         = Py.Ok (mkDecoded None None None (Some "fmt_version is not given"%string))).
Proof.
  split; [|split].
  - intros v4 rest fv ms Hv4.
    unfold record_to_damon_result, File.open. rewrite read_mk, drop_0.
    rewrite (take_app_length' magic (v4 ++ rest) 16) by done.
    replace (bytes_eqb magic magic) with true
      by (symmetry; by apply bytes_eqb_eq).
    unfold read_unpack. rewrite read_mk.
    rewrite (drop_app_length' magic (v4 ++ rest) (0 + length magic)) by done.
    change (Struct.size Struct.fmt_i) with 4%nat.
    rewrite (take_app_length' v4 rest 4) by done.
    rewrite Hv4, magic_length.
    destruct (Struct.unpack Struct.fmt_i v4); reflexivity.
  - intros contents fv ms Hne.
    unfold record_to_damon_result, File.open. rewrite read_mk, drop_0.
    by rewrite (bytes_eqb_neq _ _ Hne).
  - intros contents f fv ms [-> | ->]; reflexivity.
Qed.

(** The three parts of [header_handling] at concrete inputs: the file with
    a header of version 2, a file that starts with a record, and a stream
    handed over without a version. *)
Lemma header_handling_witness :
  record_to_damon_result Examples.two_target_file None None None
  = Py.bind (Struct.unpack Struct.fmt_i (Struct.le_bytes 4 2))
      (fun v => decode_records (File.mk Examples.two_target_file 20 false) v None)
  /\ record_to_damon_result Examples.headerless_file None None None
     = decode_records (File.mk Examples.headerless_file 0 false) 0 None
  /\ record_to_damon_result [] (Some (File.open Examples.headerless_file))
       None None
     = Py.Ok (mkDecoded None None None (Some "fmt_version is not given"%string)).
Proof.
  split; [|split].
  - apply (proj1 header_handling (Struct.le_bytes 4 2)). reflexivity.
  - apply (proj1 (proj2 header_handling)). vm_compute. discriminate.
  - apply (proj2 (proj2 header_handling)). by left.
Defined.

(** *** Lines that the text decoder skips *)

Section SkippedLines.

Variable py_int : string -> Py.res Z.
Variable seconds_to_ns : string -> Py.res Z.

(** The condition of the source, in words: the number of tokens is neither
    9 nor 10, or the fifth token is not the marker. *)
Lemma skipped_spec (fields : list string) :
  (length fields <> 9%nat /\ length fields <> 10%nat)
  \/ fields !! 4%nat <> Some marker ->
  skipped fields = true.
Proof.
  unfold skipped. intros [[H9 H10] | H5].
  - apply Nat.eqb_neq in H9, H10. by rewrite H9, H10.
  - destruct (Nat.eqb_spec (length fields) 9) as [E9|E9];
      destruct (Nat.eqb_spec (length fields) 10) as [E10|E10];
      simpl; try done;
      (destruct fields as [|a [|b [|c [|d [|e r]]]]]; simpl in *; try lia).
    all: destruct (String.eqb_spec e marker) as [Heq|Hne]; [|done].
    all: exfalso; apply H5; by rewrite Heq.
Qed.

Lemma perf_line_skipped (max_secs : option Z) (st : perf_state) (line : string) :
  skipped (fields_of line) = true ->
  perf_line py_int seconds_to_ns max_secs st line = Py.Ok (Next, st).
Proof. intros H. unfold perf_line. by rewrite H. Qed.

Lemma perf_loop_skipped (max_secs : option Z) (l1 l2 : list string)
  (line : string) :
  skipped (fields_of line) = true ->
  forall st,
    perf_loop py_int seconds_to_ns max_secs (l1 ++ line :: l2) st
    = perf_loop py_int seconds_to_ns max_secs (l1 ++ l2) st.
Proof.
  intros H. induction l1 as [|x l1 IH]; intros st; simpl.
  - by rewrite (perf_line_skipped _ _ _ H).
  - destruct (perf_line py_int seconds_to_ns max_secs st x) as [[[|] st']|e];
      simpl; auto.
Qed.

End SkippedLines.

(** C8.  Whatever [int] and [float] make of the fields, a line whose number
    of tokens is neither 9 nor 10, or whose fifth token is not the marker,
    ends its round of the loop without an error and with every variable of
    the decoder unchanged; the decoder returns the same thing with the line
    as without it.  A line of 8 tokens is such a line. *)
Theorem skipped_line_ignored
  (py_int seconds_to_ns : string -> Py.res Z) (max_secs : option Z)
  (line : string) :
  (length (fields_of line) <> 9%nat /\ length (fields_of line) <> 10%nat)
  \/ fields_of line !! 4%nat <> Some marker ->
  (forall st,
      perf_line py_int seconds_to_ns max_secs st line = Py.Ok (Next, st))
  /\ (forall l1 l2,
        perf_script_to_damon_result py_int seconds_to_ns (l1 ++ line :: l2)
          max_secs
        = perf_script_to_damon_result py_int seconds_to_ns (l1 ++ l2) max_secs).
Proof.
  intros Hbad. apply skipped_spec in Hbad. split.
  - intros st. by apply perf_line_skipped.
  - intros l1 l2. unfold perf_script_to_damon_result.
    by rewrite (perf_loop_skipped _ _ _ _ _ _ Hbad).
Qed.

(** The line of 8 tokens, between two complete lines. *)
Lemma skipped_line_ignored_witness :
  perf_line Examples.read_int Examples.read_seconds None (mkPerf None 0 None)
    Examples.short_line
  = Py.Ok (Next, mkPerf None 0 None)
  /\ perf_script_to_damon_result Examples.read_int Examples.read_seconds
       ([Examples.good_line] ++ Examples.short_line :: [Examples.good_line])
       None
     = perf_script_to_damon_result Examples.read_int Examples.read_seconds
         ([Examples.good_line] ++ [Examples.good_line]) None.
Proof.
  destruct (skipped_line_ignored Examples.read_int Examples.read_seconds None
              Examples.short_line) as [H1 H2].
  - left. vm_compute. split; discriminate.
  - split; [apply H1 | apply H2].
Defined.

End CodecProofs.

(** ** Start times after decoding *)

Module InferenceProofs.
Import Result.

(** *** What the binary decoder builds *)

Lemma chained_nil : chained [].
Proof. intros i s s' Hi. by destruct i. Qed.

Lemma chained_snoc (l : list DAMONSnapshot) (x : DAMONSnapshot) :
  chained l -> start_time x = next_start_time l -> chained (l ++ [x]).
Proof.
  intros Hl Hx i s s' Hi Hsi.
  destruct (decide (S i < length l)%nat) as [Hlt|Hge].
  - rewrite lookup_app_l in Hi by lia.
    rewrite lookup_app_l in Hsi by lia. eauto.
  - assert (S i = length l) as Hlen.
    { apply lookup_lt_Some in Hsi. rewrite length_app in Hsi. simpl in Hsi.
      lia. }
    rewrite lookup_app_l in Hi by lia.
    rewrite lookup_app_r in Hsi by lia.
    replace (S i - length l)%nat with 0%nat in Hsi by lia.
    injection Hsi as <-. rewrite Hx. unfold next_start_time.
    rewrite last_lookup. replace (pred (length l)) with i by lia.
    by rewrite Hi.
Qed.

Lemma append_snapshot_chained (tid : Z) (x : DAMONSnapshot) (ts : targets) :
  all_chained ts ->
  start_time x = next_start_time (default [] (lookup_target tid ts)) ->
  all_chained (append_snapshot tid x ts).
Proof.
  unfold all_chained.
  induction ts as [|[k v] ts IH]; intros Hts Hx; simpl in *.
  - constructor; [|constructor]. simpl.
    apply (chained_snoc [] x chained_nil Hx).
  - inversion Hts as [|? ? Hv Hrest]; subst. simpl in Hv.
    destruct (k =? tid).
    + constructor; [|done]. simpl. by apply chained_snoc.
    + constructor; [done|]. by apply IH.
Qed.

Lemma read_tasks_chained (n : nat) (fmt_version end_time : Z) :
  forall f ts ts' f',
    all_chained ts ->
    read_tasks n fmt_version end_time f ts = Py.Ok (ts', f') ->
    all_chained ts'.
Proof.
  induction n as [|n IH]; intros f ts ts' f' Hts Hrun; simpl in Hrun.
  - by injection Hrun as <- <-.
  - destruct (if fmt_version =? 1 then _ else _) as [[target_id f1]|];
      simpl in Hrun; [|done].
    destruct (read_unpack Struct.fmt_I f1) as [[nr_regions f2]|];
      simpl in Hrun; [|done].
    destruct (read_regions _ f2 []) as [[regions f3]|]; simpl in Hrun; [|done].
    eapply IH; [|exact Hrun].
    by apply append_snapshot_chained.
Qed.

Lemma record_loop_chained (fuel : nat) (fmt_version : Z) (max_secs : option Z) :
  forall f parse_start_time ts ts' f',
    all_chained ts ->
    record_loop fuel fmt_version max_secs f parse_start_time ts
    = Py.Ok (ts', f') ->
    all_chained ts'.
Proof.
  induction fuel as [|fuel IH]; intros f pst ts ts' f' Hts Hrun;
    cbn [record_loop] in Hrun.
  - by injection Hrun as <- <-.
  - destruct (File.read 16 f) as [timebin f1].
    destruct (negb (length timebin =? 16)%nat).
    { by injection Hrun as <- <-. }
    destruct (Struct.unpack Struct.fmt_l (take 8 timebin)) as [sec|];
      cbn [Py.bind] in Hrun; [|done].
    destruct (Struct.unpack Struct.fmt_l (take 8 (drop 8 timebin))) as [nsec|];
      cbn [Py.bind] in Hrun; [|done].
    destruct (unset pst).
    + destruct (read_unpack Struct.fmt_I f1) as [[nr_tasks f2]|];
        cbn [Py.bind] in Hrun; [|done].
      destruct (read_tasks _ _ _ f2 ts) as [[ts1 f3]|] eqn:Ht;
        cbn [Py.bind] in Hrun; [|done].
      eapply IH; [|exact Hrun]. eapply read_tasks_chained; eauto.
    + destruct (over_budget max_secs pst _).
      { by injection Hrun as <- <-. }
      destruct (read_unpack Struct.fmt_I f1) as [[nr_tasks f2]|];
        cbn [Py.bind] in Hrun; [|done].
      destruct (read_tasks _ _ _ f2 ts) as [[ts1 f3]|] eqn:Ht;
        cbn [Py.bind] in Hrun; [|done].
      eapply IH; [|exact Hrun]. eapply read_tasks_chained; eauto.
Qed.

(** *** The loop over the records ends *)

Lemma read_remaining (n : nat) (f f' : File.t) (bs : list byte) :
  File.read n f = (bs, f') ->
  (File.remaining f' = File.remaining f - length bs)%nat
  /\ (length bs <= File.remaining f)%nat.
Proof.
  unfold File.read, File.remaining. intros [= <- <-]. simpl.
  rewrite length_take, length_drop. lia.
Qed.

Lemma read_unpack_remaining (fmt : Struct.format) (f f' : File.t) (v : Z) :
  read_unpack fmt f = Py.Ok (v, f') ->
  (File.remaining f' <= File.remaining f)%nat.
Proof.
  unfold read_unpack. destruct (File.read _ f) as [bs f1] eqn:Hread.
  destruct (Struct.unpack fmt bs); cbn [Py.bind]; [|done].
  intros [= _ <-]. apply read_remaining in Hread. lia.
Qed.

Lemma read_regions_remaining (n : nat) :
  forall f acc rs f',
    read_regions n f acc = Py.Ok (rs, f') ->
    (File.remaining f' <= File.remaining f)%nat.
Proof.
  induction n as [|n IH]; intros f acc rs f' Hrun; cbn [read_regions] in Hrun.
  - injection Hrun as _ <-. lia.
  - destruct (read_unpack Struct.fmt_L f) as [[a f1]|] eqn:H1;
      cbn [Py.bind] in Hrun; [|done].
    destruct (read_unpack Struct.fmt_L f1) as [[b f2]|] eqn:H2;
      cbn [Py.bind] in Hrun; [|done].
    destruct (read_unpack Struct.fmt_I f2) as [[c f3]|] eqn:H3;
      cbn [Py.bind] in Hrun; [|done].
    apply read_unpack_remaining in H1, H2, H3. apply IH in Hrun. lia.
Qed.

Lemma read_tasks_remaining (n : nat) (fmt_version end_time : Z) :
  forall f ts ts' f',
    read_tasks n fmt_version end_time f ts = Py.Ok (ts', f') ->
    (File.remaining f' <= File.remaining f)%nat.
Proof.
  induction n as [|n IH]; intros f ts ts' f' Hrun; cbn [read_tasks] in Hrun.
  - injection Hrun as _ <-. lia.
  - destruct (if fmt_version =? 1 then _ else _) as [[target_id f1]|] eqn:H1;
      cbn [Py.bind] in Hrun; [|done].
    destruct (read_unpack Struct.fmt_I f1) as [[nr_regions f2]|] eqn:H2;
      cbn [Py.bind] in Hrun; [|done].
    destruct (read_regions _ f2 []) as [[regions f3]|] eqn:H3;
      cbn [Py.bind] in Hrun; [|done].
    assert (File.remaining f1 <= File.remaining f)%nat.
    { destruct (fmt_version =? 1); by eapply read_unpack_remaining. }
    apply read_unpack_remaining in H2. apply read_regions_remaining in H3.
    apply IH in Hrun. lia.
Qed.

(** Any fuel above the number of bytes left in the file gives the same
    result: the loop never stops for lack of fuel. *)
Lemma record_loop_fuel_enough (n : nat) (fmt_version : Z)
  (max_secs : option Z) :
  forall m f parse_start_time ts,
    (File.remaining f < n)%nat -> (File.remaining f < m)%nat ->
    record_loop n fmt_version max_secs f parse_start_time ts
    = record_loop m fmt_version max_secs f parse_start_time ts.
Proof.
  induction n as [|n IH]; intros m f pst ts Hn Hm; [lia|].
  destruct m as [|m]; [lia|]. cbn [record_loop].
  destruct (File.read 16 f) as [timebin f1] eqn:Hread.
  apply read_remaining in Hread as [Hrem Hle].
  destruct (Nat.eqb_spec (length timebin) 16) as [Hlen|Hlen]; [|done].
  cbn [negb].
  destruct (Struct.unpack Struct.fmt_l (take 8 timebin)); cbn [Py.bind];
    [|done].
  destruct (Struct.unpack Struct.fmt_l (take 8 (drop 8 timebin)));
    cbn [Py.bind]; [|done].
  assert (forall pst',
    Py.bind (read_unpack Struct.fmt_I f1)
      (fun '(nr_tasks, f2) =>
         Py.bind (read_tasks (Z.to_nat nr_tasks) fmt_version
                    (a * 1000000000 + a0) f2 ts)
           (fun '(ts', f3) => record_loop n fmt_version max_secs f3 pst' ts'))
    = Py.bind (read_unpack Struct.fmt_I f1)
        (fun '(nr_tasks, f2) =>
           Py.bind (read_tasks (Z.to_nat nr_tasks) fmt_version
                      (a * 1000000000 + a0) f2 ts)
             (fun '(ts', f3) => record_loop m fmt_version max_secs f3 pst' ts')))
    as Hstep.
  { intros pst'.
    destruct (read_unpack Struct.fmt_I f1) as [[nr_tasks f2]|] eqn:H2;
      cbn [Py.bind]; [|done].
    destruct (read_tasks _ _ _ f2 ts) as [[ts1 f3]|] eqn:H3; cbn [Py.bind];
      [|done].
    apply read_unpack_remaining in H2. apply read_tasks_remaining in H3.
    apply IH; lia. }
  destruct (unset pst); [apply Hstep|].
  destruct (over_budget max_secs pst _); [done | apply Hstep].
Qed.

Lemma decode_records_fresh (f : File.t) (v : Z) (max_secs : option Z)
  (d : decoded) (r : DAMONResult) :
  decode_records f v max_secs = Py.Ok d -> d_result d = Some r -> fresh d r.
Proof.
  unfold decode_records. intros Hrun Hr.
  destruct (record_loop _ v max_secs f None []) as [[ts f']|] eqn:Hloop;
    simpl in Hrun; [|done].
  injection Hrun as <-. simpl in Hr. injection Hr as <-.
  split; [done|]. split; [done|]. simpl.
  eapply record_loop_chained; [|exact Hloop]. constructor.
Qed.

Lemma record_to_damon_result_fresh (contents : list byte) (f : option File.t)
  (fmt_version max_secs : option Z) (d : decoded) (r : DAMONResult) :
  record_to_damon_result contents f fmt_version max_secs = Py.Ok d ->
  d_result d = Some r -> fresh d r.
Proof.
  unfold record_to_damon_result. intros Hrun Hr.
  destruct f as [f|].
  - destruct (no_version fmt_version).
    + injection Hrun as <-. done.
    + eapply decode_records_fresh; eauto.
  - destruct (File.read 16 (File.open contents)) as [mark f1].
    destruct (bytes_eqb mark magic).
    + destruct (read_unpack Struct.fmt_i f1) as [[v f2]|]; simpl in Hrun;
        [|done].
      eapply decode_records_fresh; eauto.
    + eapply decode_records_fresh; eauto.
Qed.

(** *** The inference pass *)

Lemma set_first_start_lookup (t : Q) (l : list DAMONSnapshot) (i : nat)
  (s : DAMONSnapshot) :
  set_first_start t l !! i = Some s ->
  exists s0, l !! i = Some s0 /\ end_time s = end_time s0
             /\ (i <> 0%nat -> s = s0).
Proof.
  destruct l as [|x l]; [by destruct i|]. simpl.
  destruct i as [|i]; simpl.
  - intros [= <-]. exists x. by simpl.
  - intros Hi. exists s. done.
Qed.

Lemma set_first_start_chained (t : Q) (l : list DAMONSnapshot) :
  chained l -> chained (set_first_start t l).
Proof.
  intros Hl i s s' Hi Hsi.
  apply set_first_start_lookup in Hi as (s0 & Hi & He & _).
  apply set_first_start_lookup in Hsi as (s1 & Hsi & _ & Hs1).
  rewrite (Hs1 ltac:(lia)), He. eauto.
Qed.

Lemma chained_singleton (x : DAMONSnapshot) : chained [x].
Proof. intros i s s' Hi Hsi. by destruct i. Qed.

Lemma cut_fake_chained (l : list DAMONSnapshot) : chained l -> chained (cut_fake l).
Proof.
  intros Hl. unfold cut_fake.
  destruct l as [|s0 [|s1 [|s2 l]]]; try done.
  destruct (regions s1) as [|region [|region' rs]]; try done.
  destruct (is_fake_region region); [apply chained_singleton | done].
Qed.

Lemma inferred_chained (t : Q) (l : list DAMONSnapshot) :
  chained l -> chained (inferred t l).
Proof. intros. by apply cut_fake_chained, set_first_start_chained. Qed.

(** The first snapshot of a visited sequence keeps its end time and its
    regions and starts at its end time minus the spacing. *)
Lemma inferred_head (t : Q) (l : list DAMONSnapshot) (first : DAMONSnapshot) :
  head l = Some first ->
  exists more,
    inferred t l
    = mkSnapshot (Some (Py.Float (Py.to_Q (end_time first) - t)))
        (end_time first) (target_id first) (regions first) :: more.
Proof.
  destruct l as [|x l]; [done|]. simpl. intros [= ->].
  unfold inferred, cut_fake. simpl.
  destruct l as [|s1 [|s2 l]]; eauto.
  destruct (regions s1) as [|region [|region' rs]]; eauto.
  destruct (is_fake_region region); eauto.
Qed.

Lemma visited_or_kept_refl (ts : targets) : Forall2 visited_or_kept ts ts.
Proof.
  induction ts as [|e ts IH]; constructor; [|done]. split; [done | by left].
Qed.

Lemma infer_loop_shape (ts : targets) :
  forall tm ts' tm',
    infer_loop ts tm = Py.Ok (ts', tm') -> Forall2 visited_or_kept ts ts'.
Proof.
  induction ts as [|[tid snapshots] ts IH]; intros tm ts' tm' Hrun;
    cbn [infer_loop] in Hrun.
  - injection Hrun as <- <-. constructor.
  - destruct (length snapshots <? 2)%nat eqn:Hlen.
    { injection Hrun as <- <-. apply visited_or_kept_refl. }
    apply Nat.ltb_ge in Hlen.
    destruct (snapshot_time _) as [t|]; [|done].
    destruct (infer_loop ts _) as [[rest' tm2]|] eqn:Hrest;
      cbn [Py.bind] in Hrun; [|done].
    injection Hrun as <- <-. constructor; [|by eapply IH].
    split; [done|]. right. split; [done|]. by exists t.
Qed.

(** The pass does not fail on a result whose start time is unset; more
    generally, whenever [snapshot_time] is bound if the start time is set. *)
Lemma infer_loop_defined (ts : targets) :
  forall tm,
    (Py.truthy (t_start tm) = true -> is_Some (snapshot_time tm)) ->
    exists ts' tm', infer_loop ts tm = Py.Ok (ts', tm').
Proof.
  induction ts as [|[tid snapshots] ts IH]; intros tm Htm; cbn [infer_loop].
  - eauto.
  - destruct (length snapshots <? 2)%nat eqn:Hlen; [eauto|].
    apply Nat.ltb_ge in Hlen.
    set (tm1 := if negb (Py.truthy (t_start tm)) then _ else _).
    assert (is_Some (snapshot_time tm1)) as [t Ht].
    { subst tm1. destruct (Py.truthy (t_start tm)); simpl; [by apply Htm|].
      destruct snapshots as [|s0 l]; [simpl in Hlen; lia|]. simpl.
      destruct (last (s0 :: l)) eqn:Hlast; [by eexists|].
      by apply last_None in Hlast. }
    rewrite Ht.
    destruct (IH tm1) as (rest' & tm2 & Hrest).
    { intros _. by rewrite Ht. }
    rewrite Hrest. cbn [Py.bind]. eauto.
Qed.

(** Once the start time of the result is set and non-zero, the same spacing
    serves every further target. *)
Lemma infer_loop_steady (ts : targets) (tm : timing) (t : Q) :
  snapshot_time tm = Some t ->
  Py.truthy (t_start tm) = true ->
  Forall (fun e => (2 <= length (snd e))%nat) ts ->
  infer_loop ts tm
  = Py.Ok (map (fun e => (fst e, inferred t (snd e))) ts, tm).
Proof.
  intros Ht Htruthy. induction ts as [|[tid snapshots] ts IH]; intros Hall;
    cbn [infer_loop]; [done|].
  inversion Hall as [|? ? Hlen Hrest]; subst. simpl in Hlen.
  apply Nat.ltb_ge in Hlen. rewrite Hlen, Htruthy. simpl negb. cbv iota.
  rewrite Ht, (IH Hrest). reflexivity.
Qed.

(** The first target, when it has two snapshots or more and the start
    time of the result is still unset, is visited with its own mean
    spacing. *)
Lemma infer_loop_first (tid0 : Z) (snapshots0 : list DAMONSnapshot)
  (rest : targets) (tm : timing) (first final : DAMONSnapshot) :
  (2 <= length snapshots0)%nat ->
  Py.truthy (t_start tm) = false ->
  head snapshots0 = Some first -> last snapshots0 = Some final ->
  infer_loop ((tid0, snapshots0) :: rest) tm
  = Py.bind (infer_loop rest (measure snapshots0 first final))
      (fun '(rest', tm2) =>
         Py.Ok ((tid0, inferred (mean_spacing snapshots0 first final) snapshots0)
                  :: rest', tm2)).
Proof.
  intros Hlen Htruthy Hfirst Hfinal. cbn [infer_loop].
  apply Nat.ltb_ge in Hlen. rewrite Hlen, Htruthy, Hfirst, Hfinal.
  reflexivity.
Qed.

Lemma visited_or_kept_chained (ts ts' : targets) :
  Forall2 visited_or_kept ts ts' -> all_chained ts -> all_chained ts'.
Proof.
  unfold all_chained. induction 1 as [|e e' ts ts' [_ He] _ IH]; intros Hall.
  - constructor.
  - inversion Hall as [|? ? Hc Hrest]; subst.
    constructor; [|by apply IH].
    destruct He as [-> | (_ & t & ->)]; [done | by apply inferred_chained].
Qed.

(** C7, amended.  Whenever the binary decoder returns a result, so does
    [parse_damon_result_for], with the same number of targets, and:
    every target's sequence is chained, before and after the inference
    pass (each snapshot but the first starts at the end time of the one
    before); every target with fewer than 2 snapshots is left as decoded;
    if the first target has at least 2 snapshots, its first snapshot keeps
    its end time and regions and starts at its end time minus the mean
    spacing of that first sequence; and if moreover every other target has
    at least 2 snapshots and the start time inferred for the result is not
    zero, the first snapshot of every target starts at its own end time
    minus that same spacing, the one of the first target. *)
Theorem start_time_inference (contents : list byte) (f : option File.t)
  (fmt_version max_secs : option Z) (d0 : decoded) (r0 : DAMONResult) :
  record_to_damon_result contents f fmt_version max_secs = Py.Ok d0 ->
  d_result d0 = Some r0 ->
  exists r,
    parse_damon_result_for contents f fmt_version max_secs
    = Py.Ok (mkDecoded (Some r) (d_file d0) (d_fmt_version d0) None)
    /\ length (target_snapshots r) = length (target_snapshots r0)
    /\ all_chained (target_snapshots r0)
    /\ all_chained (target_snapshots r)
    /\ (forall i tid snapshots,
          target_snapshots r0 !! i = Some (tid, snapshots) ->
          (length snapshots < 2)%nat ->
          target_snapshots r !! i = Some (tid, snapshots))
    /\ (forall tid0 snapshots0 rest first final,
          target_snapshots r0 = (tid0, snapshots0) :: rest ->
          (2 <= length snapshots0)%nat ->
          head snapshots0 = Some first ->
          last snapshots0 = Some final ->
          (exists s0 more tail,
              target_snapshots r = (tid0, s0 :: more) :: tail
              /\ start_time s0
                 = Some (Py.Float (Py.to_Q (end_time first)
                                   - mean_spacing snapshots0 first final))
              /\ end_time s0 = end_time first
              /\ regions s0 = regions first)
          /\ (Forall (fun e => (2 <= length (snd e))%nat) rest ->
              Py.truthy
                (Some (Py.Float (Py.to_Q (end_time first)
                                 - mean_spacing snapshots0 first final)))
              = true ->
              forall i tid snapshots first_i,
                target_snapshots r0 !! i = Some (tid, snapshots) ->
                head snapshots = Some first_i ->
                exists s more,
                  target_snapshots r !! i = Some (tid, s :: more)
                  /\ start_time s
                     = Some (Py.Float (Py.to_Q (end_time first_i)
                                       - mean_spacing snapshots0 first final))
                  /\ end_time s = end_time first_i)).
Proof.
  intros Hdec Hr0.
  destruct (record_to_damon_result_fresh _ _ _ _ _ _ Hdec Hr0)
    as (Herr & Hstart & Hchained).
  destruct r0 as [rs re rn ts0]. simpl in Hstart, Hchained. subst rs.
  destruct (infer_loop_defined ts0 (mkTiming None re rn None))
    as (ts' & tm' & Hloop); [done|].
  exists (mkResult (t_start tm') (t_end tm') (t_nr tm') ts').
  pose proof (infer_loop_shape _ _ _ _ Hloop) as Hshape.
  split.
  { unfold parse_damon_result_for. rewrite Hdec. cbn [Py.bind].
    rewrite Herr, Hr0. unfold infer_times. cbn [target_snapshots
      result_start_time result_end_time nr_snapshots].
    rewrite Hloop. reflexivity. }
  cbn [target_snapshots].
  split; [symmetry; by eapply Forall2_length|].
  split; [done|].
  split; [by eapply visited_or_kept_chained|].
  split.
  { intros i tid snapshots Hi Hshort.
    destruct (Forall2_lookup_l _ _ _ _ _ Hshape Hi) as ([tid' s'] & Hi' & Hfst & Hsnd).
    simpl in Hfst, Hsnd. subst tid'.
    destruct Hsnd as [-> | [Hlong _]]; [done | lia]. }
  intros tid0 snapshots0 rest first final -> Hlen Hfirst Hfinal.
  rewrite (infer_loop_first tid0 snapshots0 rest (mkTiming None re rn None)
             first final Hlen eq_refl Hfirst Hfinal) in Hloop.
  split.
  - destruct (infer_loop rest _) as [[rest' tm2]|]; cbn [Py.bind] in Hloop;
      [|done].
    injection Hloop as <- <-.
    destruct (inferred_head (mean_spacing snapshots0 first final) snapshots0
                first Hfirst) as [more Hmore].
    rewrite Hmore. eexists _, more, rest'. done.
  - intros Hall Htruthy i tid snapshots first_i Hi Hfirst_i.
    rewrite (infer_loop_steady rest (measure snapshots0 first final)
               (mean_spacing snapshots0 first final) eq_refl Htruthy Hall)
      in Hloop.
    cbn [Py.bind] in Hloop. injection Hloop as <- <-.
    destruct (inferred_head (mean_spacing snapshots0 first final) snapshots
                first_i Hfirst_i) as [more Hmore].
    destruct i as [|i]; simpl in Hi |- *.
    + injection Hi as <- <-. rewrite Hmore. eexists _, more. done.
    + rewrite list_lookup_fmap, Hi. simpl. rewrite Hmore.
      eexists _, more. done.
Qed.

(** The theorem at the file with two targets: the stream is left closed at
    offset 148, the version read is 2. *)
Lemma start_time_inference_witness :
  exists r,
    parse_damon_result_for Examples.two_target_file None None None
    = Py.Ok (mkDecoded (Some r)
               (Some (File.mk Examples.two_target_file 148 true)) (Some 2) None)
    /\ all_chained (target_snapshots r).
Proof.
  destruct (start_time_inference Examples.two_target_file None None None
              (mkDecoded (Some Examples.two_target_decoded)
                 (Some (File.mk Examples.two_target_file 148 true)) (Some 2)
                 None)
              Examples.two_target_decoded)
    as (r & Hparse & _ & _ & Hchained & _).
  - vm_compute. reflexivity.
  - reflexivity.
  - exists r. split; [exact Hparse | exact Hchained].
Defined.

(** C7, as stated, fails: the spacing is measured once, on the first
    target.  In the file with two targets, target 1 is seen at 100 and 110
    and target 2 at 110 and 150.  The first snapshot of target 2 gets the
    start time 110 - 10 = 100, with the spacing of target 1, although the
    mean spacing of its own sequence is 40, which would give 70. *)
Lemma inference_counterexample :
  Py.bind (parse_damon_result_for Examples.two_target_file None None None)
    (fun d => Py.Ok (option_map target_snapshots (d_result d)))
  = Py.Ok
      (Some
         [(1, [mkSnapshot (Some (Py.Float 90%Q)) (Py.Int 100) 1 [];
               mkSnapshot (Some (Py.Int 100)) (Py.Int 110) 1 []]);
          (2, [mkSnapshot (Some (Py.Float 100%Q)) (Py.Int 110) 2 [];
               mkSnapshot (Some (Py.Int 110)) (Py.Int 150) 2 []])])
  /\ (mean_spacing
        [mkSnapshot None (Py.Int 110) 2 [];
         mkSnapshot (Some (Py.Int 110)) (Py.Int 150) 2 []]
        (mkSnapshot None (Py.Int 110) 2 [])
        (mkSnapshot (Some (Py.Int 110)) (Py.Int 150) 2 [])
      == 40)%Q
  /\ ~ (100 == 110 - 40)%Q.
Proof.
  split; [vm_compute; reflexivity|].
  split; [reflexivity|].
  intros H. vm_compute in H. discriminate.
Qed.

(** The [break] of the pass: in the file where target 1 is seen once and
    target 2 twice, the pass stops at target 1, and the first snapshot of
    target 2 is returned without a start time. *)
Lemma short_target_stops_pass :
  Py.bind (parse_damon_result_for Examples.short_first_file None None None)
    (fun d => Py.Ok (option_map target_snapshots (d_result d)))
  = Py.Ok
      (Some
         [(1, [mkSnapshot None (Py.Int 100) 1 []]);
          (2, [mkSnapshot None (Py.Int 110) 2 [];
               mkSnapshot (Some (Py.Int 110)) (Py.Int 150) 2 []])]).
Proof. vm_compute. reflexivity. Qed.

End InferenceProofs.

(** ** Key-value pairs and back *)

Module KvpairsProofs.



(** A parser that refuses a text leaves the work to the [except] branch. *)
Lemma try_except_refused {A B : Type} (a : Py.res A) (k : A -> Py.res B)
  (b : Py.res B) :
  Py.is_ok a = false -> Py.try_except (Py.bind a k) b = b.
Proof. by destruct a. Qed.


Section RoundTrip.

Variable F : FmtStr.t.
Hypothesis HF : FmtStr.lawful F.














(** *** The reloaded value under the equality of its class *)








End RoundTrip.




End KvpairsProofs.

(** ** More on the aggregator *)

Module AggregatorMore.
Import Result AggregatorProofs AggregatorShapes.

Lemma piece_of_refl (region : DAMONRegion) : piece_of region region.
Proof. unfold piece_of. repeat split; lia. Qed.

Lemma piece_of_trans (a b c : DAMONRegion) :
  piece_of a b -> piece_of b c -> piece_of a c.
Proof.
  unfold piece_of. intros (? & ? & ? & ?) (? & ? & ? & ?).
  repeat split; try lia; congruence.
Qed.

Lemma remainders_piece (region r x : DAMONRegion) :
  overlap r region -> In x (remainders region r) -> piece_of region x.
Proof.
  unfold overlap, remainders, piece_of. intros [H1 H2] Hin.
  apply in_app_or in Hin. destruct Hin as [Hin | Hin].
  - destruct (Z.ltb_spec (start region) (start r)); simpl in Hin; [|done].
    destruct Hin as [<- | []]. simpl. repeat split; lia.
  - destruct (Z.ltb_spec (end_ r) (end_ region)); simpl in Hin; [|done].
    destruct Hin as [<- | []]. simpl. repeat split; lia.
Qed.

(** Inserting a list of regions only appends pieces of them. *)
Lemma fold_appends (f : agg_state -> DAMONRegion -> agg_state)
  (region : DAMONRegion) (l : list DAMONRegion) :
  (forall x, In x l -> piece_of region x) ->
  (forall st x, In x l ->
      exists added,
        fst (f st x) = fst st ++ added /\ Forall (piece_of x) added) ->
  forall st,
    exists added,
      fst (fold_left f l st) = fst st ++ added
      /\ Forall (piece_of region) added.
Proof.
  induction l as [|x l IH]; intros Hl Hf st; simpl.
  - exists []. by rewrite app_nil_r.
  - destruct (Hf st x (or_introl eq_refl)) as (a1 & H1 & Hp1).
    destruct (IH (fun y Hy => Hl y (or_intror Hy))
                 (fun st y Hy => Hf st y (or_intror Hy)) (f st x))
      as (a2 & H2 & Hp2).
    exists (a1 ++ a2). rewrite H2, H1, app_assoc. split; [done|].
    apply Forall_app. split; [|done].
    eapply Forall_impl; [exact Hp1|]. intros y Hy.
    eapply piece_of_trans; [|exact Hy]. apply Hl. by left.
Qed.

Lemma add_region_fuel_appends (fuel : nat) :
  forall st region,
    exists added,
      fst (add_region_fuel fuel st region) = fst st ++ added
      /\ Forall (piece_of region) added.
Proof.
  induction fuel as [|fuel IH]; intros st region; simpl.
  - exists []. by rewrite app_nil_r.
  - destruct (first_intersecting (fst st) region 0) as [[i r]|] eqn:Hf.
    + apply first_intersecting_Some in Hf as (Ho & _ & _).
      apply (fold_appends (add_region_fuel fuel) region (remainders region r)
               (fun x Hx => remainders_piece _ _ _ Ho Hx)
               (fun st x _ => IH st x)
               (fst st, note_increment (snd st) i (nr_accesses region))).
    + exists [region]. simpl. split; [done|].
      constructor; [apply piece_of_refl | constructor].
Qed.

Lemma add_region_prefix (st : agg_state) (region : DAMONRegion) :
  exists added, fst (add_region st region) = fst st ++ added.
Proof.
  destruct (add_region_fuel_appends (S (span region)) st region)
    as (added & H & _).
  by exists added.
Qed.

(** X1.  [add_region] never touches what the accumulator holds: the
    accumulator it returns is the one it was given followed by new regions,
    and every new region lies inside the inserted one and has its access
    count and age. *)
Theorem add_region_appends (st : agg_state) (region : DAMONRegion) :
  exists added,
    fst (add_region st region) = fst st ++ added
    /\ Forall (fun x =>
                 start region <= start x /\ end_ x <= end_ region
                 /\ nr_accesses x = nr_accesses region /\ age x = age region)
         added.
Proof. apply add_region_fuel_appends. Qed.

Lemma covered_app_l (rs more : list DAMONRegion) (x : Z) :
  covered rs x -> covered (rs ++ more) x.
Proof. intros (r & Hr & Hx). exists r. split; [apply in_or_app; by left | done]. Qed.

Lemma fold_keeps_covered (fuel : nat) (l : list DAMONRegion) :
  forall st x, covered (fst st) x ->
               covered (fst (fold_left (add_region_fuel fuel) l st)) x.
Proof.
  induction l as [|y l IH]; intros st x Hx; simpl; [done|].
  apply IH.
  destruct (add_region_fuel_appends fuel st y) as (added & -> & _).
  by apply covered_app_l.
Qed.

Lemma first_intersecting_In (rs : list DAMONRegion) (region : DAMONRegion) :
  forall k i r, first_intersecting rs region k = Some (i, r) -> In r rs.
Proof.
  induction rs as [|y rs IH]; intros k i r H; simpl in H; [done|].
  destruct (regions_intersect y region).
  - injection H as _ <-. by left.
  - right. eauto.
Qed.

Lemma add_region_fuel_covers (fuel : nat) :
  forall st region x,
    (span region < fuel)%nat ->
    start region <= x < end_ region ->
    covered (fst (add_region_fuel fuel st region)) x.
Proof.
  induction fuel as [|fuel IH]; intros st region x Hfuel Hx; [lia|]. simpl.
  destruct (first_intersecting (fst st) region 0) as [[i r]|] eqn:Hf.
  - pose proof (first_intersecting_In _ _ _ _ _ Hf) as Hin.
    apply first_intersecting_Some in Hf as (Ho & _ & _).
    set (st1 := (fst st, note_increment (snd st) i (nr_accesses region))).
    destruct (Z.lt_ge_cases x (start r)) as [Hlo|Hlo];
      [|destruct (Z.lt_ge_cases x (end_ r)) as [Hhi|Hhi]].
    + (* in the remainder on the left *)
      unfold remainders.
      destruct (Z.ltb_spec (start region) (start r)) as [Hl|Hl]; [|lia].
      simpl. apply fold_keeps_covered. apply IH; simpl; [|lia].
      unfold span in *. simpl. unfold overlap in Ho. lia.
    + (* in the region that was found *)
      apply fold_keeps_covered. exists r. split; [done | lia].
    + (* in the remainder on the right *)
      unfold remainders.
      destruct (Z.ltb_spec (end_ r) (end_ region)) as [Hr|Hr]; [|lia].
      rewrite fold_left_app. simpl. apply IH; simpl; [|lia].
      unfold span in *. simpl. unfold overlap in Ho. lia.
  - exists region. split; [|done]. simpl. apply in_or_app. right. by left.
Qed.

(** After [add_region], every address of the inserted region is held by a
    region of the accumulator, and so is every address that was held
    before. *)
Lemma add_region_holds (st : agg_state) (region : DAMONRegion) (x : Z) :
  start region <= x < end_ region \/ covered (fst st) x ->
  covered (fst (add_region st region)) x.
Proof.
  intros [Hx | Hx].
  - apply add_region_fuel_covers; [lia | done].
  - destruct (add_region_prefix st region) as (added & ->).
    by apply covered_app_l.
Qed.

Lemma fold_add_region_holds (l : list DAMONRegion) (x : Z) :
  forall st,
    covered (fst st) x \/ covered l x ->
    covered (fst (fold_left add_region l st)) x.
Proof.
  induction l as [|y l IH]; intros st Hx; cbn [fold_left].
  - destruct Hx as [Hx | (r & [] & _)]. exact Hx.
  - apply IH. destruct Hx as [Hx | (r & [<- | Hr] & Hx)].
    + left. apply add_region_holds. by right.
    + left. apply add_region_holds. by left.
    + right. by exists r.
Qed.

(** Applying the increments moves no region. *)
Lemma apply_increments_holds (st : agg_state) (x : Z) :
  covered (fst st) x -> covered (apply_increments st) x.
Proof.
  intros (r & Hr & Hx). apply list_elem_of_In, list_elem_of_lookup in Hr.
  destruct Hr as [i Hi].
  assert (exists r', apply_increments st !! i = Some r'
                     /\ start r' = start r /\ end_ r' = end_ r)
    as (r' & Hi' & Hs & He).
  { unfold apply_increments. rewrite list_lookup_imap, Hi. cbn [fmap option_fmap option_map].
    destruct (snd st !! i); eexists; (split; [reflexivity|]); done. }
  exists r'. split; [|lia].
  apply list_elem_of_In. by eapply list_elem_of_lookup_2.
Qed.

Lemma aggregate_pass_holds (rs : list DAMONRegion) (s : DAMONSnapshot) (x : Z) :
  covered rs x \/ covered (regions s) x -> covered (aggregate_pass rs s) x.
Proof.
  intros Hx. unfold aggregate_pass.
  apply apply_increments_holds. by apply fold_add_region_holds.
Qed.

Lemma aggregate_regions_holds (ss : list DAMONSnapshot) (x : Z) :
  forall rs,
    covered rs x \/ (exists s, In s ss /\ covered (regions s) x) ->
    covered (fold_left aggregate_pass ss rs) x.
Proof.
  induction ss as [|s ss IH]; intros rs Hx; cbn [fold_left].
  - destruct Hx as [Hx | (s & [] & _)]. exact Hx.
  - apply IH. destruct Hx as [Hx | (s' & [<- | Hs] & Hx)].
    + left. apply aggregate_pass_holds. by left.
    + left. apply aggregate_pass_holds. by right.
    + right. by exists s'.
Qed.

(** X2.  Aggregation loses no address: every address held by a region of
    one of the snapshots given to [aggregate_snapshots] is held by a region
    of the snapshot it returns. *)
Theorem aggregate_covers (snapshots : list DAMONSnapshot)
  (aggregated s : DAMONSnapshot) (r : DAMONRegion) (x : Z) :
  aggregate_snapshots snapshots = Py.Ok aggregated ->
  In s snapshots -> In r (regions s) ->
  start r <= x < end_ r ->
  exists a, In a (regions aggregated) /\ start a <= x < end_ a.
Proof.
  intros Hagg Hs Hr Hx. unfold aggregate_snapshots in Hagg.
  destruct (head snapshots); [|done].
  destruct (last snapshots); [|done].
  injection Hagg as <-. cbn [regions].
  apply (aggregate_regions_holds snapshots x []).
  right. exists s. split; [done|]. by exists r.
Qed.

(** The example of the source, address 7. *)
Lemma aggregate_covers_witness :
  exists a,
    In a [mkRegion 1 10 9 None] /\ start a <= 7 < end_ a.
Proof.
  apply (aggregate_covers
           [mkSnapshot None (Py.Int 1) 7 [mkRegion 1 10 5 None];
            mkSnapshot (Some (Py.Int 1)) (Py.Int 2) 7
              [mkRegion 1 5 2 None; mkRegion 5 10 4 None]]
           (mkSnapshot None (Py.Int 2) 7 [mkRegion 1 10 9 None])
           (mkSnapshot (Some (Py.Int 1)) (Py.Int 2) 7
              [mkRegion 1 5 2 None; mkRegion 5 10 4 None])
           (mkRegion 5 10 4 None) 7).
  - vm_compute. reflexivity.
  - right. by left.
  - right. by left.
  - simpl. lia.
Defined.

(** *** A snapshot whose regions do not overlap *)

Lemma first_intersecting_None_intro (rs : list DAMONRegion)
  (region : DAMONRegion) :
  (forall r, In r rs -> ~ overlap r region) ->
  forall k, first_intersecting rs region k = None.
Proof.
  induction rs as [|y rs IH]; intros Hrs k; simpl; [done|].
  rewrite (proj2 (regions_intersect_false y region) (Hrs y (or_introl eq_refl))).
  apply IH. intros r Hr. apply Hrs. by right.
Qed.

Lemma fold_add_region_disjoint (rs : list DAMONRegion) :
  forall acc m,
    pairwise_disjoint (acc ++ rs) ->
    fold_left add_region rs (acc, m) = (acc ++ rs, m).
Proof.
  induction rs as [|y rs IH]; intros acc m Hd; simpl.
  - by rewrite app_nil_r.
  - rewrite add_region_eq. simpl.
    rewrite first_intersecting_None_intro.
    + rewrite IH; [by rewrite <- app_assoc | by rewrite <- app_assoc].
    + intros r Hr. apply list_elem_of_In, list_elem_of_lookup in Hr as [i Hi].
      apply (Hd i (length acc) r y).
      * apply lookup_lt_Some in Hi. lia.
      * by apply lookup_app_l_Some.
      * by rewrite list_lookup_middle.
Qed.

Lemma apply_increments_empty (rs : list DAMONRegion) :
  apply_increments (rs, ∅) = rs.
Proof.
  unfold apply_increments. simpl.
  apply list_eq. intros i. rewrite list_lookup_imap.
  destruct (rs !! i); simpl; [|done]. by rewrite lookup_empty.
Qed.

(** X3.  A single snapshot whose regions are pairwise non-overlapping is
    returned as it is. *)
Theorem aggregate_single (s : DAMONSnapshot) :
  pairwise_disjoint (regions s) -> aggregate_snapshots [s] = Py.Ok s.
Proof.
  intros Hd. unfold aggregate_snapshots, aggregate_regions, aggregate_pass.
  simpl. rewrite (fold_add_region_disjoint (regions s) [] ∅ Hd). simpl.
  rewrite apply_increments_empty. by destruct s.
Qed.

Lemma two_regions_disjoint :
  pairwise_disjoint [mkRegion 0 5 2 None; mkRegion 5 10 4 None].
Proof.
  intros i j a b Hij Hi Hj.
  destruct i as [|[|i]]; destruct j as [|[|j]]; simpl in Hi, Hj; try done;
    injection Hi as <-; injection Hj as <-; unfold overlap; simpl; lia.
Qed.

Lemma aggregate_single_witness :
  aggregate_snapshots
    [mkSnapshot None (Py.Int 2) 7 [mkRegion 0 5 2 None; mkRegion 5 10 4 None]]
  = Py.Ok
      (mkSnapshot None (Py.Int 2) 7 [mkRegion 0 5 2 None; mkRegion 5 10 4 None]).
Proof.
  apply aggregate_single. simpl. apply two_regions_disjoint.
Defined.

(** *** Access counts only grow *)

Lemma note_increment_nonneg (m : gmap nat Z) (i : nat) (n : Z) :
  nonneg m -> nonneg (note_increment m i n).
Proof.
  intros Hm j v. unfold note_increment.
  destruct (decide (i = j)) as [->|Hne].
  - rewrite lookup_insert_eq. intros [= <-].
    destruct (m !! j) as [w|] eqn:Hw; simpl; [|lia].
    specialize (Hm j w Hw). lia.
  - rewrite lookup_insert_ne by done. apply Hm.
Qed.

Lemma add_region_fuel_nonneg (fuel : nat) :
  forall st region, nonneg (snd st) ->
                    nonneg (snd (add_region_fuel fuel st region)).
Proof.
  induction fuel as [|fuel IH]; intros st region Hm; simpl; [done|].
  destruct (first_intersecting (fst st) region 0) as [[i r]|]; [|done].
  apply (fold_left_invariant (fun s => nonneg (snd s))); [auto|].
  simpl. by apply note_increment_nonneg.
Qed.

Lemma fold_add_region_prefix (l : list DAMONRegion) :
  forall st, exists added, fst (fold_left add_region l st) = fst st ++ added.
Proof.
  induction l as [|y l IH]; intros st; simpl.
  - exists []. by rewrite app_nil_r.
  - destruct (IH (add_region st y)) as (a2 & ->).
    destruct (add_region_prefix st y) as (a1 & ->).
    exists (a1 ++ a2). by rewrite app_assoc.
Qed.

Lemma aggregate_pass_grown (rs : list DAMONRegion) (s : DAMONSnapshot)
  (i : nat) (r : DAMONRegion) :
  rs !! i = Some r ->
  exists r', aggregate_pass rs s !! i = Some r' /\ grown r r'.
Proof.
  intros Hi. unfold aggregate_pass, apply_increments.
  set (st := fold_left add_region (regions s) (rs, ∅)).
  assert (nonneg (snd st)) as Hnn.
  { subst st.
    apply (fold_left_invariant (fun s => nonneg (snd s))).
    - intros a x. apply add_region_fuel_nonneg.
    - intros j v. simpl. by rewrite lookup_empty. }
  destruct (fold_add_region_prefix (regions s) (rs, ∅)) as (added & Hpre).
  fold st in Hpre. simpl in Hpre.
  rewrite list_lookup_imap, Hpre, (lookup_app_l_Some _ _ _ _ Hi). simpl.
  destruct (snd st !! i) as [n|] eqn:Hn.
  - eexists. split; [done|]. specialize (Hnn i n Hn).
    unfold grown. simpl. repeat split; lia.
  - exists r. split; [done|]. unfold grown. repeat split; lia.
Qed.

Lemma grown_trans (a b c : DAMONRegion) : grown a b -> grown b c -> grown a c.
Proof.
  unfold grown. intros (? & ? & ? & ?) (? & ? & ? & ?).
  repeat split; try lia; congruence.
Qed.

(** X4.  Feeding more snapshots to the aggregator keeps every region it
    already has: the region stays at its place with its range and age, and
    its access count does not decrease. *)
Theorem aggregate_regions_grow (ss more : list DAMONSnapshot) (i : nat)
  (r : DAMONRegion) :
  aggregate_regions ss !! i = Some r ->
  exists r',
    aggregate_regions (ss ++ more) !! i = Some r'
    /\ start r' = start r /\ end_ r' = end_ r /\ age r' = age r
    /\ nr_accesses r <= nr_accesses r'.
Proof.
  unfold aggregate_regions. rewrite fold_left_app.
  generalize (fold_left aggregate_pass ss []). intros rs. revert rs r.
  induction more as [|s more IH]; intros rs r Hi; simpl.
  - exists r. repeat split; [done | lia].
  - destruct (aggregate_pass_grown rs s i r Hi) as (r1 & H1 & Hg1).
    destruct (IH _ _ H1) as (r2 & H2 & Hg2).
    exists r2. split; [done|]. by apply (grown_trans r r1 r2).
Qed.

Lemma aggregate_regions_grow_witness :
  exists r',
    aggregate_regions
      ([mkSnapshot None (Py.Int 1) 7 [mkRegion 0 10 5 None]]
       ++ [mkSnapshot None (Py.Int 2) 7
             [mkRegion 0 5 2 None; mkRegion 5 10 4 None]]) !! 0%nat
    = Some r'
    /\ start r' = 0 /\ end_ r' = 10 /\ age r' = None /\ 5 <= nr_accesses r'.
Proof.
  apply (aggregate_regions_grow
           [mkSnapshot None (Py.Int 1) 7 [mkRegion 0 10 5 None]] _ 0
           (mkRegion 0 10 5 None)).
  reflexivity.
Defined.

(** *** Regions inside one accumulated region *)

Lemma add_region_inside (R x : DAMONRegion) (m : gmap nat Z) :
  inside R x ->
  add_region ([R], m) x = ([R], note_increment m 0 (nr_accesses x)).
Proof.
  intros (H1 & H2 & H3). rewrite add_region_eq. simpl.
  assert (regions_intersect R x = true) as ->.
  { apply regions_intersect_overlap. unfold overlap. lia. }
  unfold remainders.
  destruct (Z.ltb_spec (start x) (start R)); [lia|].
  destruct (Z.ltb_spec (end_ R) (end_ x)); [lia|]. done.
Qed.

Lemma fold_add_region_inside (R : DAMONRegion) (l : list DAMONRegion) :
  Forall (inside R) l ->
  forall m,
    fold_left add_region l ([R], m)
    = ([R], fold_left (fun m x => note_increment m 0 (nr_accesses x)) l m).
Proof.
  induction 1 as [|x l Hx _ IH]; intros m; simpl; [done|].
  by rewrite (add_region_inside R x m Hx), IH.
Qed.

(** The increment pending for position 0 after a list of notes. *)
Lemma noted_max (l : list DAMONRegion) :
  forall m,
    default 0 (fold_left (fun m x => note_increment m 0 (nr_accesses x)) l m
               !! 0%nat)
    = fold_left Z.max (map nr_accesses l) (default 0 (m !! 0%nat)).
Proof.
  induction l as [|x l IH]; intros m; simpl; [done|].
  rewrite IH. unfold note_increment. by rewrite lookup_insert_eq.
Qed.

(** X5.  When every region of a snapshot lies inside the single region [R]
    of the accumulator, the pass adds no region and raises the access count
    of [R] by the largest access count of the snapshot (by 0 if none is
    positive): overlapping regions of one snapshot combine by maximum, not
    by sum. *)
Theorem aggregate_pass_inside (R : DAMONRegion) (s : DAMONSnapshot) :
  Forall (fun x => start R <= start x /\ start x < end_ x /\ end_ x <= end_ R)
    (regions s) ->
  aggregate_pass [R] s
  = [mkRegion (start R) (end_ R)
       (nr_accesses R + fold_left Z.max (map nr_accesses (regions s)) 0)
       (age R)].
Proof.
  intros Hin. unfold aggregate_pass.
  rewrite (fold_add_region_inside R (regions s) Hin ∅).
  pose proof (noted_max (regions s) ∅) as Hmax.
  rewrite lookup_empty in Hmax. simpl in Hmax.
  unfold apply_increments. simpl.
  destruct (fold_left _ (regions s) ∅ !! 0%nat) as [n|] eqn:Hn;
    simpl in Hmax; rewrite <- Hmax; [done|].
  destruct R. simpl. f_equal. f_equal. lia.
Qed.

Lemma aggregate_pass_inside_witness :
  aggregate_pass [mkRegion 0 10 5 None]
    (mkSnapshot None (Py.Int 2) 7
       [mkRegion 0 5 2 None; mkRegion 5 10 4 None; mkRegion 2 7 3 None])
  = [mkRegion 0 10 (5 + 4) None].
Proof.
  apply (aggregate_pass_inside (mkRegion 0 10 5 None)
           (mkSnapshot None (Py.Int 2) 7
              [mkRegion 0 5 2 None; mkRegion 5 10 4 None; mkRegion 2 7 3 None])).
  simpl. repeat constructor; simpl; lia.
Defined.

(** *** Snapshots with the same ranges *)

Lemma ranges_lookup (rs xs : list DAMONRegion) (i : nat) (a : DAMONRegion) :
  ranges xs = ranges rs -> rs !! i = Some a ->
  exists x, xs !! i = Some x /\ start x = start a /\ end_ x = end_ a.
Proof.
  unfold ranges. intros Heq Hi.
  assert (map (fun r => (start r, end_ r)) xs !! i = Some (start a, end_ a))
    as Hx by (by rewrite Heq, list_lookup_fmap, Hi).
  rewrite list_lookup_fmap in Hx.
  destruct (xs !! i) as [x|]; [|done].
  injection Hx as Hs He. by exists x.
Qed.

Lemma ranges_disjoint (rs xs : list DAMONRegion) :
  ranges xs = ranges rs -> pairwise_disjoint rs -> pairwise_disjoint xs.
Proof.
  intros Heq Hd i j x y Hij Hi Hj.
  destruct (ranges_lookup xs rs i x (eq_sym Heq) Hi) as (a & Ha & Hsa & Hea).
  destruct (ranges_lookup xs rs j y (eq_sym Heq) Hj) as (b & Hb & Hsb & Heb).
  specialize (Hd i j a b Hij Ha Hb). unfold overlap in *. lia.
Qed.

Lemma ranges_nonempty (rs xs : list DAMONRegion) :
  ranges xs = ranges rs ->
  Forall (fun r => start r < end_ r) rs -> Forall (fun r => start r < end_ r) xs.
Proof.
  intros Heq Hne. apply Forall_lookup. intros i x Hi.
  destruct (ranges_lookup xs rs i x (eq_sym Heq) Hi) as (a & Ha & Hsa & Hea).
  rewrite Forall_lookup in Hne. specialize (Hne i a Ha). simpl in Hne. lia.
Qed.

(** The first region of the accumulator that intersects a region with the
    range of its [j]-th region is that [j]-th region. *)
Lemma first_intersecting_at (rs : list DAMONRegion) :
  forall j k a x,
    pairwise_disjoint rs ->
    Forall (fun r => start r < end_ r) rs ->
    rs !! j = Some a -> start x = start a -> end_ x = end_ a ->
    first_intersecting rs x k = Some ((k + j)%nat, a).
Proof.
  induction rs as [|y rs IH]; intros j k a x Hd Hne Hj Hs He; [done|].
  cbn [first_intersecting]. destruct j as [|j].
  - injection Hj as ->.
    inversion Hne as [|? ? Ha _]; subst.
    assert (regions_intersect a x = true) as ->.
    { apply regions_intersect_overlap. unfold overlap. lia. }
    by rewrite Nat.add_0_r.
  - cbn [lookup list_lookup] in Hj.
    assert (regions_intersect y x = false) as ->.
    { apply regions_intersect_false. intros Ho.
      apply (Hd 0%nat (S j) y a); [lia | done | done |].
      unfold overlap in *. lia. }
    rewrite (IH j (S k) a x); [f_equal; f_equal; lia | | | done | done | done].
    + intros i1 i2 r1 r2 Hne12 H1 H2.
      apply (Hd (S i1) (S i2) r1 r2); [lia | done | done].
    + by inversion Hne.
Qed.

Lemma add_region_same_range (rs : list DAMONRegion) (m : gmap nat Z)
  (j : nat) (a x : DAMONRegion) :
  pairwise_disjoint rs ->
  Forall (fun r => start r < end_ r) rs ->
  rs !! j = Some a -> start x = start a -> end_ x = end_ a ->
  add_region (rs, m) x = (rs, note_increment m j (nr_accesses x)).
Proof.
  intros Hd Hne Hj Hs He. rewrite add_region_eq. cbn [fst snd].
  rewrite (first_intersecting_at rs j 0 a x Hd Hne Hj Hs He). cbn [Nat.add].
  unfold remainders.
  destruct (Z.ltb_spec (start x) (start a)); [lia|].
  destruct (Z.ltb_spec (end_ a) (end_ x)); [lia|]. done.
Qed.

(** The increments noted after the first [n] regions of the snapshot. *)
Lemma fold_same_ranges (rs xs : list DAMONRegion) :
  pairwise_disjoint rs ->
  Forall (fun r => start r < end_ r) rs ->
  ranges xs = ranges rs ->
  forall n,
    exists m,
      fold_left add_region (take n xs) (rs, ∅) = (rs, m)
      /\ forall i,
           m !! i = (fun x => Z.max 0 (nr_accesses x)) <$> take n xs !! i.
Proof.
  intros Hd Hne Heq. induction n as [|n (m & Hfold & Hm)].
  - exists ∅. split; [done|]. intros i. by rewrite take_0, lookup_empty.
  - destruct (xs !! n) as [x|] eqn:Hx.
    + rewrite (take_S_r xs n x Hx), fold_left_app, Hfold. cbn [fold_left].
      destruct (ranges_lookup xs rs n x (eq_sym Heq) Hx) as (a & Ha & Hs & He).
      rewrite (add_region_same_range rs m n a x Hd Hne Ha); [|done|done].
      eexists. split; [reflexivity|]. intros i.
      assert (length (take n xs) = n) as Hlen.
      { rewrite length_take. apply lookup_lt_Some in Hx. lia. }
      unfold note_increment. destruct (decide (i = n)) as [->|Hin].
      * rewrite lookup_insert_eq, Hm.
        rewrite (lookup_ge_None_2 (take n xs) n) by lia.
        rewrite lookup_app_r by lia. rewrite Hlen, Nat.sub_diag. done.
      * rewrite lookup_insert_ne by done. rewrite Hm.
        destruct (decide (i < n)%nat).
        -- by rewrite lookup_app_l by lia.
        -- rewrite (lookup_ge_None_2 (take n xs) i) by lia.
           rewrite lookup_ge_None_2; [done|]. rewrite length_app. simpl. lia.
    + exists m. apply lookup_ge_None in Hx.
      rewrite (take_ge xs (S n)) by lia. rewrite (take_ge xs n) in Hfold, Hm by lia.
      done.
Qed.

Lemma aggregate_pass_same_ranges (rs : list DAMONRegion) (s : DAMONSnapshot) :
  pairwise_disjoint rs ->
  Forall (fun r => start r < end_ r) rs ->
  ranges (regions s) = ranges rs ->
  aggregate_pass rs s = add_counts rs s.
Proof.
  intros Hd Hne Heq. unfold aggregate_pass, add_counts.
  destruct (fold_same_ranges rs (regions s) Hd Hne Heq (length (regions s)))
    as (m & Hfold & Hm).
  rewrite firstn_all in Hfold, Hm. rewrite Hfold.
  unfold apply_increments. cbn [fst snd].
  apply list_eq. intros i. rewrite list_lookup_imap, lookup_zip_with.
  destruct (rs !! i) as [a|] eqn:Ha; [|done]. cbn.
  destruct (ranges_lookup rs (regions s) i a Heq Ha) as (x & Hx & _).
  by rewrite Hm, Hx.
Qed.

Lemma add_counts_ranges (rs : list DAMONRegion) (s : DAMONSnapshot) :
  ranges (regions s) = ranges rs -> ranges (add_counts rs s) = ranges rs.
Proof.
  intros Heq. unfold add_counts, ranges. apply list_eq. intros i.
  rewrite !list_lookup_fmap, lookup_zip_with.
  destruct (rs !! i) as [a|] eqn:Ha; [|done]. cbn.
  destruct (ranges_lookup rs (regions s) i a Heq Ha) as (x & Hx & _).
  by rewrite Hx.
Qed.

Lemma last_cons_default {A : Type} (l : list A) :
  forall x d, List.last (x :: l) d = List.last l x.
Proof.
  induction l as [|y l IH]; intros x d; [done|].
  change (List.last (x :: y :: l) d) with (List.last (y :: l) d).
  by rewrite !IH.
Qed.

Lemma fold_same_ranges_snapshots (rest : list DAMONSnapshot) :
  forall rs rs0,
    pairwise_disjoint rs0 ->
    Forall (fun r => start r < end_ r) rs0 ->
    ranges rs = ranges rs0 ->
    Forall (fun s => ranges (regions s) = ranges rs0) rest ->
    fold_left aggregate_pass rest rs = fold_left add_counts rest rs.
Proof.
  induction rest as [|s rest IH]; intros rs rs0 Hd Hne Hrs Hall; [done|].
  inversion Hall as [|? ? Hs Hall']; subst. cbn [fold_left].
  rewrite (aggregate_pass_same_ranges rs s).
  - apply (IH _ rs0); try done.
    rewrite add_counts_ranges; congruence.
  - by apply (ranges_disjoint rs0).
  - by apply (ranges_nonempty rs0).
  - congruence.
Qed.

(** X25.  Snapshots that all have the same address ranges are summed
    region by region.  When the regions of the first snapshot are not empty
    and do not overlap, and every other snapshot has the same list of
    [start, end) ranges, [aggregate_snapshots] returns the regions of the
    first snapshot, each with its access count raised by the access counts
    (where positive) of the regions at the same place in the other
    snapshots; the ages are those of the first snapshot.  The snapshots
    are distinct objects, as the decoders build them: no region of a later
    snapshot is a region of the first one. *)
Theorem aggregate_same_ranges (s0 : DAMONSnapshot) (rest : list DAMONSnapshot) :
  pairwise_disjoint (regions s0) ->
  Forall (fun r => start r < end_ r) (regions s0) ->
  Forall (fun s =>
            map (fun r => (start r, end_ r)) (regions s)
            = map (fun r => (start r, end_ r)) (regions s0)) rest ->
  aggregate_snapshots (s0 :: rest)
  = Py.Ok
      (mkSnapshot (start_time s0)
         (end_time (List.last rest s0)) (target_id s0)
         (fold_left
            (fun acc s =>
               zip_with
                 (fun a x =>
                    mkRegion (start a) (end_ a)
                      (nr_accesses a + Z.max 0 (nr_accesses x)) (age a))
                 acc (regions s))
            rest (regions s0))).
Proof.
  intros Hd Hne Hall. unfold aggregate_snapshots, aggregate_regions.
  cbn [head fold_left].
  assert (aggregate_pass [] s0 = regions s0) as ->.
  { unfold aggregate_pass.
    rewrite (fold_add_region_disjoint (regions s0) [] ∅ Hd).
    apply apply_increments_empty. }
  rewrite (fold_same_ranges_snapshots rest (regions s0) (regions s0) Hd Hne
             eq_refl Hall).
  assert (last (s0 :: rest) = Some (List.last rest s0)) as ->.
  { clear. revert s0. induction rest as [|s rest IH]; intros s0; [done|].
    change (last (s0 :: s :: rest)) with (last (s :: rest)).
    rewrite IH. f_equal. symmetry. apply last_cons_default. }
  reflexivity.
Qed.

Lemma aggregate_same_ranges_witness :
  aggregate_snapshots
    [mkSnapshot None (Py.Int 1) 7 [mkRegion 0 5 2 None; mkRegion 5 10 4 None];
     mkSnapshot (Some (Py.Int 1)) (Py.Int 2) 7
       [mkRegion 0 5 1 None; mkRegion 5 10 0 None];
     mkSnapshot (Some (Py.Int 2)) (Py.Int 3) 7
       [mkRegion 0 5 3 None; mkRegion 5 10 6 None]]
  = Py.Ok
      (mkSnapshot None (Py.Int 3) 7
         [mkRegion 0 5 6 None; mkRegion 5 10 10 None]).
Proof.
  apply (aggregate_same_ranges
           (mkSnapshot None (Py.Int 1) 7
              [mkRegion 0 5 2 None; mkRegion 5 10 4 None])
           [mkSnapshot (Some (Py.Int 1)) (Py.Int 2) 7
              [mkRegion 0 5 1 None; mkRegion 5 10 0 None];
            mkSnapshot (Some (Py.Int 2)) (Py.Int 3) 7
              [mkRegion 0 5 3 None; mkRegion 5 10 6 None]]).
  - apply two_regions_disjoint.
  - repeat constructor.
  - repeat constructor.
Defined.

End AggregatorMore.

(** ** More on the record codec *)

Module CodecMore.
Import Result RecordShapes CodecProofs InferenceProofs.

(** *** [struct]: packing and unpacking *)

Lemma Z_of_byte_bound (b : byte) : 0 <= Struct.Z_of_byte b < 256.
Proof.
  unfold Struct.Z_of_byte. pose proof (Byte.to_N_bounded b). lia.
Qed.

Lemma Z_of_byte_of_Z (z : Z) : Struct.Z_of_byte (Struct.byte_of_Z z) = z mod 256.
Proof.
  unfold Struct.Z_of_byte, Struct.byte_of_Z.
  assert (0 <= z mod 256 < 256) by (apply Z.mod_pos_bound; lia).
  destruct (Byte.of_N (Z.to_N (z mod 256))) as [b|] eqn:E.
  - simpl. apply Byte.to_of_N in E. rewrite E. lia.
  - apply Byte.of_N_None_iff in E. lia.
Qed.

Lemma le_bytes_length (n : nat) : forall v, length (Struct.le_bytes n v) = n.
Proof. induction n as [|n IH]; intros v; simpl; [done|]. by rewrite IH. Qed.

Lemma le_value_le_bytes (n : nat) :
  forall v, Struct.le_value (Struct.le_bytes n v) = v mod 256 ^ Z.of_nat n.
Proof.
  induction n as [|n IH]; intros v.
  - simpl. by rewrite Z.mod_1_r.
  - cbn [Struct.le_bytes Struct.le_value].
    rewrite Z_of_byte_of_Z, IH, Nat2Z.inj_succ, Z.pow_succ_r by lia.
    rewrite Z.rem_mul_r by lia. done.
Qed.

Lemma le_value_bound (bs : list byte) :
  0 <= Struct.le_value bs < 256 ^ Z.of_nat (length bs).
Proof.
  induction bs as [|b bs IH].
  - simpl. lia.
  - cbn [Struct.le_value length].
    rewrite Nat2Z.inj_succ, Z.pow_succ_r by lia.
    pose proof (Z_of_byte_bound b). lia.
Qed.

Lemma wrap_signed (h v : Z) :
  0 < h -> - h <= v <= h - 1 ->
  (if h <=? v mod (2 * h) then v mod (2 * h) - 2 * h else v mod (2 * h)) = v.
Proof.
  intros Hh Hv. destruct (Z.leb_spec h (v mod (2 * h))) as [H|H].
  - destruct (Z.le_gt_cases 0 v) as [Hp|Hn].
    + rewrite Z.mod_small in H by lia. lia.
    + rewrite <- (Z.mod_add v 1 (2 * h)) by lia.
      rewrite Z.mod_small by lia. lia.
  - destruct (Z.le_gt_cases 0 v) as [Hp|Hn].
    + rewrite Z.mod_small by lia. done.
    + rewrite <- (Z.mod_add v 1 (2 * h)) in H by lia.
      rewrite Z.mod_small in H by lia. lia.
Qed.

(** What [struct.pack] gives, [struct.unpack] reads back. *)
Lemma unpack_pack (f : Struct.format) (v : Z) (bs : list byte) :
  Struct.pack f v = Py.Ok bs ->
  Struct.unpack f bs = Py.Ok v /\ length bs = Struct.size f.
Proof.
  unfold Struct.pack, Struct.unpack.
  destruct (Z.leb_spec (Struct.min_value f) v) as [Hlo|]; [|done].
  destruct (Z.leb_spec v (Struct.max_value f)) as [Hhi|]; [|done].
  cbn [andb]. intros [= <-].
  rewrite le_bytes_length, Nat.eqb_refl, le_value_le_bytes.
  split; [|reflexivity]. f_equal.
  destruct f.
  - apply (wrap_signed (2 ^ 31) v); [lia|]. split; [exact Hlo | exact Hhi].
  - change (256 ^ Z.of_nat (Struct.size Struct.fmt_I)) with 4294967296.
    change (Struct.min_value Struct.fmt_I) with 0 in Hlo.
    change (Struct.max_value Struct.fmt_I) with 4294967295 in Hhi.
    apply Z.mod_small. lia.
  - apply (wrap_signed (2 ^ 63) v); [lia|]. split; [exact Hlo | exact Hhi].
  - change (256 ^ Z.of_nat (Struct.size Struct.fmt_L))
      with 18446744073709551616.
    change (Struct.min_value Struct.fmt_L) with 0 in Hlo.
    change (Struct.max_value Struct.fmt_L) with 18446744073709551615 in Hhi.
    apply Z.mod_small. lia.
Qed.

(** What [struct.unpack] reads is in the range of its format. *)
Lemma unpack_range (f : Struct.format) (bs : list byte) (v : Z) :
  Struct.unpack f bs = Py.Ok v ->
  Struct.min_value f <= v <= Struct.max_value f.
Proof.
  unfold Struct.unpack.
  destruct (Nat.eqb_spec (length bs) (Struct.size f)) as [Hlen|]; [|done].
  intros [= <-]. pose proof (le_value_bound bs) as Hb. rewrite Hlen in Hb.
  destruct f; cbn [Struct.signed andb].
  - change (256 ^ Z.of_nat (Struct.size Struct.fmt_i)) with 4294967296 in Hb.
    change (2 ^ (Struct.bits Struct.fmt_i - 1)) with 2147483648.
    change (2 ^ (Struct.bits Struct.fmt_i)) with 4294967296.
    change (Struct.min_value Struct.fmt_i) with (-2147483648).
    change (Struct.max_value Struct.fmt_i) with 2147483647.
    destruct (Z.leb_spec 2147483648 (Struct.le_value bs)); lia.
  - change (256 ^ Z.of_nat (Struct.size Struct.fmt_I)) with 4294967296 in Hb.
    change (Struct.min_value Struct.fmt_I) with 0.
    change (Struct.max_value Struct.fmt_I) with 4294967295.
    lia.
  - change (256 ^ Z.of_nat (Struct.size Struct.fmt_l))
      with 18446744073709551616 in Hb.
    change (2 ^ (Struct.bits Struct.fmt_l - 1)) with 9223372036854775808.
    change (2 ^ (Struct.bits Struct.fmt_l)) with 18446744073709551616.
    change (Struct.min_value Struct.fmt_l) with (-9223372036854775808).
    change (Struct.max_value Struct.fmt_l) with 9223372036854775807.
    destruct (Z.leb_spec 9223372036854775808 (Struct.le_value bs)); lia.
  - change (256 ^ Z.of_nat (Struct.size Struct.fmt_L))
      with 18446744073709551616 in Hb.
    change (Struct.min_value Struct.fmt_L) with 0.
    change (Struct.max_value Struct.fmt_L) with 18446744073709551615.
    lia.
Qed.

(** *** Reading back what was written *)

Lemma at_open (contents : list byte) : at_ (File.open contents) contents.
Proof. by exists []. Qed.

Lemma advanced_trans (f f1 f2 : File.t) (r1 r2 : list byte) :
  advanced f f1 r1 -> advanced f1 f2 r2 -> advanced f f2 r2.
Proof.
  intros (_ & Hd1 & Hc1) (Ha & Hd2 & Hc2).
  split; [done|]. split; congruence.
Qed.

Lemma read_at (f : File.t) (bs rest : list byte) :
  at_ f (bs ++ rest) ->
  exists f', File.read (length bs) f = (bs, f') /\ advanced f f' rest.
Proof.
  intros (pre & Hd & Hp).
  exists (File.mk (File.data f) (File.pos f + length bs) (File.closed f)).
  split.
  - unfold File.read.
    by rewrite Hd, Hp, drop_app_length, take_app_length.
  - split; [|done]. exists (pre ++ bs). cbn [File.data File.pos].
    by rewrite Hd, Hp, app_assoc, length_app.
Qed.

(** A read that asks for at least what is left gets it all. *)
Lemma read_rest (n : nat) (f : File.t) (rest : list byte) :
  at_ f rest -> (length rest <= n)%nat ->
  exists f', File.read n f = (rest, f') /\ advanced f f' [].
Proof.
  intros (pre & Hd & Hp) Hn.
  exists (File.mk (File.data f) (File.pos f + length rest) (File.closed f)).
  split.
  - unfold File.read.
    by rewrite Hd, Hp, drop_app_length, take_ge.
  - split; [|done]. exists (pre ++ rest). cbn [File.data File.pos].
    by rewrite Hd, Hp, app_nil_r, length_app.
Qed.

Lemma read_unpack_at (fmt : Struct.format) (v : Z) (bs : list byte)
  (f : File.t) (rest : list byte) :
  Struct.pack fmt v = Py.Ok bs -> at_ f (bs ++ rest) ->
  exists f', read_unpack fmt f = Py.Ok (v, f') /\ advanced f f' rest.
Proof.
  intros Hpack Hat. apply unpack_pack in Hpack as [Hun Hlen].
  destruct (read_at f bs rest Hat) as (f' & Hread & Hadv).
  exists f'. split; [|done].
  unfold read_unpack. rewrite <- Hlen, Hread, Hun. done.
Qed.

Ltac bind_ok H x Hx :=
  match type of H with
  | Py.bind ?m _ = Py.Ok _ =>
      destruct m as [x|] eqn:Hx; cbn [Py.bind] in H; [|discriminate H]
  end.

Lemma read_regions_at (rs : list DAMONRegion) :
  forall bs f rest acc,
    write_all write_region rs = Py.Ok bs -> at_ f (bs ++ rest) ->
    exists f',
      read_regions (length rs) f acc = Py.Ok (acc ++ map ageless rs, f')
      /\ advanced f f' rest.
Proof.
  induction rs as [|x rs IH]; intros bs f rest acc Hw Hat.
  - injection Hw as <-. exists f. cbn [read_regions length map].
    rewrite app_nil_r. split; [done|]. by split.
  - cbn [write_all] in Hw. bind_ok Hw b Hb. bind_ok Hw bs' Hbs'.
    injection Hw as <-.
    unfold write_region in Hb.
    bind_ok Hb b1 H1. bind_ok Hb b2 H2. bind_ok Hb b3 H3.
    injection Hb as <-. rewrite <- !app_assoc in Hat.
    destruct (read_unpack_at _ _ _ _ _ H1 Hat) as (f1 & R1 & A1).
    destruct (read_unpack_at _ _ _ _ _ H2 (proj1 A1)) as (f2 & R2 & A2).
    destruct (read_unpack_at _ _ _ _ _ H3 (proj1 A2)) as (f3 & R3 & A3).
    destruct (IH bs' f3 rest (acc ++ [ageless x]) eq_refl (proj1 A3))
      as (f4 & R4 & A4).
    exists f4. cbn [read_regions length]. rewrite R1. cbn [Py.bind].
    rewrite R2. cbn [Py.bind]. rewrite R3. cbn [Py.bind].
    unfold ageless at 1 in R4. rewrite R4. cbn [map].
    rewrite <- app_assoc. split; [done|].
    eauto using advanced_trans.
Qed.

(** One round of the record loop on the record of one written snapshot. *)
Lemma record_round (fuel : nat) (v : Z) (s : DAMONSnapshot) (bs : list byte)
  (f : File.t) (rest : list byte) (pst : option Z) (ts : targets) :
  write_snapshot v s = Py.Ok bs -> at_ f (bs ++ rest) ->
  exists f' pst',
    record_loop (S fuel) v None f pst ts
    = record_loop fuel v None f' pst' (replay_one ts s)
    /\ advanced f f' rest.
Proof.
  intros Hw Hat. unfold write_snapshot in Hw.
  destruct (end_time s) as [z|q] eqn:Hend; [|discriminate Hw].
  cbn [floordiv modulo Struct.pack_num] in Hw.
  bind_ok Hw b1 H1. bind_ok Hw b2 H2. bind_ok Hw b3 H3. bind_ok Hw b4 H4.
  bind_ok Hw b5 H5. bind_ok Hw b6 H6. injection Hw as <-.
  destruct (unpack_pack _ _ _ H1) as [U1 L1].
  destruct (unpack_pack _ _ _ H2) as [U2 L2].
  change (Struct.size Struct.fmt_l) with 8%nat in L1, L2.
  replace (b1 ++ b2 ++ b3 ++ b4 ++ b5 ++ b6)
    with ((b1 ++ b2) ++ b3 ++ b4 ++ b5 ++ b6) in Hat
    by (by rewrite <- !app_assoc).
  rewrite <- (app_assoc (b1 ++ b2)) in Hat.
  destruct (read_at _ _ _ Hat) as (f1 & R0 & A0).
  rewrite length_app, L1, L2 in R0. change (8 + 8)%nat with 16%nat in R0.
  rewrite <- !app_assoc in A0.
  destruct (read_unpack_at _ _ _ _ _ H3 (proj1 A0)) as (f2 & R3 & A3).
  assert (exists f3,
             (if v =? 1 then read_unpack Struct.fmt_i f2
              else read_unpack Struct.fmt_L f2) = Py.Ok (target_id s, f3)
             /\ advanced f2 f3 (b5 ++ b6 ++ rest)) as (f3 & R4 & A4).
  { destruct (v =? 1); eapply read_unpack_at; eauto; apply A3. }
  destruct (read_unpack_at _ _ _ _ _ H5 (proj1 A4)) as (f4 & R5 & A5).
  destruct (read_regions_at _ _ _ _ [] H6 (proj1 A5)) as (f5 & R6 & A6).
  assert (forall pst',
    Py.bind (read_unpack Struct.fmt_I f1)
      (fun '(nr_tasks, f2) =>
         Py.bind (read_tasks (Z.to_nat nr_tasks) v
                    (z / 1000000000 * 1000000000 + z mod 1000000000) f2 ts)
           (fun '(ts', f3) => record_loop fuel v None f3 pst' ts'))
    = record_loop fuel v None f5 pst' (replay_one ts s)) as Hstep.
  { intros pst'. rewrite R3. cbn [Py.bind].
    change (Z.to_nat 1) with 1%nat. cbn [read_tasks].
    rewrite R4. cbn [Py.bind]. rewrite R5. cbn [Py.bind].
    rewrite Nat2Z.id, R6. cbn [Py.bind mret res_ret app].
    unfold replay_one. rewrite Hend.
    replace (z / 1000000000 * 1000000000 + z mod 1000000000) with z
      by (pose proof (Z.div_mod z 1000000000); lia).
    done. }
  exists f5.
  cbn [record_loop]. rewrite R0.
  rewrite length_app, L1, L2. cbn [Nat.add Nat.eqb negb].
  rewrite (take_app_length' b1 b2 8 (eq_sym L1)).
  rewrite (drop_app_length' b1 b2 8 (eq_sym L1)).
  rewrite (take_ge b2 8) by lia. rewrite U1. cbn [Py.bind].
  rewrite U2. cbn [Py.bind].
  destruct (unset pst).
  - eexists. split; [apply Hstep|]. eauto 10 using advanced_trans.
  - cbn [over_budget]. eexists. split; [apply Hstep|].
    eauto 10 using advanced_trans.
Qed.

(** The record of a snapshot is not empty. *)
Lemma write_snapshot_length (v : Z) (s : DAMONSnapshot) (bs : list byte) :
  write_snapshot v s = Py.Ok bs -> (1 <= length bs)%nat.
Proof.
  intros Hw. unfold write_snapshot in Hw.
  destruct (end_time s) as [z|q]; [|discriminate Hw].
  cbn [floordiv modulo Struct.pack_num] in Hw.
  bind_ok Hw b1 H1. bind_ok Hw b2 H2. bind_ok Hw b3 H3. bind_ok Hw b4 H4.
  bind_ok Hw b5 H5. bind_ok Hw b6 H6. injection Hw as <-.
  apply unpack_pack in H1 as [_ L1].
  change (Struct.size Struct.fmt_l) with 8%nat in L1.
  rewrite length_app. lia.
Qed.

Lemma write_all_length (v : Z) (written : list DAMONSnapshot) :
  forall body,
    write_all (write_snapshot v) written = Py.Ok body ->
    (length written <= length body)%nat.
Proof.
  induction written as [|s written IH]; intros body Hw; [simpl; lia|].
  cbn [write_all] in Hw. bind_ok Hw b Hb. bind_ok Hw bs Hbs.
  injection Hw as <-. apply write_snapshot_length in Hb.
  specialize (IH bs eq_refl). rewrite length_app. simpl. lia.
Qed.

(** The loop over the records of the written snapshots: it replays them in
    order, and stops without an error at the fewer than 16 bytes that may
    follow the last record. *)
Lemma record_loop_written (v : Z) (written : list DAMONSnapshot) :
  forall body f junk pst ts fuel,
    write_all (write_snapshot v) written = Py.Ok body ->
    at_ f (body ++ junk) -> (length junk < 16)%nat ->
    (length written < fuel)%nat ->
    exists f',
      record_loop fuel v None f pst ts
      = Py.Ok (replay written ts, File.close f')
      /\ advanced f f' [].
Proof.
  induction written as [|s written IH]; intros body f junk pst ts fuel Hw Hat
    Hjunk Hfuel.
  - injection Hw as <-. destruct fuel as [|fuel]; [simpl in Hfuel; lia|].
    destruct (read_rest 16 f junk Hat) as (f1 & R & A); [lia|].
    exists f1. cbn [record_loop]. rewrite R.
    destruct (Nat.eqb_spec (length junk) 16) as [E|_]; [lia|].
    split; [done | exact A].
  - cbn [write_all] in Hw. bind_ok Hw b Hb. bind_ok Hw bs Hbs.
    injection Hw as <-. rewrite <- app_assoc in Hat.
    destruct fuel as [|fuel]; [simpl in Hfuel; lia|].
    destruct (record_round fuel v s b f (bs ++ junk) pst ts Hb Hat)
      as (f1 & pst' & Hround & A1).
    destruct (IH bs f1 junk pst' (replay_one ts s) fuel eq_refl (proj1 A1)
                Hjunk) as (f2 & Hloop & A2); [simpl in Hfuel; lia|].
    exists f2. rewrite Hround, Hloop. split; [done|].
    eauto using advanced_trans.
Qed.

(** *** The order in which snapshots are written *)

Lemma write_all_app {A : Type} (w : A -> Py.res (list byte)) (l1 l2 : list A)
  (b1 b2 : list byte) :
  write_all w l1 = Py.Ok b1 -> write_all w l2 = Py.Ok b2 ->
  write_all w (l1 ++ l2) = Py.Ok (b1 ++ b2).
Proof.
  revert b1. induction l1 as [|x l1 IH]; intros b1 H1 H2.
  - injection H1 as <-. done.
  - cbn [write_all app] in *. bind_ok H1 b Hb. bind_ok H1 bs Hbs.
    injection H1 as <-. cbn [Py.bind].
    rewrite (IH bs eq_refl H2). cbn [Py.bind mret res_ret].
    by rewrite app_assoc.
Qed.

Lemma write_index_column (v : Z) (idx : nat) (ts : targets) :
  forall body,
    write_index v ts idx = Py.Ok body ->
    write_all (write_snapshot v) (column ts idx) = Py.Ok body
    /\ Forall (fun e : Z * list DAMONSnapshot => (idx < length (snd e))%nat) ts.
Proof.
  unfold write_index, column.
  induction ts as [|[k l] ts IH]; intros body Hw.
  - injection Hw as <-. by split.
  - cbn [write_all] in Hw. bind_ok Hw b Hb. bind_ok Hw bs Hbs.
    injection Hw as <-. cbn [snd] in Hb.
    destruct (l !! idx) as [s|] eqn:Hs; [|discriminate Hb].
    destruct (IH bs eq_refl) as [Hcol Hall].
    cbn [omap list_omap snd]. rewrite Hs. cbn [write_all].
    rewrite Hb. cbn [Py.bind]. rewrite Hcol.
    split; [done|]. constructor; [|done]. simpl.
    by eapply lookup_lt_Some.
Qed.

Lemma write_rounds (v : Z) (ts : targets) (idxs : list nat) :
  forall body,
    write_all (write_index v ts) idxs = Py.Ok body ->
    write_all (write_snapshot v) (flat_map (column ts) idxs) = Py.Ok body
    /\ Forall (fun idx =>
                 Forall (fun e : Z * list DAMONSnapshot =>
                           (idx < length (snd e))%nat) ts) idxs.
Proof.
  induction idxs as [|idx idxs IH]; intros body Hw.
  - injection Hw as <-. by split.
  - cbn [write_all] in Hw. bind_ok Hw b Hb. bind_ok Hw bs Hbs.
    injection Hw as <-.
    destruct (write_index_column v idx ts b Hb) as [Hcol Hall].
    destruct (IH bs eq_refl) as [Hrest Halls].
    cbn [flat_map]. split; [by apply write_all_app | by constructor].
Qed.

(** The stream that has read all of [contents], closed. *)
Lemma read_to_the_end (contents : list byte) (f : File.t) :
  advanced (File.open contents) f [] ->
  File.close f = File.mk contents (length contents) true.
Proof.
  intros ((pre & Hd & Hp) & Hdata & _). unfold File.close.
  rewrite Hp, Hdata. cbn [File.open File.data].
  rewrite Hdata in Hd. cbn [File.open File.data] in Hd.
  rewrite app_nil_r in Hd. by rewrite Hd.
Qed.

Lemma write_damon_record_shape (result : DAMONResult) (v n : Z)
  (bytes : list byte) :
  write_damon_record result v = Py.Ok bytes ->
  nr_snapshots result = Some n ->
  exists vb body,
    bytes = magic ++ vb ++ body
    /\ Struct.pack Struct.fmt_i v = Py.Ok vb
    /\ write_all (write_index v (target_snapshots result))
         (seq 0 (Z.to_nat n)) = Py.Ok body.
Proof.
  intros Hw Hn. unfold write_damon_record in Hw.
  bind_ok Hw vb Hvb. rewrite Hn in Hw. bind_ok Hw body Hbody.
  exists vb, body. injection Hw as <-. done.
Qed.

(** What the decoder makes of a file written by [write_damon_record]: the
    written snapshots replayed in the order of the file. *)
Lemma decode_written (result : DAMONResult) (v n : Z) (bytes junk : list byte)
  (fmt_version : option Z) :
  write_damon_record result v = Py.Ok bytes ->
  nr_snapshots result = Some n ->
  (length junk < 16)%nat ->
  record_to_damon_result (bytes ++ junk) None fmt_version None
  = Py.Ok
      (mkDecoded
         (Some (mkResult None None None
                  (replay (write_order (target_snapshots result) (Z.to_nat n))
                     [])))
         (Some (File.mk (bytes ++ junk) (length (bytes ++ junk)) true))
         (Some v) None).
Proof.
  intros Hw Hn Hjunk.
  destruct (write_damon_record_shape _ _ _ _ Hw Hn)
    as (vb & body & -> & Hvb & Hbody).
  apply write_rounds in Hbody as [Hbody _].
  set (contents := (magic ++ vb ++ body) ++ junk).
  assert (at_ (File.open contents) (magic ++ vb ++ body ++ junk)) as Hat.
  { subst contents. rewrite <- !app_assoc. apply at_open. }
  destruct (read_at _ _ _ Hat) as (f1 & R1 & A1).
  destruct (read_unpack_at _ _ _ _ _ Hvb (proj1 A1)) as (f2 & R2 & A2).
  pose proof (write_all_length _ _ _ Hbody) as Hlen.
  destruct (record_loop_written v _ body f2 junk None []
              (S (File.remaining f2)) Hbody (proj1 A2) Hjunk)
    as (f3 & Hloop & A3).
  { destruct A2 as ((pre & Hd & Hp) & _). unfold File.remaining.
    rewrite Hd, Hp, !length_app. lia. }
  unfold record_to_damon_result.
  change (length magic) with 16%nat in R1. rewrite R1.
  replace (bytes_eqb magic magic) with true
    by (symmetry; by apply bytes_eqb_eq).
  rewrite R2. cbn [Py.bind]. unfold decode_records.
  rewrite Hloop. cbn [Py.bind mret res_ret].
  rewrite (read_to_the_end contents f3) by eauto using advanced_trans.
  done.
Qed.

(** *** Replaying the written snapshots *)

Lemma rechained_snoc (l : list DAMONSnapshot) (s : DAMONSnapshot) :
  forall prev,
    rechained prev (l ++ [s])
    = rechained prev l
      ++ [mkSnapshot
            (match last l with Some x => Some (end_time x) | None => prev end)
            (end_time s) (target_id s) (map ageless (regions s))].
Proof.
  induction l as [|x l IH]; intros prev; [done|].
  cbn [app rechained]. rewrite IH. f_equal. f_equal. f_equal.
  destruct l as [|y l]; [done|].
  change (last (x :: y :: l)) with (last (y :: l)).
  destruct (last (y :: l)) eqn:E; [done|].
  by apply last_None in E.
Qed.

Lemma next_start_rechained (l : list DAMONSnapshot) :
  forall prev, next_start_time (rechained prev l) = next_start_time l.
Proof.
  unfold next_start_time.
  induction l as [|x l IH]; intros prev; [done|].
  cbn [rechained]. destruct l as [|y l]; [done|].
  change (last (x :: y :: l)) with (last (y :: l)).
  rewrite <- (IH (Some (end_time x))). done.
Qed.

Lemma lookup_target_app (k : Z) (pre post : targets) :
  ~ In k (map fst pre) ->
  lookup_target k (pre ++ post) = lookup_target k post.
Proof.
  induction pre as [|[k' v] pre IH]; intros Hk; [done|].
  cbn [app lookup_target]. simpl in Hk.
  destruct (Z.eqb_spec k' k) as [->|_]; [tauto|]. apply IH. tauto.
Qed.

Lemma append_snapshot_app (k : Z) (s : DAMONSnapshot) (pre post : targets) :
  ~ In k (map fst pre) ->
  append_snapshot k s (pre ++ post) = pre ++ append_snapshot k s post.
Proof.
  induction pre as [|[k' v] pre IH]; intros Hk; [done|].
  cbn [app append_snapshot]. simpl in Hk.
  destruct (Z.eqb_spec k' k) as [->|_]; [tauto|]. rewrite IH; tauto.
Qed.

Lemma reread_keys (k : nat) (ts : targets) :
  map fst (map (reread k) ts) = map fst ts.
Proof. rewrite map_map. by apply map_ext. Qed.

Lemma NoDup_keys_middle (pre post : targets) (e : Z * list DAMONSnapshot) :
  NoDup (map fst (pre ++ e :: post)) -> ~ In (fst e) (map fst pre).
Proof.
  rewrite map_app. cbn [map]. intros Hnd Hin.
  apply NoDup_app in Hnd as (_ & Hnd & _).
  apply list_elem_of_In in Hin. apply (Hnd _ Hin). by left.
Qed.

(** The first round creates the entries. *)
Lemma replay_first_column (todo : targets) :
  forall pre,
    NoDup (map fst (pre ++ todo)) ->
    Forall filed_under todo ->
    Forall (fun e : Z * list DAMONSnapshot => (0 < length (snd e))%nat) todo ->
    replay (column todo 0) (map (reread 1) pre) = map (reread 1) (pre ++ todo).
Proof.
  induction todo as [|[key l] todo IH]; intros pre Hnd Hfiled Hlen.
  - by rewrite app_nil_r.
  - inversion Hfiled as [|? ? Hkey Hfiled']; subst.
    inversion Hlen as [|? ? Hl Hlen']; subst.
    destruct l as [|s l]; [simpl in Hl; lia|].
    inversion Hkey as [|? ? Hs _]; subst. cbn [fst] in Hs.
    pose proof (NoDup_keys_middle _ _ _ Hnd) as Hnotin. cbn [fst] in Hnotin.
    unfold column. cbn [omap list_omap snd lookup list_lookup].
    fold (column todo 0). unfold replay. cbn [fold_left]. fold (replay (column todo 0)).
    assert (replay_one (map (reread 1) pre) s
            = map (reread 1) (pre ++ [(key, s :: l)])) as ->.
    { unfold replay_one. rewrite Hs.
      rewrite <- (app_nil_r (map (reread 1) pre)).
      rewrite lookup_target_app, append_snapshot_app
        by (by rewrite reread_keys).
      rewrite map_app. unfold reread at 3. simpl. by rewrite Hs. }
    rewrite IH; try done.
    + by rewrite <- app_assoc.
    + by rewrite <- app_assoc.
Qed.

(** Every later round extends them. *)
Lemma replay_column (k : nat) (todo : targets) :
  forall pre,
    NoDup (map fst (pre ++ todo)) ->
    Forall filed_under todo ->
    Forall (fun e : Z * list DAMONSnapshot => (k < length (snd e))%nat) todo ->
    replay (column todo k) (map (reread (S k)) pre ++ map (reread k) todo)
    = map (reread (S k)) (pre ++ todo).
Proof.
  induction todo as [|[key l] todo IH]; intros pre Hnd Hfiled Hlen.
  - by rewrite !app_nil_r.
  - inversion Hfiled as [|? ? Hkey Hfiled']; subst.
    inversion Hlen as [|? ? Hl Hlen']; subst. cbn [snd] in Hl.
    destruct (lookup_lt_is_Some_2 l k Hl) as [s Hs].
    assert (target_id s = key) as Hid.
    { unfold filed_under in Hkey. rewrite Forall_forall in Hkey.
      apply Hkey. by eapply list_elem_of_lookup_2. }
    pose proof (NoDup_keys_middle _ _ _ Hnd) as Hnotin. cbn [fst] in Hnotin.
    unfold column. cbn [omap list_omap snd]. rewrite Hs.
    fold (column todo k). unfold replay. cbn [fold_left].
    fold (replay (column todo k)).
    assert (replay_one
              (map (reread (S k)) pre ++ map (reread k) ((key, l) :: todo)) s
            = map (reread (S k)) (pre ++ [(key, l)]) ++ map (reread k) todo)
      as ->.
    { unfold replay_one. rewrite Hid.
      rewrite lookup_target_app, append_snapshot_app
        by (by rewrite reread_keys).
      cbn [map reread fst snd lookup_target append_snapshot].
      rewrite Z.eqb_refl. cbn [default]. unfold id.
      rewrite next_start_rechained, map_app, <- app_assoc.
      change (map (reread (S k)) [(key, l)])
        with [(key, rechained None (take (S k) l))].
      cbn [app]. rewrite (take_S_r l k s Hs).
      rewrite rechained_snoc, Hid. unfold next_start_time.
      by destruct (last (take k l)). }
    rewrite IH; try done.
    + by rewrite <- app_assoc.
    + by rewrite <- app_assoc.
Qed.

Lemma replay_app (l1 l2 : list DAMONSnapshot) (ts : targets) :
  replay (l1 ++ l2) ts = replay l2 (replay l1 ts).
Proof. apply fold_left_app. Qed.

Lemma replay_write_order (ts : targets) (n : nat) :
  NoDup (map fst ts) ->
  Forall filed_under ts ->
  Forall (fun idx =>
            Forall (fun e : Z * list DAMONSnapshot =>
                      (idx < length (snd e))%nat) ts) (seq 0 (S n)) ->
  replay (write_order ts (S n)) [] = map (reread (S n)) ts.
Proof.
  intros Hnd Hfiled. unfold write_order.
  induction n as [|n IH]; intros Hlen.
  - cbn [seq flat_map]. rewrite app_nil_r.
    apply (replay_first_column ts []); try done.
    by inversion Hlen.
  - rewrite seq_S, flat_map_app, replay_app. cbn [Nat.add flat_map].
    rewrite app_nil_r.
    rewrite seq_S, Forall_app in Hlen. destruct Hlen as [Hlen Hlast].
    rewrite (IH Hlen).
    apply (replay_column (S n) ts []); try done.
    by inversion Hlast.
Qed.

(** X6.  Writing a result with [write_damon_record] and decoding the bytes
    gives the written snapshots back, target by target.  For a result whose
    snapshots are filed under their own target ids (the keys of a dictionary
    are distinct) and whose [nr_snapshots] is [n >= 1], every target comes
    back with its first [n] snapshots, in order, with their end times and
    target ids; the regions come back without their ages, the first
    snapshot of a target has no start time and each other one starts when
    the previous one ends.  The decoder reads the version from the header,
    reads the file to its end and closes it; fewer than 16 bytes after the
    last record are ignored. *)
Theorem binary_round_trip (result : DAMONResult) (v n : Z)
  (bytes junk : list byte) (fmt_version : option Z) :
  write_damon_record result v = Py.Ok bytes ->
  nr_snapshots result = Some n ->
  1 <= n ->
  NoDup (map fst (target_snapshots result)) ->
  Forall (fun e : Z * list DAMONSnapshot =>
            Forall (fun s => target_id s = fst e) (snd e))
    (target_snapshots result) ->
  (length junk < 16)%nat ->
  record_to_damon_result (bytes ++ junk) None fmt_version None
  = Py.Ok
      (mkDecoded
         (Some (mkResult None None None
                  (map (fun e : Z * list DAMONSnapshot =>
                          (fst e,
                           rechained None (take (Z.to_nat n) (snd e))))
                     (target_snapshots result))))
         (Some (File.mk (bytes ++ junk) (length (bytes ++ junk)) true))
         (Some v) None).
Proof.
  intros Hw Hn Hn1 Hnd Hfiled Hjunk.
  rewrite (decode_written result v n bytes junk fmt_version Hw Hn Hjunk).
  destruct (write_damon_record_shape _ _ _ _ Hw Hn)
    as (vb & body & _ & _ & Hbody).
  apply write_rounds in Hbody as [_ Hlen].
  destruct (Z.to_nat n) as [|m] eqn:Hm; [lia|].
  by rewrite (replay_write_order _ m Hnd Hfiled Hlen).
Qed.

Lemma binary_round_trip_witness :
  exists bytes,
    write_damon_record MoreExamples.two_by_two 2 = Py.Ok bytes
    /\ record_to_damon_result (bytes ++ []) None None None
       = Py.Ok
           (mkDecoded
              (Some (mkResult None None None
                       (map (fun e : Z * list DAMONSnapshot =>
                               (fst e,
                                rechained None (take (Z.to_nat 2) (snd e))))
                          (target_snapshots MoreExamples.two_by_two))))
              (Some (File.mk (bytes ++ []) (length (bytes ++ [])) true))
              (Some 2) None).
Proof.
  eexists. split; [vm_compute; reflexivity|].
  apply (binary_round_trip MoreExamples.two_by_two 2 2 _ [] None).
  - vm_compute. reflexivity.
  - reflexivity.
  - lia.
  - simpl. apply NoDup_cons. split; [|apply NoDup_singleton].
    intros H. apply list_elem_of_singleton in H. discriminate H.
  - simpl. repeat constructor.
  - simpl. lia.
Defined.

(** *** What a decoded result looks like *)

Lemma read_unpack_range (fmt : Struct.format) (f f' : File.t) (v : Z) :
  read_unpack fmt f = Py.Ok (v, f') ->
  Struct.min_value fmt <= v <= Struct.max_value fmt.
Proof.
  unfold read_unpack. destruct (File.read _ f) as [bs f1].
  destruct (Struct.unpack fmt bs) as [u|] eqn:Hu; cbn [Py.bind]; [|done].
  intros [= <- _]. by eapply unpack_range.
Qed.

Lemma read_regions_decoded (n : nat) :
  forall f acc rs f',
    read_regions n f acc = Py.Ok (rs, f') ->
    Forall decoded_region acc -> Forall decoded_region rs.
Proof.
  induction n as [|n IH]; intros f acc rs f' Hrun Hacc;
    cbn [read_regions] in Hrun.
  - by injection Hrun as <- _.
  - destruct (read_unpack Struct.fmt_L f) as [[a f1]|] eqn:H1;
      cbn [Py.bind] in Hrun; [|done].
    destruct (read_unpack Struct.fmt_L f1) as [[b f2]|] eqn:H2;
      cbn [Py.bind] in Hrun; [|done].
    destruct (read_unpack Struct.fmt_I f2) as [[c f3]|] eqn:H3;
      cbn [Py.bind] in Hrun; [|done].
    apply read_unpack_range in H1, H2, H3.
    eapply IH; [exact Hrun|]. apply Forall_app. split; [done|].
    constructor; [|constructor].
    change (Struct.min_value Struct.fmt_L) with 0 in H1, H2.
    change (Struct.max_value Struct.fmt_L) with (2 ^ 64 - 1) in H1, H2.
    change (Struct.min_value Struct.fmt_I) with 0 in H3.
    change (Struct.max_value Struct.fmt_I) with (2 ^ 32 - 1) in H3.
    unfold decoded_region. cbn [age start end_ nr_accesses].
    repeat split; lia.
Qed.

Lemma append_snapshot_decoded (tid : Z) (x : DAMONSnapshot) (ts : targets) :
  decoded_targets ts -> decoded_snapshot tid x ->
  decoded_targets (append_snapshot tid x ts).
Proof.
  unfold decoded_targets.
  induction ts as [|[k l] ts IH]; intros Hts Hx; cbn [append_snapshot].
  - constructor; [|constructor]. cbn [fst snd]. by constructor.
  - inversion Hts as [|? ? Hl Hrest]; subst. cbn [fst snd] in Hl.
    destruct (Z.eqb_spec k tid) as [->|_].
    + constructor; [|done]. cbn [fst snd]. apply Forall_app. split; [done|].
      by constructor.
    + constructor; [done|]. by apply IH.
Qed.

Lemma read_tasks_decoded (n : nat) (fmt_version end_time : Z) :
  forall f ts ts' f',
    read_tasks n fmt_version end_time f ts = Py.Ok (ts', f') ->
    decoded_targets ts -> decoded_targets ts'.
Proof.
  induction n as [|n IH]; intros f ts ts' f' Hrun Hts;
    cbn [read_tasks] in Hrun.
  - by injection Hrun as <- _.
  - destruct (if fmt_version =? 1 then _ else _) as [[tid f1]|];
      cbn [Py.bind] in Hrun; [|done].
    destruct (read_unpack Struct.fmt_I f1) as [[nr_regions f2]|];
      cbn [Py.bind] in Hrun; [|done].
    destruct (read_regions _ f2 []) as [[rs f3]|] eqn:Hrs;
      cbn [Py.bind] in Hrun; [|done].
    eapply IH; [exact Hrun|]. apply append_snapshot_decoded; [done|].
    split; [done|]. split; [by eexists|]. cbn [regions].
    eapply read_regions_decoded; [exact Hrs | constructor].
Qed.

Lemma record_loop_decoded (fuel : nat) (fmt_version : Z) (max_secs : option Z) :
  forall f parse_start_time ts ts' f',
    record_loop fuel fmt_version max_secs f parse_start_time ts
    = Py.Ok (ts', f') ->
    decoded_targets ts -> decoded_targets ts'.
Proof.
  induction fuel as [|fuel IH]; intros f pst ts ts' f' Hrun Hts;
    cbn [record_loop] in Hrun.
  - by injection Hrun as <- _.
  - destruct (File.read 16 f) as [timebin f1].
    destruct (negb (length timebin =? 16)%nat).
    { by injection Hrun as <- _. }
    destruct (Struct.unpack Struct.fmt_l (take 8 timebin)) as [sec|];
      cbn [Py.bind] in Hrun; [|done].
    destruct (Struct.unpack Struct.fmt_l (take 8 (drop 8 timebin))) as [nsec|];
      cbn [Py.bind] in Hrun; [|done].
    destruct (unset pst).
    + destruct (read_unpack Struct.fmt_I f1) as [[nr_tasks f2]|];
        cbn [Py.bind] in Hrun; [|done].
      destruct (read_tasks _ _ _ f2 ts) as [[ts1 f3]|] eqn:Ht;
        cbn [Py.bind] in Hrun; [|done].
      eapply IH; [exact Hrun|]. eapply read_tasks_decoded; eauto.
    + destruct (over_budget max_secs pst _).
      { by injection Hrun as <- _. }
      destruct (read_unpack Struct.fmt_I f1) as [[nr_tasks f2]|];
        cbn [Py.bind] in Hrun; [|done].
      destruct (read_tasks _ _ _ f2 ts) as [[ts1 f3]|] eqn:Ht;
        cbn [Py.bind] in Hrun; [|done].
      eapply IH; [exact Hrun|]. eapply read_tasks_decoded; eauto.
Qed.

Lemma decode_records_decoded (f : File.t) (v : Z) (max_secs : option Z)
  (d : decoded) (r : DAMONResult) :
  decode_records f v max_secs = Py.Ok d -> d_result d = Some r ->
  decoded_targets (target_snapshots r).
Proof.
  unfold decode_records. intros Hrun Hr.
  destruct (record_loop _ v max_secs f None []) as [[ts f']|] eqn:Hloop;
    cbn [Py.bind] in Hrun; [|done].
  injection Hrun as <-. cbn [d_result] in Hr. injection Hr as <-.
  cbn [target_snapshots].
  eapply record_loop_decoded; [exact Hloop | constructor].
Qed.

Lemma decoded_region_not_fake (x : DAMONRegion) :
  decoded_region x -> is_fake_region x = false.
Proof.
  intros (Hage & _). unfold is_fake_region. rewrite Hage.
  by rewrite andb_false_r.
Qed.

(** X7.  Whatever bytes the file holds, when [record_to_damon_result]
    returns a result, every snapshot in it is filed under its own target
    id and has an integer end time, and every region has no age, start and
    end addresses in [0, 2^64) and an access count in [0, 2^32).  So no
    region of a decoded binary file is the fake region
    [DAMONRegion(0, 0, -1, -1)] that [parse_damon_result_for] looks for. *)
Theorem decoded_shape (contents : list byte) (f : option File.t)
  (fmt_version max_secs : option Z) (d : decoded) (r : DAMONResult) :
  record_to_damon_result contents f fmt_version max_secs = Py.Ok d ->
  d_result d = Some r ->
  Forall (fun e : Z * list DAMONSnapshot =>
            Forall (fun s =>
                      target_id s = fst e
                      /\ (exists z, end_time s = Py.Int z)
                      /\ Forall (fun x =>
                                   age x = None
                                   /\ 0 <= start x < 2 ^ 64
                                   /\ 0 <= end_ x < 2 ^ 64
                                   /\ 0 <= nr_accesses x < 2 ^ 32
                                   /\ is_fake_region x = false)
                           (regions s))
              (snd e))
    (target_snapshots r).
Proof.
  intros Hrun Hr.
  assert (decoded_targets (target_snapshots r)) as Hdec.
  { unfold record_to_damon_result in Hrun. destruct f as [f|].
    - destruct (no_version fmt_version).
      + injection Hrun as <-. done.
      + eapply decode_records_decoded; eauto.
    - destruct (File.read 16 (File.open contents)) as [mark f1].
      destruct (bytes_eqb mark magic).
      + destruct (read_unpack Struct.fmt_i f1) as [[v f2]|];
          cbn [Py.bind] in Hrun; [|done].
        eapply decode_records_decoded; eauto.
      + eapply decode_records_decoded; eauto. }
  eapply Forall_impl; [exact Hdec|]. intros e He. cbn beta in He.
  eapply Forall_impl; [exact He|]. intros s (Hid & Hend & Hrs).
  split; [done|]. split; [done|].
  eapply Forall_impl; [exact Hrs|]. intros x Hx.
  pose proof (decoded_region_not_fake x Hx) as Hfake.
  destruct Hx as (? & ? & ? & ?). done.
Qed.

Lemma decoded_shape_witness :
  Forall (fun e : Z * list DAMONSnapshot =>
            Forall (fun s =>
                      target_id s = fst e
                      /\ (exists z, end_time s = Py.Int z)
                      /\ Forall (fun x =>
                                   age x = None
                                   /\ 0 <= start x < 2 ^ 64
                                   /\ 0 <= end_ x < 2 ^ 64
                                   /\ 0 <= nr_accesses x < 2 ^ 32
                                   /\ is_fake_region x = false)
                           (regions s))
              (snd e))
    (target_snapshots MoreExamples.two_by_two_decoded).
Proof.
  apply (decoded_shape MoreExamples.two_by_two_file None None None
           (mkDecoded (Some MoreExamples.two_by_two_decoded)
              (Some (File.mk MoreExamples.two_by_two_file
                       (length MoreExamples.two_by_two_file) true))
              (Some 2) None)).
  - vm_compute. reflexivity.
  - reflexivity.
Defined.

(** *** Files that end early *)

Lemma short_is_not_magic (contents : list byte) :
  (length contents < 16)%nat -> bytes_eqb contents magic = false.
Proof.
  intros Hlen. apply bytes_eqb_neq. intros ->.
  rewrite magic_length in Hlen. lia.
Qed.

(** X8.  A file of fewer than 16 bytes, whatever they are, is decoded
    without an error as a result with no target, in format version 0; the
    stream has read all of it, and is closed when no time limit was
    given. *)
Theorem short_file_is_empty (contents : list byte)
  (fmt_version max_secs : option Z) :
  (length contents < 16)%nat ->
  record_to_damon_result contents None fmt_version max_secs
  = Py.Ok
      (mkDecoded (Some new_result)
         (Some (File.mk contents (length contents)
                  (match max_secs with None => true | Some _ => false end)))
         (Some 0) None).
Proof.
  intros Hlen.
  destruct (read_rest 16 (File.open contents) contents (at_open contents))
    as (f1 & R1 & A1); [lia|].
  unfold record_to_damon_result. rewrite R1.
  rewrite (short_is_not_magic contents Hlen).
  assert (File.rewind f1 = File.open contents) as ->.
  { destruct A1 as (_ & Hd & Hc). unfold File.rewind. by rewrite Hd, Hc. }
  unfold decode_records. cbn [record_loop]. rewrite R1.
  destruct (Nat.eqb_spec (length contents) 16) as [E|_]; [lia|].
  cbn [negb Py.bind mret res_ret]. unfold new_result.
  destruct max_secs as [m|].
  - destruct A1 as ((pre & Hd & Hp) & Hdata & Hc).
    destruct f1 as [d p c].
    cbn [File.open File.data File.pos File.closed] in Hd, Hp, Hdata, Hc.
    rewrite app_nil_r in Hd. by subst.
  - by rewrite (read_to_the_end contents f1 A1).
Qed.

Lemma short_file_is_empty_witness :
  record_to_damon_result (Struct.le_bytes 8 100) None None None
  = Py.Ok
      (mkDecoded (Some new_result)
         (Some (File.mk (Struct.le_bytes 8 100)
                  (length (Struct.le_bytes 8 100)) true))
         (Some 0) None).
Proof.
  apply (short_file_is_empty (Struct.le_bytes 8 100) None None).
  simpl. lia.
Defined.

(** X9.  A file of 16 to 19 bytes that does not start with the magic
    literal holds a time stamp and less than the 4 bytes of the task count
    that must follow it: the decoder raises [struct.error], where a file
    that stops inside the time stamp is accepted. *)
Theorem truncated_record_raises (contents : list byte)
  (fmt_version max_secs : option Z) :
  take 16 contents <> magic ->
  (16 <= length contents < 20)%nat ->
  record_to_damon_result contents None fmt_version max_secs
  = Py.Err Py.StructError.
Proof.
  intros Hmagic [Hlo Hhi].
  unfold record_to_damon_result, File.open. rewrite read_mk, drop_0.
  rewrite (bytes_eqb_neq _ _ Hmagic).
  unfold File.rewind, decode_records. cbn [File.data File.pos File.closed].
  cbn [record_loop]. rewrite read_mk, drop_0.
  assert (length (take 16 contents) = 16%nat) as Hlen
    by (rewrite length_take; lia).
  rewrite Hlen. cbn [Nat.eqb negb Nat.add].
  unfold Struct.unpack at 1.
  assert (length (take 8 (take 16 contents)) = 8%nat) as ->
    by (rewrite length_take; lia).
  cbn [Struct.size Nat.eqb Py.bind].
  unfold Struct.unpack at 1.
  assert (length (take 8 (drop 8 (take 16 contents))) = 8%nat) as ->
    by (rewrite length_take, length_drop; lia).
  cbn [Struct.size Nat.eqb Py.bind unset].
  unfold read_unpack. rewrite read_mk.
  unfold Struct.unpack.
  destruct (Nat.eqb_spec (length (take (Struct.size Struct.fmt_I)
                                    (drop 16 contents)))
              (Struct.size Struct.fmt_I)) as [E|_]; [|done].
  rewrite length_take, length_drop in E.
  change (Struct.size Struct.fmt_I) with 4%nat in E. lia.
Qed.

Lemma truncated_record_raises_witness :
  record_to_damon_result (Struct.le_bytes 8 0 ++ Struct.le_bytes 8 100)
    None None None
  = Py.Err Py.StructError.
Proof.
  apply (truncated_record_raises (Struct.le_bytes 8 0 ++ Struct.le_bytes 8 100)
           None None).
  - vm_compute. discriminate.
  - simpl. lia.
Defined.

(** *** Writing a target that has a single snapshot *)

Lemma write_all_ok {A : Type} (w : A -> Py.res (list byte)) (xs : list A) :
  forall bs,
    write_all w xs = Py.Ok bs -> forall x, In x xs -> Py.is_ok (w x) = true.
Proof.
  induction xs as [|y xs IH]; intros bs Hw x Hin; [destruct Hin|].
  cbn [write_all] in Hw.
  destruct (w y) as [b|] eqn:Hb; cbn [Py.bind] in Hw; [|done].
  destruct (write_all w xs) as [bs'|]; cbn [Py.bind] in Hw; [|done].
  destruct Hin as [<-|Hin]; [by rewrite Hb | by eapply IH].
Qed.

Lemma fake_region_not_written :
  write_all write_region [fake_region] = Py.Err Py.StructError.
Proof. reflexivity. Qed.

Lemma fake_snapshot_not_written (v : Z) (x : DAMONSnapshot) :
  regions x = [fake_region] -> Py.is_ok (write_snapshot v x) = false.
Proof.
  intros Hx. unfold write_snapshot. rewrite Hx, fake_region_not_written.
  destruct (Struct.pack_num _ _); cbn [Py.bind]; [|done].
  destruct (Struct.pack_num _ _); cbn [Py.bind]; [|done].
  destruct (Struct.pack Struct.fmt_I 1); cbn [Py.bind]; [|done].
  destruct (if v =? 1 then _ else _); cbn [Py.bind]; [|done].
  destruct (Struct.pack Struct.fmt_I _); cbn [Py.bind]; done.
Qed.

(** What the first loop of [write_damon_result] does to a target with a
    single snapshot and to the number of snapshots. *)
Lemma add_fake_snapshots_single (ts : targets) :
  forall nr ts' nr' tid s,
    add_fake_snapshots ts nr = Py.Ok (ts', nr') ->
    In (tid, [s]) ts ->
    exists fake, In (tid, [s; fake]) ts' /\ regions fake = [fake_region].
Proof.
  induction ts as [|[k l] ts IH]; intros nr ts' nr' tid s Hrun Hin;
    [destruct Hin|].
  cbn [add_fake_snapshots] in Hrun.
  destruct l as [|x [|y l]].
  - bind_ok Hrun p Hp. destruct p as [rest n1]. injection Hrun as <- <-.
    destruct Hin as [Heq|Hin]; [discriminate Heq|].
    destruct (IH _ _ _ _ _ Hp Hin) as (fake & Hf & Hr).
    exists fake. split; [by right | done].
  - destruct (start_time x) as [st|]; [|discriminate Hrun].
    destruct nr as [n|]; [|discriminate Hrun].
    bind_ok Hrun p Hp. destruct p as [rest n1]. injection Hrun as <- <-.
    destruct Hin as [Heq|Hin].
    + injection Heq as <- <-. eexists. split; [by left | done].
    + destruct (IH _ _ _ _ _ Hp Hin) as (fake & Hf & Hr).
      exists fake. split; [by right | done].
  - bind_ok Hrun p Hp. destruct p as [rest n1]. injection Hrun as <- <-.
    destruct Hin as [Heq|Hin]; [discriminate Heq|].
    destruct (IH _ _ _ _ _ Hp Hin) as (fake & Hf & Hr).
    exists fake. split; [by right | done].
Qed.

Lemma add_fake_snapshots_count (ts : targets) :
  forall nr ts' nr',
    add_fake_snapshots ts nr = Py.Ok (ts', nr') ->
    match nr with
    | None => nr' = None
    | Some n =>
        exists n',
          nr' = Some n' /\ n <= n'
          /\ (forall tid s, In (tid, [s]) ts -> n + 1 <= n')
    end.
Proof.
  induction ts as [|[k l] ts IH]; intros nr ts' nr' Hrun.
  - injection Hrun as <- <-. destruct nr as [n|]; [|done].
    exists n. split; [done|]. split; [lia|]. intros ? ? [].
  - cbn [add_fake_snapshots] in Hrun.
    destruct l as [|x [|y l]].
    + bind_ok Hrun p Hp. destruct p as [rest n1]. injection Hrun as <- <-.
      specialize (IH _ _ _ Hp). destruct nr as [n|]; [|done].
      destruct IH as (n' & -> & Hle & Hall). exists n'.
      split; [done|]. split; [done|].
      intros tid s [Heq|Hin]; [discriminate Heq | eauto].
    + destruct (start_time x) as [st|]; [|discriminate Hrun].
      destruct nr as [n|]; [|discriminate Hrun].
      bind_ok Hrun p Hp. destruct p as [rest n1]. injection Hrun as <- <-.
      specialize (IH _ _ _ Hp). cbn beta iota in IH.
      destruct IH as (n' & -> & Hle & Hall). exists n'.
      split; [done|]. split; [lia|]. intros; lia.
    + bind_ok Hrun p Hp. destruct p as [rest n1]. injection Hrun as <- <-.
      specialize (IH _ _ _ Hp). destruct nr as [n|]; [|done].
      destruct IH as (n' & -> & Hle & Hall). exists n'.
      split; [done|]. split; [done|].
      intros tid s [Heq|Hin]; [discriminate Heq | eauto].
Qed.

(** X10.  [write_damon_result] never writes a binary record of a result in
    which some target has exactly one snapshot, when [nr_snapshots] is not
    set or is at least 1: either the fake snapshot cannot be built (no
    start time, or no [nr_snapshots]), or an earlier snapshot cannot be
    written, or the fake snapshot is reached and its access count of -1 is
    refused by [struct.pack('I', ...)]. *)
Theorem single_snapshot_never_written (result : DAMONResult) (tid : Z)
  (s : DAMONSnapshot) :
  In (tid, [s]) (target_snapshots result) ->
  (forall n, nr_snapshots result = Some n -> 1 <= n) ->
  Py.is_ok (write_damon_result result) = false.
Proof.
  intros Hin Hn. unfold write_damon_result.
  destruct (add_fake_snapshots _ _) as [[ts' nr']|] eqn:Hfake;
    cbn [Py.bind]; [|done].
  destruct (add_fake_snapshots_single _ _ _ _ _ _ Hfake Hin)
    as (fake & Hf & Hregions).
  apply add_fake_snapshots_count in Hfake.
  unfold write_damon_record. cbn [nr_snapshots target_snapshots].
  destruct (Struct.pack Struct.fmt_i 2) as [vb|]; cbn [Py.bind]; [|done].
  destruct (nr_snapshots result) as [n|].
  - destruct Hfake as (n' & -> & _ & Hall).
    specialize (Hall _ _ Hin). specialize (Hn n eq_refl).
    destruct (write_all _ (seq 0 (Z.to_nat n'))) as [body|] eqn:Hbody;
      cbn [Py.bind]; [exfalso|done].
    assert (In 1%nat (seq 0 (Z.to_nat n'))) as H1 by (apply in_seq; lia).
    pose proof (write_all_ok _ _ _ Hbody _ H1) as Hidx.
    unfold write_index in Hidx.
    destruct (write_all _ ts') as [b|] eqn:Hb; [|discriminate Hidx].
    pose proof (write_all_ok _ _ _ Hb _ Hf) as Hs.
    cbn [snd lookup list_lookup] in Hs.
    by rewrite (fake_snapshot_not_written 2 fake Hregions) in Hs.
  - by rewrite Hfake.
Qed.

Lemma single_snapshot_never_written_witness :
  Py.is_ok (write_damon_result Examples.single_result) = false.
Proof.
  apply (single_snapshot_never_written Examples.single_result 1
           Examples.single_snapshot).
  - by left.
  - simpl. intros n [= <-]. lia.
Defined.

(** *** Decoding under a time limit *)

(** Where a stream is after it has read [bs]. *)
Lemma advanced_pos (f f' : File.t) (bs rest : list byte) :
  at_ f (bs ++ rest) -> advanced f f' rest ->
  f' = File.mk (File.data f) (File.pos f + length bs) (File.closed f).
Proof.
  intros (pre & Hd & Hp) ((pre' & Hd' & Hp') & Hdata & Hclosed).
  destruct f' as [d p c].
  cbn [File.data File.pos File.closed] in Hd', Hp', Hdata, Hclosed.
  rewrite Hdata, Hd, app_assoc in Hd'. apply app_inv_tail in Hd'.
  rewrite Hdata, Hclosed, Hp', <- Hd', length_app, Hp. done.
Qed.

(** One round of the record loop, with or without a time limit. *)
Lemma record_round_limit (fuel : nat) (v : Z) (max_secs : option Z)
  (s : DAMONSnapshot) (z : Z) (bs : list byte) (f : File.t)
  (rest : list byte) (pst : option Z) (ts : targets) :
  write_snapshot v s = Py.Ok bs -> at_ f (bs ++ rest) ->
  end_time s = Py.Int z ->
  exists f',
    advanced f f' rest
    /\ record_loop (S fuel) v max_secs f pst ts
       = if unset pst
         then record_loop fuel v max_secs f' (Some z) (replay_one ts s)
         else if over_budget max_secs pst z then Py.Ok (ts, f)
              else record_loop fuel v max_secs f' pst (replay_one ts s).
Proof.
  intros Hw Hat Hend. unfold write_snapshot in Hw. rewrite Hend in Hw.
  cbn [floordiv modulo Struct.pack_num] in Hw.
  bind_ok Hw b1 H1. bind_ok Hw b2 H2. bind_ok Hw b3 H3. bind_ok Hw b4 H4.
  bind_ok Hw b5 H5. bind_ok Hw b6 H6. injection Hw as <-.
  destruct (unpack_pack _ _ _ H1) as [U1 L1].
  destruct (unpack_pack _ _ _ H2) as [U2 L2].
  change (Struct.size Struct.fmt_l) with 8%nat in L1, L2.
  replace (b1 ++ b2 ++ b3 ++ b4 ++ b5 ++ b6)
    with ((b1 ++ b2) ++ b3 ++ b4 ++ b5 ++ b6) in Hat
    by (by rewrite <- !app_assoc).
  rewrite <- (app_assoc (b1 ++ b2)) in Hat.
  destruct (read_at _ _ _ Hat) as (f1 & R0 & A0).
  pose proof (advanced_pos _ _ _ _ Hat A0) as Hf1.
  rewrite length_app, L1, L2 in R0, Hf1.
  change (8 + 8)%nat with 16%nat in R0, Hf1.
  rewrite <- !app_assoc in A0.
  destruct (read_unpack_at _ _ _ _ _ H3 (proj1 A0)) as (f2 & R3 & A3).
  assert (exists f3,
             (if v =? 1 then read_unpack Struct.fmt_i f2
              else read_unpack Struct.fmt_L f2) = Py.Ok (target_id s, f3)
             /\ advanced f2 f3 (b5 ++ b6 ++ rest)) as (f3 & R4 & A4).
  { destruct (v =? 1); eapply read_unpack_at; eauto; apply A3. }
  destruct (read_unpack_at _ _ _ _ _ H5 (proj1 A4)) as (f4 & R5 & A5).
  destruct (read_regions_at _ _ _ _ [] H6 (proj1 A5)) as (f5 & R6 & A6).
  assert (z / 1000000000 * 1000000000 + z mod 1000000000 = z) as Hz
    by (pose proof (Z.div_mod z 1000000000); lia).
  assert (forall pst',
    Py.bind (read_unpack Struct.fmt_I f1)
      (fun '(nr_tasks, f2) =>
         Py.bind (read_tasks (Z.to_nat nr_tasks) v
                    (z / 1000000000 * 1000000000 + z mod 1000000000) f2 ts)
           (fun '(ts', f3) => record_loop fuel v max_secs f3 pst' ts'))
    = record_loop fuel v max_secs f5 pst' (replay_one ts s)) as Hstep.
  { intros pst'. rewrite R3. cbn [Py.bind].
    change (Z.to_nat 1) with 1%nat. cbn [read_tasks].
    rewrite R4. cbn [Py.bind]. rewrite R5. cbn [Py.bind].
    rewrite Nat2Z.id, R6. cbn [Py.bind mret res_ret app].
    unfold replay_one. by rewrite Hend, Hz. }
  exists f5. split; [eauto 10 using advanced_trans|].
  cbn [record_loop]. rewrite R0.
  rewrite length_app, L1, L2. cbn [Nat.add Nat.eqb negb].
  rewrite (take_app_length' b1 b2 8 (eq_sym L1)).
  rewrite (drop_app_length' b1 b2 8 (eq_sym L1)).
  rewrite (take_ge b2 8) by lia. rewrite U1. cbn [Py.bind].
  rewrite U2. cbn [Py.bind].
  rewrite Hz in Hstep. rewrite Hz.
  destruct (unset pst).
  - apply Hstep.
  - destruct (over_budget max_secs pst z).
    + cbn [mret res_ret]. f_equal. f_equal. rewrite Hf1.
      unfold File.seek_back. cbn [File.data File.pos File.closed].
      destruct f as [d p c]. cbn [File.data File.pos File.closed].
      f_equal. lia.
    + apply Hstep.
Qed.

(** The rounds on the records that are within the limit. *)
Lemma record_loop_within (v m t0 : Z) (written : list DAMONSnapshot) :
  forall body f rest ts,
    write_all (write_snapshot v) written = Py.Ok body ->
    at_ f (body ++ rest) ->
    t0 <> 0 ->
    Forall (fun x => exists e,
                end_time x = Py.Int e /\ e - t0 <= m * 1000000000) written ->
    exists f',
      advanced f f' rest
      /\ forall k,
           record_loop (length written + k) v (Some m) f (Some t0) ts
           = record_loop k v (Some m) f' (Some t0) (replay written ts).
Proof.
  induction written as [|s written IH]; intros body f rest ts Hw Hat Ht0 Hall.
  - injection Hw as <-. exists f. split; [by split|]. done.
  - cbn [write_all] in Hw. bind_ok Hw b Hb. bind_ok Hw bs Hbs.
    injection Hw as <-. rewrite <- app_assoc in Hat.
    inversion Hall as [|? ? (e & He & Hle) Hall']; subst.
    assert (forall fuel,
               exists f1,
                 advanced f f1 (bs ++ rest)
                 /\ record_loop (S fuel) v (Some m) f (Some t0) ts
                    = record_loop fuel v (Some m) f1 (Some t0)
                        (replay_one ts s)) as Hround.
    { intros fuel.
      destruct (record_round_limit fuel v (Some m) s e b f (bs ++ rest)
                  (Some t0) ts Hb Hat He) as (f1 & A1 & Hr).
      exists f1. split; [done|]. rewrite Hr. cbn [unset over_budget].
      destruct (Z.eqb_spec t0 0) as [|_]; [done|].
      destruct (Z.ltb_spec (m * 1000000000) (e - t0)); [lia | done]. }
    destruct (Hround 0%nat) as (f1 & A1 & _).
    destruct (IH bs f1 rest (replay_one ts s) eq_refl (proj1 A1) Ht0 Hall')
      as (f2 & A2 & Hloop).
    exists f2. split; [eauto using advanced_trans|].
    intros k. cbn [length Nat.add].
    destruct (Hround (length written + k)%nat) as (f1' & A1' & ->).
    assert (f1' = f1) as ->.
    { rewrite (advanced_pos _ _ _ _ Hat A1).
      by rewrite (advanced_pos _ _ _ _ Hat A1'). }
    apply Hloop.
Qed.

(** X11.  Decoding under a time limit stops in front of the first record
    that is too late.  Let a stream that comes with its format version
    stand in front of the records of the snapshots [s0], then [w], then
    [s], where [s0] ends at [t0] (not zero), every snapshot of [w] ends no
    later than [max_secs] seconds after [t0], and [s] ends later than
    that.  Then [record_to_damon_result] returns the snapshots [s0] and
    [w], decoded as they are without a limit, and the stream, still open,
    in front of the record of [s], which the next call reads first. *)
Theorem time_limit_stops (contents : list byte) (f : File.t)
  (v max_secs t0 e : Z) (s0 s : DAMONSnapshot) (w : list DAMONSnapshot)
  (pre b0 bw bs rest : list byte) :
  v <> 0 ->
  write_snapshot v s0 = Py.Ok b0 ->
  write_all (write_snapshot v) w = Py.Ok bw ->
  write_snapshot v s = Py.Ok bs ->
  File.data f = pre ++ b0 ++ bw ++ bs ++ rest ->
  File.pos f = length pre ->
  end_time s0 = Py.Int t0 ->
  t0 <> 0 ->
  Forall (fun x => exists e',
              end_time x = Py.Int e' /\ e' - t0 <= max_secs * 1000000000) w ->
  end_time s = Py.Int e ->
  max_secs * 1000000000 < e - t0 ->
  record_to_damon_result contents (Some f) (Some v) (Some max_secs)
  = Py.Ok
      (mkDecoded
         (Some (mkResult None None None (replay (s0 :: w) [])))
         (Some (File.mk (File.data f) (File.pos f + length (b0 ++ bw))
                  (File.closed f)))
         (Some v) None).
Proof.
  intros Hv H0 Hw Hs Hdata Hpos Hend0 Ht0 Hall Hend Hlate.
  assert (at_ f (b0 ++ bw ++ bs ++ rest)) as Hat by (by exists pre).
  unfold record_to_damon_result. cbn [no_version default]. unfold id.
  destruct (Z.eqb_spec v 0) as [|_]; [done|].
  unfold decode_records.
  assert (exists k, S (File.remaining f) = S (length w + S k)) as [k ->].
  { exists (File.remaining f - length w - 1)%nat. unfold File.remaining.
    rewrite Hdata, Hpos, !length_app.
    apply write_snapshot_length in H0, Hs. apply write_all_length in Hw.
    lia. }
  destruct (record_round_limit (length w + S k) v (Some max_secs) s0 t0 b0 f
              (bw ++ bs ++ rest) None [] H0 Hat Hend0) as (f1 & A1 & ->).
  cbn [unset].
  destruct (record_loop_within v max_secs t0 w bw f1 (bs ++ rest)
              (replay_one [] s0) Hw (proj1 A1) Ht0 Hall) as (f2 & A2 & ->).
  destruct (record_round_limit k v (Some max_secs) s e bs f2 rest (Some t0)
              (replay w (replay_one [] s0)) Hs (proj1 A2) Hend)
    as (f3 & _ & ->).
  cbn [unset over_budget].
  destruct (Z.eqb_spec t0 0) as [|_]; [done|].
  destruct (Z.ltb_spec (max_secs * 1000000000) (e - t0)) as [_|]; [|lia].
  cbn [Py.bind mret res_ret]. f_equal. f_equal. f_equal.
  rewrite app_assoc in Hat.
  apply (advanced_pos f f2 (b0 ++ bw) (bs ++ rest) Hat).
  eauto using advanced_trans.
Qed.

(** The file of the two targets with two snapshots each, read with a limit
    of 0 seconds from behind its header: the two snapshots that end at the
    first time stamp are returned, and the stream stands at offset 104, in
    front of the third record. *)
Lemma time_limit_stops_witness :
  record_to_damon_result []
    (Some (File.mk MoreExamples.two_by_two_file 20 false)) (Some 2) (Some 0)
  = Py.Ok
      (mkDecoded
         (Some (mkResult None None None
                  [(1, [mkSnapshot None (Py.Int 1000000000) 1
                          [mkRegion 100 200 3 None]]);
                   (2, [mkSnapshot None (Py.Int 1000000000) 2 []])]))
         (Some (File.mk MoreExamples.two_by_two_file 104 false))
         (Some 2) None).
Proof.
  apply (time_limit_stops [] (File.mk MoreExamples.two_by_two_file 20 false)
           2 0 1000000000 2000000000
           (mkSnapshot (Some (Py.Int 0)) (Py.Int 1000000000) 1
              [mkRegion 100 200 3 (Some 5)])
           (mkSnapshot (Some (Py.Int 1000000000)) (Py.Int 2000000000) 1
              [mkRegion 100 200 4 (Some 6)])
           [mkSnapshot (Some (Py.Int 0)) (Py.Int 1000000000) 2 []]
           (magic ++ Struct.le_bytes 4 2)
           (Struct.le_bytes 8 1 ++ Struct.le_bytes 8 0 ++ Struct.le_bytes 4 1
            ++ Struct.le_bytes 8 1 ++ Struct.le_bytes 4 1
            ++ Struct.le_bytes 8 100 ++ Struct.le_bytes 8 200
            ++ Struct.le_bytes 4 3)
           (Struct.le_bytes 8 1 ++ Struct.le_bytes 8 0 ++ Struct.le_bytes 4 1
            ++ Struct.le_bytes 8 2 ++ Struct.le_bytes 4 0)
           (Struct.le_bytes 8 2 ++ Struct.le_bytes 8 0 ++ Struct.le_bytes 4 1
            ++ Struct.le_bytes 8 1 ++ Struct.le_bytes 4 1
            ++ Struct.le_bytes 8 100 ++ Struct.le_bytes 8 200
            ++ Struct.le_bytes 4 4)
           (Struct.le_bytes 8 2 ++ Struct.le_bytes 8 0 ++ Struct.le_bytes 4 1
            ++ Struct.le_bytes 8 2 ++ Struct.le_bytes 4 2
            ++ Struct.le_bytes 8 0 ++ Struct.le_bytes 8 4096
            ++ Struct.le_bytes 4 0
            ++ Struct.le_bytes 8 4096 ++ Struct.le_bytes 8 8192
            ++ Struct.le_bytes 4 1)).
  - lia.
  - vm_compute. reflexivity.
  - vm_compute. reflexivity.
  - vm_compute. reflexivity.
  - vm_compute. reflexivity.
  - reflexivity.
  - reflexivity.
  - lia.
  - constructor; [|constructor]. exists 1000000000. split; [reflexivity|lia].
  - reflexivity.
  - lia.
Defined.

End CodecMore.

(** ** More on access patterns, schemes and contexts *)

Module PatternMore.
Import DamosAccessPattern PatternProofs.

(** [__eq__] of access patterns is equality of all fields. *)
Lemma eq_true_iff (a b : t) : eq a b = true <-> a = b.
Proof.
  split.
  - unfold eq. rewrite !andb_true_iff, !Z.eqb_eq.
    rewrite nr_accesses_unit_eqb_eq, age_unit_eqb_eq.
    destruct a, b. simpl. intros [[[[[[[-> ->] ->] ->] ->] ->] ->] ->]. done.
  - intros ->. apply eq_refl_true.
Qed.

Lemma eq_sym (a b : t) : eq a b = eq b a.
Proof.
  destruct (eq a b) eqn:Hab, (eq b a) eqn:Hba; try done.
  - apply eq_true_iff in Hab. subst. by rewrite eq_refl_true in Hba.
  - apply eq_true_iff in Hba. subst. by rewrite eq_refl_true in Hab.
Qed.

(** The only exception a conversion raises is [ZeroDivisionError]. *)
Lemma true_div_cases (x y : Q) :
  (exists q, true_div x y = Py.Ok q)
  \/ true_div x y = Py.Err Py.ZeroDivisionError.
Proof. unfold true_div. destruct (Qeq_bool y 0); eauto. Qed.

Ltac div_cases :=
  repeat match goal with
         | |- context [true_div ?x ?y] =>
             destruct (true_div_cases x y) as [[? ->] | ->];
             cbn [Py.bind mret res_ret]
         end.

Lemma convert_nr_error (p : t) (u : nr_accesses_unit)
  (intervals : DamonIntervals.t) (e : Py.exn) :
  convert_nr_accesses_unit p u intervals = Py.Err e ->
  e = Py.ZeroDivisionError.
Proof.
  unfold convert_nr_accesses_unit.
  destruct (nr_accesses_unit_eqb _ _); [done|].
  destruct u; div_cases; unfold mret, res_ret; cbn [Py.bind]; congruence.
Qed.

Lemma convert_age_error (p : t) (u : age_unit) (intervals : DamonIntervals.t)
  (e : Py.exn) :
  convert_age_unit p u intervals = Py.Err e -> e = Py.ZeroDivisionError.
Proof.
  unfold convert_age_unit.
  destruct (age_unit_eqb _ _); [done|].
  destruct u; div_cases; unfold mret, res_ret; cbn [Py.bind]; congruence.
Qed.

Lemma converted_error (p : t) (u1 : nr_accesses_unit) (u2 : age_unit)
  (intervals : DamonIntervals.t) (e : Py.exn) :
  converted_for_units p u1 u2 intervals = Py.Err e ->
  e = Py.ZeroDivisionError.
Proof.
  unfold converted_for_units, convert_for_units.
  destruct (convert_nr_accesses_unit p u1 intervals) as [q|e1] eqn:Hq;
    cbn [Py.bind mret res_ret].
  - apply convert_age_error.
  - intros [= <-]. by eapply convert_nr_error.
Qed.

(** X12.  [effectively_equal] does not depend on the order of its two
    patterns, exceptions included, and is transitive: with a pattern [b]
    that is effectively equal to both [a] and [c] under an interval set,
    [a] is effectively equal to [c] under it. *)
Theorem effectively_equal_sym_trans (a b c : t) (intervals : DamonIntervals.t) :
  effectively_equal a b intervals = effectively_equal b a intervals
  /\ (effectively_equal a b intervals = Py.Ok true ->
      effectively_equal b c intervals = Py.Ok true ->
      effectively_equal a c intervals = Py.Ok true).
Proof.
  unfold effectively_equal.
  destruct (converted_for_units a _ _ intervals) as [a'|ea] eqn:Ha;
    destruct (converted_for_units b _ _ intervals) as [b'|eb] eqn:Hb;
    cbn [Py.bind mret res_ret].
  - split; [by rewrite eq_sym|].
    intros [= Hab].
    destruct (converted_for_units c _ _ intervals) as [c'|ec];
      cbn [Py.bind mret res_ret]; [|done].
    intros [= Hbc]. apply eq_true_iff in Hab, Hbc. subst.
    by rewrite eq_refl_true.
  - done.
  - done.
  - apply converted_error in Ha, Hb. by subst.
Qed.

Lemma effectively_equal_sym_trans_witness :
  effectively_equal
    (mk 0 10 5 10 unit_percent 0 100000 unit_usec)
    (mk 0 10 1 2 unit_sample_intervals 0 1 unit_aggr_intervals)
    (DamonIntervals.mk 5000 100000 1000000)
  = effectively_equal
      (mk 0 10 1 2 unit_sample_intervals 0 1 unit_aggr_intervals)
      (mk 0 10 5 10 unit_percent 0 100000 unit_usec)
      (DamonIntervals.mk 5000 100000 1000000)
  /\ effectively_equal
       (mk 0 10 5 10 unit_percent 0 100000 unit_usec)
       (mk 0 10 9 14 unit_percent 0 1 unit_aggr_intervals)
       (DamonIntervals.mk 5000 100000 1000000)
     = Py.Ok true.
Proof.
  destruct (effectively_equal_sym_trans
              (mk 0 10 5 10 unit_percent 0 100000 unit_usec)
              (mk 0 10 1 2 unit_sample_intervals 0 1 unit_aggr_intervals)
              (mk 0 10 9 14 unit_percent 0 1 unit_aggr_intervals)
              (DamonIntervals.mk 5000 100000 1000000)) as [Hsym Htrans].
  split; [exact Hsym|].
  apply Htrans; vm_compute; reflexivity.
Defined.

(** X13.  Two schemes that are equal under [Damos.__eq__] are effectively
    equal under every interval set with positive sampling and aggregation
    intervals. *)
Theorem equal_schemes_effectively_equal (x y : Damos.t)
  (intervals : DamonIntervals.t) :
  Damos.eq x y = true ->
  0 < DamonIntervals.sample intervals ->
  0 < DamonIntervals.aggr intervals ->
  Damos.effectively_equal x y intervals = Py.Ok true.
Proof.
  unfold Damos.eq. rewrite !andb_true_iff.
  intros [[[[[_ Hp] Ha] Hq] Hw] Hf] Hs Hg.
  apply eq_true_iff in Hp. unfold Damos.effectively_equal.
  rewrite <- Hp, (effectively_equal_refl _ _ Hs Hg).
  cbn [Py.bind mret res_ret andb]. by rewrite Ha, Hq, Hw, Hf.
Qed.

Lemma equal_schemes_effectively_equal_witness :
  Damos.effectively_equal Examples.scheme
    (Damos.mk "foo" (mk 0 10 5 8 unit_percent 54 88 unit_usec) "pageout"
       (DamosQuotas.mk 100 1024 1000 80 76 24)
       (DamosWatermarks.mk "free_mem_rate" 5000000 800 500 200)
       [DamosFilter.mk "baz" "anon" (Some "/a/b"%string) true]
       (Some (DamosStats.mk 1 4096 1 4096 0)) None)
    (DamonIntervals.mk 5000 100000 1000000)
  = Py.Ok true.
Proof.
  apply equal_schemes_effectively_equal.
  - vm_compute. reflexivity.
  - simpl. lia.
  - simpl. lia.
Defined.

(** *** Conversions that lose nothing *)

Section WholeSamples.

(** The aggregation interval holds [k] sampling intervals, and [k] divides
    100: every count of samples is a whole number of percent. *)
Variable intervals : DamonIntervals.t.
Variables k q : Z.
Hypothesis Hsample : 0 < DamonIntervals.sample intervals.
Hypothesis Haggr :
  DamonIntervals.aggr intervals = k * DamonIntervals.sample intervals.
Hypothesis Hk : 0 < k.
Hypothesis Hq : 100 = k * q.










End WholeSamples.



(** *** Intervals of zero *)

Lemma default_pattern_unit (F : FmtStr.t) (p : t) :
  default F = Py.Ok p -> nr_accesses_unit_ p = unit_percent.
Proof.
  unfold default, init. cbn [fst snd String.eqb Ascii.eqb Bool.eqb].
  destruct (FmtStr.text_to_bytes F _); cbn [Py.bind]; [|done].
  destruct (FmtStr.text_to_bytes F _); cbn [Py.bind]; [|done].
  destruct (FmtStr.text_to_percent F _); cbn [Py.bind]; [|done].
  destruct (FmtStr.text_to_percent F _); cbn [Py.bind mret res_ret]; [|done].
  destruct (FmtStr.text_to_us F _); cbn [Py.bind]; [|done].
  destruct (FmtStr.text_to_us F _); cbn [Py.bind mret res_ret]; [|done].
  by intros [= <-].
Qed.

Lemma default_scheme_unit (F : FmtStr.t) (d : Damos.t) :
  Damos.default F = Py.Ok d ->
  nr_accesses_unit_ (Damos.access_pattern d) = unit_percent.
Proof.
  unfold Damos.default, Damos.init.
  destruct (default F) as [ap|] eqn:Hap; cbn [Py.bind]; [|done].
  destruct (DamosQuotas.default F); cbn [Py.bind]; [|done].
  destruct (DamosWatermarks.default F); cbn [Py.bind mret res_ret]; [|done].
  intros [= <-]. cbn [Damos.access_pattern]. by eapply default_pattern_unit.
Qed.

(** X15.  With a sampling interval of zero, [is_monitoring_scheme] raises
    [ZeroDivisionError] for every scheme: the pattern of [Damos()] counts
    accesses in percent, and its conversion to sample intervals divides the
    aggregation interval by the sampling interval. *)
Theorem monitoring_check_divides_by_sample (F : FmtStr.t) (d scheme : Damos.t)
  (intervals : DamonIntervals.t) :
  Damos.default F = Py.Ok d ->
  DamonIntervals.sample intervals = 0 ->
  is_monitoring_scheme F scheme intervals = Py.Err Py.ZeroDivisionError.
Proof.
  intros Hd Hs. unfold is_monitoring_scheme. rewrite Hd. cbn [Py.bind].
  apply default_scheme_unit in Hd.
  unfold Damos.effectively_equal, effectively_equal, converted_for_units,
    convert_for_units, convert_nr_accesses_unit.
  rewrite Hd, Hs. reflexivity.
Qed.

Lemma monitoring_check_divides_by_sample_witness :
  is_monitoring_scheme SpecFmt.F Examples.scheme
    (DamonIntervals.mk 0 100000 1000000)
  = Py.Err Py.ZeroDivisionError.
Proof.
  apply (monitoring_check_divides_by_sample SpecFmt.F
           (Damos.mk "0"
              (mk 0 SpecFmt.ulong_max 0 100 unit_percent 0 SpecFmt.ulong_max
                 unit_usec)
              "stat" (DamosQuotas.mk 0 0 SpecFmt.ulong_max 0 0 0)
              (DamosWatermarks.mk "none" 0 0 0 0) [] None None)).
  - vm_compute. reflexivity.
  - reflexivity.
Defined.

End PatternMore.

Module KvpairsMore.

Lemma map_res_ok {A B : Type} (f : A -> Py.res B) (xs : list A) :
  Py.is_ok (Py.map_res f xs) = true -> forall x, In x xs -> Py.is_ok (f x) = true.
Proof.
  induction xs as [|y xs IH]; intros Hok x Hin; [destruct Hin|].
  cbn [Py.map_res] in Hok.
  destruct (f y) as [b|] eqn:Hb; [|discriminate Hok].
  destruct (Py.map_res f xs) as [bs|]; [|discriminate Hok].
  destruct Hin as [<-|Hin]; [by rewrite Hb | by apply IH].
Qed.

Lemma ctx_without_nr_regions (F : FmtStr.t) (kv : Py.value) :
  Py.contains kv "nr_regions" = Py.Ok false ->
  Py.is_ok (kvpairs_to_DamonCtx F kv) = false.
Proof.
  intros Hnr. unfold kvpairs_to_DamonCtx.
  destruct (Py.getitem kv "name") as [n|]; cbn [Py.bind]; [|done].
  destruct (Py.as_str n) as [name|]; cbn [Py.bind]; [|done].
  destruct (Py.contains kv "intervals") as [has|]; cbn [Py.bind]; [|done].
  destruct (if has then _ else _) as [intervals|]; cbn [Py.bind]; [|done].
  rewrite Hnr. reflexivity.
Qed.

(** X16.  [kvpairs_to_DamonCtx] never returns a context for key-value
    pairs that have no ["nr_regions"]: the default it then asks for is
    spelled [DAmonNrRegionsRange], which is not defined, so the call raises
    (a [NameError], unless reading the name or the intervals has raised
    first).  Hence [kvpairs_to_Kdamond] never returns a kdamond when one of
    its contexts has no ["nr_regions"]. *)
Theorem context_needs_nr_regions (F : FmtStr.t) (kv : Py.value) :
  Py.contains kv "nr_regions" = Py.Ok false ->
  Py.is_ok (kvpairs_to_DamonCtx F kv) = false
  /\ (forall (kd : Py.value) (contexts : list Py.value),
         Py.getitem kd "contexts" = Py.Ok (Py.VList contexts) ->
         In kv contexts ->
         Py.is_ok (kvpairs_to_Kdamond F kd) = false).
Proof.
  intros Hnr. pose proof (ctx_without_nr_regions F kv Hnr) as Hctx.
  split; [exact Hctx|].
  intros kd contexts Hget Hin. unfold kvpairs_to_Kdamond.
  destruct (Py.getitem kd "name") as [n|]; cbn [Py.bind]; [|done].
  destruct (Py.as_str n) as [name|]; cbn [Py.bind]; [|done].
  destruct (Py.contains kd "state") as [has|]; cbn [Py.bind]; [|done].
  destruct (if has then _ else _) as [state|]; cbn [Py.bind]; [|done].
  destruct (Py.contains kd "pid") as [has_pid|]; cbn [Py.bind]; [|done].
  destruct (if has_pid then _ else _) as [pid|]; cbn [Py.bind]; [|done].
  rewrite Hget. cbn [Py.bind Py.as_list].
  destruct (Py.map_res (kvpairs_to_DamonCtx F) contexts) as [cs|] eqn:Hcs;
    cbn [Py.bind]; [|done].
  assert (Py.is_ok (Py.map_res (kvpairs_to_DamonCtx F) contexts) = true)
    as Hok by (by rewrite Hcs).
  pose proof (map_res_ok _ _ Hok kv Hin) as Hkv. congruence.
Qed.

(** The key-value pairs of the context of the unit tests, without the
    entry for its number of regions, alone and in a kdamond. *)
Lemma context_needs_nr_regions_witness :
  Py.is_ok
    (kvpairs_to_DamonCtx SpecFmt.F
       (Py.VDict
          [("name"%string, Py.VStr "test_ctx");
           ("intervals"%string,
             DamonIntervals.to_kvpairs SpecFmt.F
               (DamonIntervals.mk 5000 100000 1000000) true);
           ("ops"%string, Py.VStr "paddr");
           ("targets"%string, Py.VList []);
           ("schemes"%string, Py.VList [])]))
  = false.
Proof.
  apply context_needs_nr_regions. reflexivity.
Defined.

(** X17.  Key-value pairs of an access pattern whose lowest access count
    is given in sample intervals and whose highest one is given in another
    unit are refused with the exception "nr_accesses units should be
    same", whatever else the pairs hold; this holds for every formatting
    module that keeps the contract [FmtStr.lawful]. *)
Theorem mixed_units_refused (F : FmtStr.t) (kv : Py.value) (z z' : Z)
  (u : string) :
  FmtStr.lawful F ->
  Py.getitem kv "min_nr_accesses"
  = Py.Ok (Py.VStr (FmtStr.format_nr F z true ++ " sample_intervals")) ->
  Py.getitem kv "max_nr_accesses"
  = Py.Ok (Py.VStr (FmtStr.format_nr F z' true ++ " " ++ u)) ->
  u <> "sample_intervals"%string ->
  kvpairs_to_DamosAccessPattern F kv
  = Py.Err (Py.Raised "nr_accesses units should be same").
Proof.
  intros HF Hmin Hmax Hu. unfold kvpairs_to_DamosAccessPattern.
  rewrite Hmin, Hmax. cbn [Py.bind].
  rewrite (KvpairsProofs.try_except_refused _ _ _
             (FmtStr.percent_rejects F HF z)).
  change (FmtStr.format_nr F z true ++ " sample_intervals")%string
    with (FmtStr.format_nr F z true ++ " " ++ "sample_intervals")%string.
  rewrite !(FmtStr.nr_unit_raw F HF). cbn [Py.bind].
  assert (String.eqb "sample_intervals" u = false) as ->
    by (apply String.eqb_neq; congruence).
  reflexivity.
Qed.

Lemma mixed_units_refused_witness :
  kvpairs_to_DamosAccessPattern SpecFmt.F
    (Py.VDict
       [("min_nr_accesses"%string,
          Py.VStr (FmtStr.format_nr SpecFmt.F 1 true ++ " sample_intervals"));
        ("max_nr_accesses"%string,
          Py.VStr (FmtStr.format_nr SpecFmt.F 50 true ++ " " ++ "percent"))])
  = Py.Err (Py.Raised "nr_accesses units should be same").
Proof.
  apply (mixed_units_refused SpecFmt.F _ 1 50 "percent").
  - exact SpecFmtProofs.F_lawful.
  - reflexivity.
  - reflexivity.
  - discriminate.
Defined.

End KvpairsMore.

(** ** More on the text decoder *)

Module TextMore.
Import Result RecordShapes ResultFile CodecProofs InferenceProofs.

Lemma ensure_target_chained (tid : Z) (ts : targets) :
  all_chained ts -> all_chained (ensure_target tid ts).
Proof.
  unfold all_chained. induction ts as [|[k v] ts IH]; intros Hts.
  - cbn [ensure_target]. constructor; [apply chained_nil | constructor].
  - cbn [ensure_target]. destruct (k =? tid); [done|].
    inversion Hts; subst. constructor; [done | by apply IH].
Qed.

Lemma ensure_target_ids (tid : Z) (ts : targets) :
  decoded_ids ts -> decoded_ids (ensure_target tid ts).
Proof.
  unfold decoded_ids. induction ts as [|[k v] ts IH]; intros Hts.
  - cbn [ensure_target]. constructor; [constructor | constructor].
  - cbn [ensure_target]. destruct (k =? tid); [done|].
    inversion Hts; subst. constructor; [done | by apply IH].
Qed.

Lemma append_snapshot_ids (tid : Z) (x : DAMONSnapshot) (ts : targets) :
  decoded_ids ts ->
  target_id x = tid -> (exists z, end_time x = Py.Int z) ->
  decoded_ids (append_snapshot tid x ts).
Proof.
  unfold decoded_ids.
  induction ts as [|[k l] ts IH]; intros Hts Hid Hend; cbn [append_snapshot].
  - constructor; [|constructor]. cbn [fst snd]. by constructor.
  - inversion Hts as [|? ? Hl Hrest]; subst. cbn [fst snd] in Hl.
    destruct (Z.eqb_spec k (target_id x)) as [->|_].
    + constructor; [|done]. cbn [fst snd]. apply Forall_app. split; [done|].
      by constructor.
    + constructor; [done|]. by apply IH.
Qed.

(** Replacing the last snapshot by one with the same times keeps a sequence
    chained. *)
Lemma chained_replace_last (l : list DAMONSnapshot) (s s' : DAMONSnapshot) :
  chained (l ++ [s]) ->
  start_time s' = start_time s -> end_time s' = end_time s ->
  chained (l ++ [s']).
Proof.
  intros Hl Hst Hen i a b Hi Hsi.
  assert (S i < length l + 1)%nat as Hlt.
  { apply lookup_lt_Some in Hsi. by rewrite length_app in Hsi. }
  rewrite lookup_app_l in Hi by lia.
  destruct (decide (S i < length l)%nat) as [Hin|Hlast].
  - rewrite lookup_app_l in Hsi by lia.
    apply (Hl i a b); by rewrite lookup_app_l by lia.
  - rewrite lookup_app_r in Hsi by lia.
    replace (S i - length l)%nat with 0%nat in Hsi by lia.
    injection Hsi as <-. rewrite Hst.
    apply (Hl i a s).
    + by rewrite lookup_app_l by lia.
    + rewrite lookup_app_r by lia.
      by replace (S i - length l)%nat with 0%nat by lia.
Qed.

Lemma removelast_last (v : list DAMONSnapshot) (s : DAMONSnapshot) :
  last v = Some s -> v = removelast v ++ [s].
Proof.
  intros Hlast. destruct (decide (v = [])) as [->|Hne]; [done|].
  rewrite (app_removelast_last s Hne) at 1. f_equal. f_equal.
  revert Hlast. clear Hne.
  induction v as [|x v IH]; [done|].
  destruct v as [|y v]; [by intros [= ->]|].
  intros Hl. apply IH. exact Hl.
Qed.

Lemma append_region_chained (tid : Z) (region : DAMONRegion) (ts : targets) :
  forall ts',
    append_region tid region ts = Py.Ok ts' ->
    all_chained ts -> all_chained ts'.
Proof.
  unfold all_chained.
  induction ts as [|[k v] ts IH]; intros ts' Hrun Hts; [done|].
  cbn [append_region] in Hrun. inversion Hts as [|? ? Hv Hrest]; subst.
  cbn [snd] in Hv. destruct (k =? tid).
  - destruct (last v) as [s|] eqn:Hlast; [|done].
    injection Hrun as <-. constructor; [|done]. cbn [snd].
    rewrite (removelast_last v s Hlast) in Hv.
    by eapply chained_replace_last.
  - destruct (append_region tid region ts) as [rest|]; [|done].
    injection Hrun as <-. constructor; [done|]. by apply IH.
Qed.

Lemma append_region_ids (tid : Z) (region : DAMONRegion) (ts : targets) :
  forall ts',
    append_region tid region ts = Py.Ok ts' ->
    decoded_ids ts -> decoded_ids ts'.
Proof.
  unfold decoded_ids.
  induction ts as [|[k v] ts IH]; intros ts' Hrun Hts; [done|].
  cbn [append_region] in Hrun. inversion Hts as [|? ? Hv Hrest]; subst.
  cbn [fst snd] in Hv. destruct (k =? tid).
  - destruct (last v) as [s|] eqn:Hlast; [|done].
    injection Hrun as <-. constructor; [|done]. cbn [fst snd].
    rewrite (removelast_last v s Hlast) in Hv.
    apply Forall_app in Hv as [Hv Hs]. apply Forall_app. split; [done|].
    inversion Hs; subst. by constructor.
  - destruct (append_region tid region ts) as [rest|]; [|done].
    injection Hrun as <-. constructor; [done|]. by apply IH.
Qed.

Section Text.

Variable py_int : string -> Py.res Z.
Variable seconds_to_ns : string -> Py.res Z.

Ltac step H :=
  match type of H with
  | Py.bind ?m _ = Py.Ok _ =>
      let E := fresh "E" in
      destruct m eqn:E; cbn [Py.bind] in H; [|discriminate H]
  end.

Lemma read_region_line_invariant (fields : list string) (end_time : Z)
  (result : DAMONResult) (nr_read : Z) (pst : option Z) (st' : perf_state) :
  read_region_line py_int fields end_time result nr_read pst = Py.Ok st' ->
  text_invariant (mkPerf (Some result) nr_read pst) ->
  text_invariant st'.
Proof.
  unfold read_region_line, text_invariant. cbn [p_result].
  intros Hrun (H1 & H2 & H3 & Hch & Hid).
  step Hrun. step Hrun. step Hrun. step Hrun. step Hrun. step Hrun.
  step Hrun. step Hrun. injection Hrun as <-. cbn [p_result].
  cbn [result_start_time result_end_time nr_snapshots target_snapshots].
  split; [done|]. split; [done|]. split; [done|].
  match goal with
  | E : append_region _ _ _ = Py.Ok _ |- _ =>
      split; [eapply append_region_chained; [exact E|]
             | eapply append_region_ids; [exact E|]]
  end.
  - destruct (nr_read =? 0).
    + apply append_snapshot_chained; [by apply ensure_target_chained | done].
    + by apply ensure_target_chained.
  - destruct (nr_read =? 0).
    + apply append_snapshot_ids; [by apply ensure_target_ids | done |].
      by eexists.
    + by apply ensure_target_ids.
Qed.

Lemma new_result_invariant (nr_read : Z) (pst : option Z) :
  text_invariant (mkPerf (Some new_result) nr_read pst).
Proof.
  unfold text_invariant. cbn. repeat split; constructor.
Qed.

Lemma default_result_invariant (st : perf_state) (nr_read : Z)
  (pst : option Z) :
  text_invariant st ->
  text_invariant (mkPerf (Some (default new_result (p_result st))) nr_read pst).
Proof.
  unfold text_invariant at 1. destruct (p_result st) as [r|].
  - done.
  - intros _. apply new_result_invariant.
Qed.

Lemma perf_line_invariant (max_secs : option Z) (st : perf_state)
  (line : string) (c : control) (st' : perf_state) :
  perf_line py_int seconds_to_ns max_secs st line = Py.Ok (c, st') ->
  text_invariant st -> text_invariant st'.
Proof.
  unfold perf_line. intros Hrun Hst.
  destruct (skipped (fields_of line)).
  { by injection Hrun as _ <-. }
  step Hrun.
  destruct (p_parse_start_time st) as [t|].
  - destruct (over_budget max_secs (Some t) _).
    + injection Hrun as _ <-. by apply default_result_invariant.
    + step Hrun. injection Hrun as _ <-.
      eapply read_region_line_invariant; [eassumption|].
      by apply default_result_invariant.
  - step Hrun. injection Hrun as _ <-.
    eapply read_region_line_invariant; [eassumption|].
    by apply default_result_invariant.
Qed.

Lemma perf_loop_invariant (max_secs : option Z) (lines : list string) :
  forall st st',
    perf_loop py_int seconds_to_ns max_secs lines st = Py.Ok st' ->
    text_invariant st -> text_invariant st'.
Proof.
  induction lines as [|line lines IH]; intros st st' Hrun Hst.
  - by injection Hrun as <-.
  - cbn [perf_loop] in Hrun.
    destruct (perf_line py_int seconds_to_ns max_secs st line)
      as [[c st1]|] eqn:Hline; cbn [Py.bind] in Hrun; [|done].
    pose proof (perf_line_invariant _ _ _ _ _ Hline Hst) as Hst1.
    destruct c.
    + by eapply IH.
    + by injection Hrun as <-.
Qed.

End Text.

(** X18.  Whatever [int] and [float] make of the fields, a result returned
    by [perf_script_to_damon_result] has no start time, end time or number
    of snapshots yet; in every target's sequence each snapshot but the
    first starts when the previous one ends, and every snapshot is filed
    under its own target id and ends at an integer time. *)
Theorem text_decoder_chains (py_int seconds_to_ns : string -> Py.res Z)
  (lines : list string) (max_secs : option Z) (r : DAMONResult) :
  perf_script_to_damon_result py_int seconds_to_ns lines max_secs
  = Py.Ok (Some r) ->
  result_start_time r = None
  /\ result_end_time r = None
  /\ nr_snapshots r = None
  /\ all_chained (target_snapshots r)
  /\ Forall (fun e : Z * list DAMONSnapshot =>
               Forall (fun s => target_id s = fst e
                                /\ exists z, end_time s = Py.Int z) (snd e))
       (target_snapshots r).
Proof.
  unfold perf_script_to_damon_result. intros Hrun.
  destruct (perf_loop py_int seconds_to_ns max_secs lines (mkPerf None 0 None))
    as [st|] eqn:Hloop; cbn [Py.bind] in Hrun; [|done].
  injection Hrun as Hr.
  pose proof (perf_loop_invariant py_int seconds_to_ns max_secs lines _ _
                Hloop I) as Hinv.
  unfold text_invariant in Hinv. by rewrite Hr in Hinv.
Qed.

Lemma text_decoder_chains_witness :
  exists r,
    perf_script_to_damon_result Examples.read_int Examples.read_seconds
      [Examples.good_line; Examples.good_line] None
    = Py.Ok (Some r)
    /\ result_start_time r = None
    /\ result_end_time r = None
    /\ nr_snapshots r = None
    /\ all_chained (target_snapshots r)
    /\ Forall (fun e : Z * list DAMONSnapshot =>
                 Forall (fun s => target_id s = fst e
                                  /\ exists z, end_time s = Py.Int z) (snd e))
         (target_snapshots r).
Proof.
  eexists. split; [vm_compute; reflexivity|].
  apply (text_decoder_chains Examples.read_int Examples.read_seconds
           [Examples.good_line; Examples.good_line] None).
  vm_compute. reflexivity.
Defined.

(** X19.  A text file in which no line is a [damon:damon_aggregated] line
    of 9 or 10 fields makes [parse_damon_result_for] raise
    [AttributeError]: the decoder returns [None] for the result, and its
    [target_snapshots] is read. *)
Theorem text_without_records_raises (py_int seconds_to_ns : string -> Py.res Z)
  (lines : list string) (max_secs : option Z) :
  Forall (fun line => skipped (fields_of line) = true) lines ->
  perf_script_to_damon_result py_int seconds_to_ns lines max_secs = Py.Ok None
  /\ parse_damon_result_for_perf_script py_int seconds_to_ns lines max_secs
     = Py.Err Py.AttributeError.
Proof.
  intros Hall.
  assert (perf_loop py_int seconds_to_ns max_secs lines (mkPerf None 0 None)
          = Py.Ok (mkPerf None 0 None)) as Hloop.
  { induction Hall as [|line lines Hline _ IH]; [done|].
    cbn [perf_loop].
    by rewrite (perf_line_skipped py_int seconds_to_ns _ _ _ Hline). }
  unfold parse_damon_result_for_perf_script, perf_script_to_damon_result.
  by rewrite Hloop.
Qed.

Lemma text_without_records_raises_witness :
  perf_script_to_damon_result Examples.read_int Examples.read_seconds
    [Examples.short_line; EmptyString] None = Py.Ok None
  /\ parse_damon_result_for_perf_script Examples.read_int Examples.read_seconds
       [Examples.short_line; EmptyString] None
     = Py.Err Py.AttributeError.
Proof.
  apply text_without_records_raises.
  repeat constructor.
Defined.

End TextMore.

(** ** Initial regions given on the command line ([_damon_dbgfs.py]) *)

Module DbgfsProofs.
Import Dbgfs.

Lemma ascending_nil : ascending [].
Proof. split; [constructor|]. intros i r r' Hi. by destruct i. Qed.

Lemma ascending_snoc (regions : list (Z * Z)) (r : Z * Z) :
  ascending regions ->
  fst r < snd r ->
  (forall prev, last regions = Some prev -> snd prev <= fst r) ->
  ascending (regions ++ [r]).
Proof.
  intros [Hall Hnext] Hr Hprev. split.
  - apply Forall_app. split; [done | by constructor].
  - intros i a b Hi Hsi.
    assert (S i < length regions + 1)%nat as Hlt.
    { apply lookup_lt_Some in Hsi. by rewrite length_app in Hsi. }
    rewrite lookup_app_l in Hi by lia.
    destruct (decide (S i < length regions)%nat) as [Hin|Hlast].
    + rewrite lookup_app_l in Hsi by lia. by eapply Hnext.
    + rewrite lookup_app_r in Hsi by lia.
      replace (S i - length regions)%nat with 0%nat in Hsi by lia.
      injection Hsi as <-. apply Hprev.
      rewrite last_lookup. by replace (pred (length regions)) with i by lia.
Qed.

(** In a list in increasing order, every region ends no later than every
    later one starts. *)
Lemma ascending_pairwise (regions : list (Z * Z)) :
  ascending regions ->
  forall j i ri rj,
    (i < j)%nat -> regions !! i = Some ri -> regions !! j = Some rj ->
    snd ri <= fst rj.
Proof.
  intros [Hall Hnext]. induction j as [|j IH]; intros i ri rj Hij Hi Hj; [lia|].
  destruct (decide (i = j)) as [->|Hne]; [by eapply Hnext|].
  destruct (lookup_lt_is_Some_2 regions j) as [rm Hm].
  { apply lookup_lt_Some in Hj. lia. }
  assert (snd ri <= fst rm) by (apply (IH i ri rm); [lia | done | done]).
  assert (fst rm < snd rm).
  { rewrite Forall_forall in Hall. apply Hall.
    by eapply list_elem_of_lookup_2. }
  assert (snd rm <= fst rj) by (by eapply Hnext).
  lia.
Qed.

Section InitRegions.

Variable py_int : string -> Py.res Z.

Lemma add_init_region_ascending (regions regions' : list (Z * Z))
  (arg : string) :
  add_init_region py_int regions arg = Py.Ok regions' ->
  ascending regions ->
  ascending regions' /\ length regions' = S (length regions).
Proof.
  unfold add_init_region, checked_region. intros Hrun Hasc.
  destruct (negb _); [discriminate Hrun|].
  destruct (py_int (nth 0 _ _)) as [start|]; cbn [Py.bind] in Hrun;
    [|discriminate Hrun].
  destruct (py_int (nth 1 _ _)) as [end_|]; cbn [Py.bind] in Hrun;
    [|discriminate Hrun].
  destruct (Z.leb_spec end_ start) as [|Hlt]; [discriminate Hrun|].
  destruct (last regions) as [prev|] eqn:Hlast.
  - destruct (Z.ltb_spec start (snd prev)) as [|Hge]; [discriminate Hrun|].
    injection Hrun as <-. split.
    + apply ascending_snoc; [done | done |].
      intros p Hp. rewrite Hlast in Hp. by injection Hp as <-.
    + rewrite length_app. simpl. lia.
  - injection Hrun as <-. split.
    + apply ascending_snoc; [done | done |].
      intros p Hp. rewrite Hlast in Hp. discriminate Hp.
    + rewrite length_app. simpl. lia.
Qed.

Lemma init_regions_loop_ascending (args : list string) :
  forall regions regions',
    init_regions_loop py_int args regions = Py.Ok regions' ->
    ascending regions ->
    ascending regions'
    /\ length regions' = (length regions + length args)%nat.
Proof.
  induction args as [|arg args IH]; intros regions regions' Hrun Hasc.
  - injection Hrun as <-. split; [done | simpl; lia].
  - cbn [init_regions_loop] in Hrun.
    destruct (add_init_region py_int regions arg) as [regions1|] eqn:Hadd;
      cbn [Py.bind] in Hrun; [|discriminate Hrun].
    destruct (add_init_region_ascending _ _ _ Hadd Hasc) as [Hasc1 Hlen1].
    destruct (IH _ _ Hrun Hasc1) as [Hasc' Hlen'].
    split; [done|]. rewrite Hlen', Hlen1. simpl. lia.
Qed.

End InitRegions.

(** X20.  Whatever [int] makes of the addresses, when
    [cmd_args_to_init_regions] returns (it ends the program with [exit(1)]
    otherwise), it returns one region for every white-space separated token
    of its argument, every region has its start below its end, and every
    region ends no later than every later one starts: the regions are in
    increasing order and no two of them overlap. *)
Theorem init_regions_ascending (py_int : string -> Py.res Z)
  (regions_arg : string) (regions : list (Z * Z)) :
  cmd_args_to_init_regions py_int regions_arg = Py.Ok regions ->
  length regions = length (Result.split regions_arg)
  /\ Forall (fun r : Z * Z => fst r < snd r) regions
  /\ (forall i j ri rj,
         (i < j)%nat -> regions !! i = Some ri -> regions !! j = Some rj ->
         snd ri <= fst rj).
Proof.
  unfold cmd_args_to_init_regions. intros Hrun.
  destruct (init_regions_loop_ascending py_int _ _ _ Hrun ascending_nil)
    as [Hasc Hlen].
  split; [exact Hlen|]. split; [apply Hasc|].
  intros i j ri rj. by apply ascending_pairwise.
Qed.

Lemma init_regions_ascending_witness :
  length [(1, 10); (10, 20); (4096, 8192)]
  = length (Result.split "1-10 10-20  4096-8192")
  /\ Forall (fun r : Z * Z => fst r < snd r) [(1, 10); (10, 20); (4096, 8192)]
  /\ (forall i j ri rj,
         (i < j)%nat ->
         [(1, 10); (10, 20); (4096, 8192)] !! i = Some ri ->
         [(1, 10); (10, 20); (4096, 8192)] !! j = Some rj ->
         snd ri <= fst rj).
Proof.
  apply (init_regions_ascending Examples.read_int "1-10 10-20  4096-8192").
  vm_compute. reflexivity.
Defined.

(** X21.  [cmd_args_to_init_regions] never returns for an argument in which
    some token lacks the dash, has more than one, or gives a start that is
    not below its end: it ends the program with [exit(1)]. *)
Theorem init_regions_rejects (py_int : string -> Py.res Z)
  (regions_arg arg : string) :
  In arg (Result.split regions_arg) ->
  length (Result.split_on "-"%char arg) <> 2%nat
  \/ (exists s e, py_int (nth 0 (Result.split_on "-"%char arg) EmptyString)
                  = Py.Ok s
                  /\ py_int (nth 1 (Result.split_on "-"%char arg) EmptyString)
                     = Py.Ok e
                  /\ e <= s) ->
  cmd_args_to_init_regions py_int regions_arg = Py.Err system_exit.
Proof.
  unfold cmd_args_to_init_regions. intros Hin Hbad.
  assert (forall regions,
             add_init_region py_int regions arg = Py.Err system_exit)
    as Harg.
  { intros regions. unfold add_init_region, checked_region.
    destruct Hbad as [Hlen | (s & e & Hs & He & Hle)].
    - apply Nat.eqb_neq in Hlen. by rewrite Hlen.
    - destruct (negb _); [done|]. rewrite Hs, He. cbn [Py.bind].
      destruct (Z.leb_spec e s); [done | lia]. }
  generalize (@nil (Z * Z)).
  induction (Result.split regions_arg) as [|a args IH]; intros regions;
    [destruct Hin|].
  cbn [init_regions_loop].
  destruct Hin as [->|Hin].
  - by rewrite Harg.
  - destruct (add_init_region py_int regions a) as [regions1|e] eqn:Hadd;
      cbn [Py.bind].
    + by apply IH.
    + unfold add_init_region in Hadd.
      destruct (checked_region py_int regions a); [discriminate Hadd|].
      by injection Hadd as <-.
Qed.

Lemma init_regions_rejects_witness :
  cmd_args_to_init_regions Examples.read_int "1-10 30-20"
  = Py.Err system_exit.
Proof.
  apply (init_regions_rejects Examples.read_int "1-10 30-20" "30-20").
  - vm_compute. right. by left.
  - right. exists 30, 20. vm_compute. repeat split; discriminate.
Defined.

End DbgfsProofs.

(** ** More on parsing a result file *)

Module FileMore.
Import Result RecordShapes ResultFile.

Lemma decode_records_shape (f : File.t) (v : Z) (max_secs : option Z)
  (d : decoded) :
  decode_records f v max_secs = Py.Ok d ->
  d_err d = None
  /\ (exists r, d_result d = Some r)
  /\ (exists f', d_file d = Some f').
Proof.
  unfold decode_records.
  destruct (record_loop _ v max_secs f None []) as [[ts f']|];
    cbn [Py.bind]; [|done].
  intros [= <-]. cbn. eauto.
Qed.

Lemma opened_shape (contents : list byte) (fmt_version max_secs : option Z)
  (d : decoded) :
  record_to_damon_result contents None fmt_version max_secs = Py.Ok d ->
  d_err d = None
  /\ (exists r, d_result d = Some r)
  /\ (exists f', d_file d = Some f').
Proof.
  unfold record_to_damon_result.
  destruct (File.read 16 (File.open contents)) as [mark f1].
  destruct (bytes_eqb mark magic).
  - destruct (read_unpack Struct.fmt_i f1) as [[v f2]|]; cbn [Py.bind];
      [|done].
    apply decode_records_shape.
  - apply decode_records_shape.
Qed.

(** X22.  [parse_damon_result] never returns an error text for a binary
    record file: when it returns, the error is [None] and the result is
    there.  Every failure of the decoding or of the inference of the start
    times surfaces as an exception. *)
Theorem parse_damon_result_no_error_text (contents : list byte)
  (result : option DAMONResult) (err : option string) :
  parse_damon_result contents = Py.Ok (result, err) ->
  err = None /\ exists r, result = Some r.
Proof.
  unfold parse_damon_result, parse_damon_result_for.
  destruct (record_to_damon_result contents None None None) as [d|] eqn:Hd;
    cbn [Py.bind]; [|done].
  destruct (opened_shape _ _ _ _ Hd) as (Herr & [r Hr] & [f' Hf]).
  rewrite Herr, Hr.
  destruct (infer_times (Some r)) as [r'|]; cbn [Py.bind mret res_ret];
    [|done].
  cbn [d_err d_file d_result]. rewrite Hf.
  intros [= <- <-]. eauto.
Qed.

Lemma parse_damon_result_no_error_text_witness :
  None = (None : option string)
  /\ exists r,
       Some
         (mkResult (Some (Py.Float (90 # 1))) (Some (Py.Int 110)) (Some 2)
            [(1, [mkSnapshot (Some (Py.Float (90 # 1))) (Py.Int 100) 1 [];
                  mkSnapshot (Some (Py.Int 100)) (Py.Int 110) 1 []]);
             (2, [mkSnapshot (Some (Py.Float (100 # 1))) (Py.Int 110) 2 [];
                  mkSnapshot (Some (Py.Int 110)) (Py.Int 150) 2 []])])
       = Some r.
Proof.
  apply (parse_damon_result_no_error_text Examples.two_target_file).
  vm_compute. reflexivity.
Defined.

(** X23.  The reading half of the fake snapshot.  When the only target of
    a decoded result has two snapshots and the second one holds the single
    region [DAMONRegion(0, 0, -1, -1)], the inference of the start times
    removes that second snapshot and gives the first one the start time
    [end0 - (end1 - end0)], as a float, where [end0] and [end1] are the end
    times of the two.  The result keeps the end time of the removed
    snapshot and [nr_snapshots = 2], one more than the snapshots left. *)
Theorem fake_snapshot_is_cut (tid : Z) (s0 s1 : DAMONSnapshot) :
  regions s1 = [fake_region] ->
  infer_times (Some (mkResult None None None [(tid, [s0; s1])]))
  = Py.Ok
      (mkResult
         (Some (Py.Float
                  (Py.to_Q (end_time s0)
                   - Py.to_Q (Py.sub (end_time s1) (end_time s0))
                     / inject_Z 1)))
         (Some (end_time s1)) (Some 2)
         [(tid,
           [mkSnapshot
              (Some (Py.Float
                       (Py.to_Q (end_time s0)
                        - Py.to_Q (Py.sub (end_time s1) (end_time s0))
                          / inject_Z 1)))
              (end_time s0) (target_id s0) (regions s0)])]).
Proof.
  intros Hfake. unfold infer_times.
  cbn [target_snapshots result_start_time result_end_time nr_snapshots
         infer_loop length Nat.ltb Nat.leb Py.truthy negb t_start head last
         measure snapshot_time set_first_start cut_fake regions].
  rewrite Hfake. reflexivity.
Qed.

Lemma fake_snapshot_is_cut_witness :
  infer_times
    (Some (mkResult None None None
             [(1, [mkSnapshot None (Py.Int 1000000000) 1
                     [mkRegion 100 200 3 (Some 0)];
                   mkSnapshot (Some (Py.Int 1000000000)) (Py.Int 2000000000) 1
                     [fake_region]])]))
  = Py.Ok
      (mkResult (Some (Py.Float (0 # 1))) (Some (Py.Int 2000000000)) (Some 2)
         [(1, [mkSnapshot (Some (Py.Float (0 # 1))) (Py.Int 1000000000) 1
                 [mkRegion 100 200 3 (Some 0)]])]).
Proof.
  refine (eq_trans
            (fake_snapshot_is_cut 1
               (mkSnapshot None (Py.Int 1000000000) 1
                  [mkRegion 100 200 3 (Some 0)])
               (mkSnapshot (Some (Py.Int 1000000000)) (Py.Int 2000000000) 1
                  [fake_region])
               eq_refl) _).
  vm_compute. reflexivity.
Defined.

End FileMore.

(** ** Writing a result as text and reading it back *)

Module WriterProofs.
Import Result PerfWriter CodecProofs.
Local Open Scope string_scope.

(** *** Texts *)

(** [String.append] is kept folded by the tactics; its two equations. *)
Lemma append_cons (x : ascii) (a b : string) :
  String x a ++ b = String x (a ++ b).
Proof. reflexivity. Qed.

Lemma append_nil_l (b : string) : "" ++ b = b.
Proof. reflexivity. Qed.

Lemma append_assoc (a b c : string) : (a ++ b) ++ c = a ++ (b ++ c).
Proof.
  induction a as [|x a IH]; [done|]. by rewrite !append_cons, IH.
Qed.

Lemma append_nil_r (a : string) : a ++ "" = a.
Proof. induction a as [|x a IH]; [done|]. by rewrite append_cons, IH. Qed.

Lemma string_rev_app (a b : string) :
  string_rev (a ++ b) = string_rev b ++ string_rev a.
Proof.
  induction a as [|x a IH].
  - by rewrite append_nil_l, append_nil_r.
  - rewrite append_cons. cbn [string_rev]. by rewrite IH, append_assoc.
Qed.

Lemma string_rev_involutive (a : string) : string_rev (string_rev a) = a.
Proof.
  induction a as [|x a IH]; cbn [string_rev]; [done|].
  by rewrite string_rev_app, IH.
Qed.

Lemma spaceless_app (a b : string) :
  spaceless (a ++ b) = spaceless a && spaceless b.
Proof.
  induction a as [|x a IH]; [done|].
  rewrite append_cons. cbn [spaceless]. by rewrite IH, andb_assoc.
Qed.

Lemma numeric_is_not_space (c : ascii) :
  SpecFmt.numeric c = true -> is_space c = false.
Proof.
  destruct c as [[|] [|] [|] [|] [|] [|] [|] [|]]; vm_compute; congruence.
Qed.

Lemma all_numeric_spaceless (s : string) :
  SpecFmt.all_numeric s = true -> spaceless s = true.
Proof.
  induction s as [|c s IH]; simpl; [done|].
  intros [Hc Hs]%andb_true_iff.
  by rewrite (numeric_is_not_space c Hc), (IH Hs).
Qed.

(** The decimal text of an integer is a token. *)
Lemma str_of_int_token (z : Z) : token (Py.str_of_int z).
Proof.
  split.
  - apply all_numeric_spaceless. exact (SpecFmtProofs.dec_numeric z).
  - exact (SpecFmtProofs.dec_nonempty z).
Qed.

(** *** Splitting a line into fields *)

Lemma split_from_token (tok : string) :
  spaceless tok = true ->
  forall s cur, split_from (tok ++ s) cur = split_from s (cur ++ tok).
Proof.
  induction tok as [|c tok IH]; intros Htok s cur.
  - by rewrite append_nil_r.
  - simpl in Htok. apply andb_true_iff in Htok as [Hc Htok].
    apply negb_true_iff in Hc. rewrite append_cons. cbn [split_from].
    rewrite Hc.
    rewrite (IH Htok). by rewrite append_assoc.
Qed.

Lemma split_join (toks : list string) :
  Forall token toks -> split (join_spaces toks) = toks.
Proof.
  unfold split. induction 1 as [|t toks [Ht Hne] Hall IH]; [done|].
  destruct toks as [|t2 toks].
  - cbn [join_spaces]. rewrite <- (append_nil_r t) at 1.
    rewrite (split_from_token t Ht), append_nil_l. cbn [split_from].
    by destruct t.
  - change (join_spaces (t :: t2 :: toks))
      with (t ++ String " " (join_spaces (t2 :: toks))).
    rewrite (split_from_token t Ht), append_nil_l. cbn [split_from].
    change (is_space " ") with true. cbv iota.
    rewrite IH. by destruct t.
Qed.

(** Stripping a line that starts and ends with characters that are not
    white space, and its newline. *)
Lemma strip_core (c1 c2 : ascii) (rest x nl : string) :
  is_space c1 = false -> is_space c2 = false ->
  String c1 rest = x ++ String c2 "" ->
  nl = "" \/ nl = String "010" "" ->
  strip (String c1 rest ++ nl) = String c1 rest.
Proof.
  intros H1 H2 Hx Hnl. unfold strip.
  rewrite append_cons. cbn [lstrip]. rewrite H1, <- append_cons.
  rewrite Hx, !string_rev_app. cbn [string_rev].
  rewrite append_nil_l, append_cons, append_nil_l.
  assert (lstrip (string_rev nl ++ String c2 (string_rev x))
          = String c2 (string_rev x)) as ->.
  { destruct Hnl as [-> | ->]; cbn [string_rev];
      rewrite ?append_nil_l, ?append_cons; cbn [lstrip];
      change (is_space "010") with true; cbv iota;
      rewrite ?append_nil_l; cbn [lstrip]; by rewrite H2. }
  cbn [string_rev]. by rewrite string_rev_involutive.
Qed.

Lemma token_app_l (a b : string) :
  spaceless a = true -> token b -> token (a ++ b).
Proof.
  intros Ha [Hb Hne]. split.
  - by rewrite spaceless_app, Ha, Hb.
  - destruct a; [by rewrite append_nil_l | by rewrite append_cons].
Qed.

Lemma token_app_r (a b : string) :
  token a -> spaceless b = true -> token (a ++ b).
Proof.
  intros [Ha Hne] Hb. split.
  - by rewrite spaceless_app, Ha, Hb.
  - destruct a; [done | by rewrite append_cons].
Qed.

(** A token ends with a character that is not white space. *)
Lemma token_last (t : string) :
  token t -> exists x c, t = x ++ String c "" /\ is_space c = false.
Proof.
  intros [Ht Hne]. induction t as [|c t IH]; [done|].
  cbn [spaceless] in Ht. apply andb_true_iff in Ht as [Hc Ht].
  apply negb_true_iff in Hc.
  destruct t as [|c' t].
  - exists "", c. by rewrite append_nil_l.
  - destruct (IH Ht) as (x & c2 & Hx & Hc2); [done|].
    exists (String c x), c2. by rewrite append_cons, <- Hx.
Qed.

Lemma join_spaces_snoc (l : list string) (a t : string) :
  join_spaces ((a :: l) ++ [t])%list = join_spaces (a :: l) ++ String " " t.
Proof.
  revert a. induction l as [|b l IH]; intros a; [done|].
  change (join_spaces ((a :: b :: l) ++ [t])%list)
    with (a ++ String " " (join_spaces ((b :: l) ++ [t])%list)).
  rewrite IH.
  change (join_spaces (a :: b :: l))
    with (a ++ String " " (join_spaces (b :: l))).
  by rewrite append_assoc, append_cons.
Qed.

(** The fields of a line made of tokens joined by single spaces, with its
    newline, when the first token starts with [c1]. *)
Lemma fields_of_joined (c1 : ascii) (rest : string) (l : list string)
  (t : string) :
  is_space c1 = false ->
  Forall token (String c1 rest :: l) -> token t ->
  fields_of
    (join_spaces ((String c1 rest :: l) ++ [t])%list ++ String "010" "")
  = ((String c1 rest :: l) ++ [t])%list.
Proof.
  intros Hc1 Hl Ht. unfold fields_of.
  destruct (token_last t Ht) as (x & c2 & Hx & Hc2).
  assert (exists rest' y,
             join_spaces ((String c1 rest :: l) ++ [t])%list
             = String c1 rest'
             /\ String c1 rest' = y ++ String c2 "") as (rest' & y & Hb & Hy).
  { assert (exists r0, join_spaces (String c1 rest :: l) = String c1 r0)
      as [r0 HJ].
    { destruct l as [|b l]; [by exists rest|].
      eexists. cbn [join_spaces]. by rewrite append_cons. }
    exists (r0 ++ String " " t), (String c1 r0 ++ String " " x). split.
    - by rewrite join_spaces_snoc, HJ, append_cons.
    - by rewrite Hx, append_assoc, !append_cons. }
  rewrite Hb.
  rewrite (strip_core c1 c2 rest' y _ Hc1 Hc2 Hy (or_intror eq_refl)).
  rewrite <- (append_nil_r (String c1 rest')).
  rewrite (strip_core c1 c2 rest' y _ Hc1 Hc2 Hy (or_introl eq_refl)).
  rewrite <- Hb. apply split_join.
  apply Forall_app. split; [done | by constructor].
Qed.

(** *** The lines of the writer, read back *)

Section ReadBack.

Variable fmt_f : Q -> string.
Variable py_int : string -> Py.res Z.
Variable seconds_to_ns : string -> Py.res Z.

(** ['%f' % x] has no white space in it. *)
Hypothesis fmt_f_spaceless : forall q, spaceless (fmt_f q) = true.

Lemma literal_token (s : string) :
  spaceless s = true -> s <> "" -> token s.
Proof. by split. Qed.

Lemma str_of_opt_int_token (o : option Z) : token (Py.str_of_opt_int o).
Proof.
  destruct o as [z|]; [apply str_of_int_token|].
  apply literal_token; [reflexivity | discriminate].
Qed.

(** The ten fields of a written line. *)
Lemma written_fields (snapshot : DAMONSnapshot) (region : DAMONRegion) :
  fields_of (perf_script_line fmt_f snapshot region)
  = [ "kdamond.x"; "xxxx"; "xxxx";
      fmt_f (Py.to_Q (end_time snapshot) / inject_Z 1000000000)%Q ++ ":";
      "damon:damon_aggregated:";
      "target_id=" ++ Py.str_of_int (target_id snapshot);
      "nr_regions=" ++ Py.str_of_int (Z.of_nat (length (regions snapshot)));
      Py.str_of_int (start region) ++ "-" ++ Py.str_of_int (end_ region)
      ++ ":";
      Py.str_of_int (nr_accesses region);
      Py.str_of_opt_int (age region) ].
Proof using fmt_f_spaceless.
  set (time := fmt_f (Py.to_Q (end_time snapshot) / inject_Z 1000000000)%Q
               ++ ":").
  set (tid := "target_id=" ++ Py.str_of_int (target_id snapshot)).
  set (nr := "nr_regions="
             ++ Py.str_of_int (Z.of_nat (length (regions snapshot)))).
  set (a := Py.str_of_int (start region)).
  set (b := Py.str_of_int (end_ region)).
  set (n := Py.str_of_int (nr_accesses region)).
  set (g := Py.str_of_opt_int (age region)).
  assert (perf_script_line fmt_f snapshot region
          = join_spaces
              ((String "k" "damond.x"
                :: [ "xxxx"; "xxxx"; time; "damon:damon_aggregated:"; tid; nr;
                     (a ++ "-" ++ b ++ ":")%string; n ]) ++ [g])%list
            ++ String "010" "") as ->.
  { unfold perf_script_line. fold time tid nr a b n g.
    cbn [join_spaces app]. rewrite !append_assoc. reflexivity. }
  rewrite fields_of_joined; [reflexivity | reflexivity | | ].
  - repeat constructor; try discriminate; try reflexivity.
    + subst time. rewrite spaceless_app, fmt_f_spaceless. reflexivity.
    + subst time. destruct (fmt_f _); discriminate.
    + subst tid. rewrite spaceless_app.
      by rewrite (proj1 (str_of_int_token _)).
    + subst nr. rewrite spaceless_app.
      by rewrite (proj1 (str_of_int_token _)).
    + subst a b. rewrite !spaceless_app.
      by rewrite !(proj1 (str_of_int_token _)).
    + subst a. intros H. pose proof (proj2 (str_of_int_token (start region))).
      destruct (Py.str_of_int (start region)); [done | discriminate H].
    + subst n. apply str_of_int_token.
    + subst n. apply str_of_int_token.
  - apply str_of_opt_int_token.
Qed.

(** [int('None')] raises. *)
Hypothesis py_int_None : Py.is_ok (py_int "None") = false.

(** The line of a region without an age is not skipped, and reading its
    tenth field as an integer raises. *)
Lemma ageless_line_refused (snapshot : DAMONSnapshot) (region : DAMONRegion)
  (st : perf_state) :
  age region = None ->
  Py.is_ok
    (perf_line py_int seconds_to_ns None st
       (perf_script_line fmt_f snapshot region))
  = false.
Proof using fmt_f_spaceless py_int_None.
  intros Hage. unfold perf_line. rewrite written_fields, Hage.
  change (skipped _) with false. cbv iota.
  destruct (seconds_to_ns _) as [t|]; cbn [Py.bind]; [|done].
  assert (forall result nr pst,
             Py.is_ok
               (read_region_line py_int
                  [ "kdamond.x"; "xxxx"; "xxxx";
                    fmt_f (Py.to_Q (end_time snapshot) / inject_Z 1000000000)%Q
                    ++ ":";
                    "damon:damon_aggregated:";
                    "target_id=" ++ Py.str_of_int (target_id snapshot);
                    "nr_regions="
                    ++ Py.str_of_int (Z.of_nat (length (regions snapshot)));
                    Py.str_of_int (start region) ++ "-"
                    ++ Py.str_of_int (end_ region) ++ ":";
                    Py.str_of_int (nr_accesses region);
                    Py.str_of_opt_int None ]
                  t result nr pst) = false) as Hread.
  { intros result nr pst. unfold read_region_line.
    destruct (int_after_equals py_int _); cbn [Py.bind]; [|done].
    destruct (int_after_equals py_int _); cbn [Py.bind]; [|done].
    destruct (ints py_int _); cbn [Py.bind]; [|done].
    destruct (py_int (nth 8 _ _)); cbn [Py.bind]; [|done].
    cbn [length Nat.eqb nth Py.str_of_opt_int].
    destruct (py_int "None"); [discriminate py_int_None | done]. }
  destruct (p_parse_start_time st) as [t0|].
  - cbn [over_budget].
    match goal with
    | |- context [read_region_line py_int ?f ?t ?r ?n ?p] =>
        pose proof (Hread r n p) as H;
        destruct (read_region_line py_int f t r n p); [discriminate H | done]
    end.
  - match goal with
    | |- context [read_region_line py_int ?f ?t ?r ?n ?p] =>
        pose proof (Hread r n p) as H;
        destruct (read_region_line py_int f t r n p); [discriminate H | done]
    end.
Qed.

(** Without a time limit, no line ends the loop. *)
Lemma perf_line_no_break (st st' : perf_state) (line : string) (c : control) :
  perf_line py_int seconds_to_ns None st line = Py.Ok (c, st') -> c = Next.
Proof.
  unfold perf_line. destruct (skipped _); [by intros [= <- _]|].
  destruct (seconds_to_ns _); cbn [Py.bind]; [|done].
  destruct (p_parse_start_time st); cbn [over_budget].
  - destruct (read_region_line _ _ _ _ _ _); cbn [Py.bind]; [|done].
    by intros [= <- _].
  - destruct (read_region_line _ _ _ _ _ _); cbn [Py.bind]; [|done].
    by intros [= <- _].
Qed.

Lemma perf_loop_refused (bad : string) (lines : list string) :
  In bad lines ->
  (forall st, Py.is_ok (perf_line py_int seconds_to_ns None st bad) = false) ->
  forall st, Py.is_ok (perf_loop py_int seconds_to_ns None lines st) = false.
Proof.
  intros Hin Hbad. induction lines as [|line lines IH]; intros st;
    [destruct Hin|].
  cbn [perf_loop].
  destruct (perf_line py_int seconds_to_ns None st line) as [[c st1]|] eqn:Hl;
    cbn [Py.bind]; [|done].
  destruct Hin as [->|Hin].
  { pose proof (Hbad st) as H. rewrite Hl in H. discriminate H. }
  rewrite (perf_line_no_break _ _ _ _ Hl). by apply IH.
Qed.

(** Every region of a written snapshot has its line in the output. *)
Lemma index_lines_In (ts : targets) (idx : nat) :
  forall lines tid l s r,
    index_lines fmt_f ts idx = Py.Ok lines ->
    In (tid, l) ts -> l !! idx = Some s -> In r (regions s) ->
    In (perf_script_line fmt_f s r) lines.
Proof.
  induction ts as [|[k v] ts IH]; intros lines tid l s r Hw Hin Hs Hr;
    [destruct Hin|].
  cbn [index_lines] in Hw.
  destruct (v !! idx) as [s0|] eqn:Hv; [|done].
  destruct (index_lines fmt_f ts idx) as [ls|] eqn:Hls; cbn [Py.bind] in Hw;
    [|done].
  injection Hw as <-. apply in_or_app.
  destruct Hin as [[= -> ->]|Hin].
  - left. rewrite Hs in Hv. injection Hv as <-.
    unfold snapshot_lines. by apply in_map.
  - right. by eapply IH.
Qed.

Lemma all_lines_In (ts : targets) (idxs : list nat) :
  forall lines idx tid l s r,
    all_lines fmt_f ts idxs = Py.Ok lines ->
    In idx idxs ->
    In (tid, l) ts -> l !! idx = Some s -> In r (regions s) ->
    In (perf_script_line fmt_f s r) lines.
Proof.
  induction idxs as [|i idxs IH]; intros lines idx tid l s r Hw Hidx Hin Hs Hr;
    [destruct Hidx|].
  cbn [all_lines] in Hw.
  destruct (index_lines fmt_f ts i) as [ls|] eqn:Hls; cbn [Py.bind] in Hw;
    [|done].
  destruct (all_lines fmt_f ts idxs) as [ls'|] eqn:Hls'; cbn [Py.bind] in Hw;
    [|done].
  injection Hw as <-. apply in_or_app.
  destruct Hidx as [->|Hidx].
  - left. by eapply index_lines_In.
  - right. by eapply IH.
Qed.

End ReadBack.

(** X24.  What [write_damon_perf_script] writes for a result that has a
    region without an age among its first [nr_snapshots] snapshots cannot
    be read back: the age is written as the text [None], as the tenth field
    of a line that the decoder does not skip, and
    [perf_script_to_damon_result] raises when it reads that field as an
    integer (or raises earlier).  This holds for every ['%f'] that gives a
    text without white space and every [int] that refuses the text [None],
    as Python's do.  The regions decoded from a binary record have no
    age. *)
Theorem ageless_text_unreadable (fmt_f : Q -> string)
  (py_int seconds_to_ns : string -> Py.res Z) (result : DAMONResult)
  (lines : list string) (n tid : Z) (l : list DAMONSnapshot) (idx : nat)
  (s : DAMONSnapshot) (r : DAMONRegion) :
  (forall q, spaceless (fmt_f q) = true) ->
  Py.is_ok (py_int "None") = false ->
  write_damon_perf_script fmt_f result = Py.Ok lines ->
  nr_snapshots result = Some n ->
  (idx < Z.to_nat n)%nat ->
  In (tid, l) (target_snapshots result) ->
  l !! idx = Some s ->
  In r (regions s) ->
  age r = None ->
  Py.is_ok (perf_script_to_damon_result py_int seconds_to_ns lines None)
  = false.
Proof.
  intros Hfmt Hint Hw Hn Hidx Hin Hs Hr Hage.
  unfold write_damon_perf_script in Hw. rewrite Hn in Hw.
  assert (In (perf_script_line fmt_f s r) lines) as Hline.
  { eapply all_lines_In; eauto. apply in_seq. lia. }
  unfold perf_script_to_damon_result.
  pose proof (perf_loop_refused py_int seconds_to_ns _ lines Hline
                (fun st => ageless_line_refused fmt_f py_int seconds_to_ns
                             Hfmt Hint s r st Hage)
                (mkPerf None 0 None)) as Hloop.
  destruct (perf_loop py_int seconds_to_ns None lines (mkPerf None 0 None));
    [discriminate Hloop | done].
Qed.

(** The result decoded from the binary file of the two targets: its regions
    have no age. *)
Lemma ageless_text_unreadable_witness :
  exists lines,
    write_damon_perf_script (fun _ => "1.000000")
      (mkResult None None (Some 2)
         (target_snapshots MoreExamples.two_by_two_decoded))
    = Py.Ok lines
    /\ Py.is_ok
         (perf_script_to_damon_result Examples.read_int Examples.read_seconds
            lines None)
       = false.
Proof.
  eexists. split; [vm_compute; reflexivity|].
  apply (ageless_text_unreadable (fun _ => "1.000000") Examples.read_int
           Examples.read_seconds
           (mkResult None None (Some 2)
              (target_snapshots MoreExamples.two_by_two_decoded))
           _ 2 1
           [mkSnapshot None (Py.Int 1000000000) 1 [mkRegion 100 200 3 None];
            mkSnapshot (Some (Py.Int 1000000000)) (Py.Int 2000000000) 1
              [mkRegion 100 200 4 None]]
           0%nat
           (mkSnapshot None (Py.Int 1000000000) 1 [mkRegion 100 200 3 None])
           (mkRegion 100 200 3 None)).
  - reflexivity.
  - reflexivity.
  - vm_compute. reflexivity.
  - reflexivity.
  - simpl. lia.
  - by left.
  - reflexivity.
  - by left.
  - reflexivity.
Defined.

End WriterProofs.
